(** * Character gallery and character detail pages: model and properties

    The repository is two browser pages over one persisted collection.
    [gallery.js] (in two variants) creates, lists and deletes characters;
    the detail script resolves one character by its position and manages
    the items in its bag.  Both keep the whole collection, serialised with
    [JSON.stringify], in one [localStorage] slot and hand the selected
    position over in one [sessionStorage] slot.

    The managers are modelled as state transformers over the page state,
    in a small state-and-exception monad: a handler that throws keeps the
    mutations it made before the throw, as in JavaScript, and [try]/[catch]
    is explicit.  What the page shows (message, cards, panel, bag list) is
    kept as data in the state; the replies to [confirm], the clock and the
    random generator are arguments of the handlers.

    Characters and items are records with the fields the scripts write.
    The built-ins of the platform that the scripts call are either defined
    here on strings of Latin-1 code units ([trim], [toLowerCase],
    [parseInt]) or left to an instance of [Platform] ([JSON.parse],
    [JSON.stringify], [Number]). *)

From Stdlib Require Import ZArith String Ascii List Bool Lia DecimalPos DecimalZ.
From stdpp Require Import base option list strings pretty.

Open Scope string_scope.
Open Scope Z_scope.

(** ** JavaScript strings

    A [string] is read as a sequence of UTF-16 code units, one [ascii] per
    unit, so the model covers the strings whose code units are below 256
    (Latin-1).  On these, [String.length] is the [length] property and the
    functions below are the platform's. *)

Module JSString.

(** [!s] is false exactly on the empty string. *)
Definition truthy (s : string) : bool := negb (String.eqb s "").

(** WhiteSpace and LineTerminator code units: TAB, LF, VT, FF, CR, SP, NBSP. *)
Definition isWhiteSpace (c : ascii) : bool :=
  let n := N_of_ascii c in
  ((9 <=? n) && (n <=? 13) || (n =? 32) || (n =? 160))%N.

Fixpoint trimStart (s : string) : string :=
  match s with
  | String c s' => if isWhiteSpace c then trimStart s' else s
  | EmptyString => EmptyString
  end.

(** Drops trailing white space: a white-space unit stays only when
    something that is kept follows it. *)
Fixpoint trimEnd (s : string) : string :=
  match s with
  | String c s' =>
      match trimEnd s' with
      | EmptyString => if isWhiteSpace c then EmptyString else String c EmptyString
      | t => String c t
      end
  | EmptyString => EmptyString
  end.

(** [String.prototype.trim]. *)
Definition trim (s : string) : string := trimEnd (trimStart s).

(** Upper-case letters of Latin-1 (A-Z, and U+00C0 to U+00DE without the
    multiplication sign U+00D7) have their lower-case form 32 units up. *)
Definition lowerChar (c : ascii) : ascii :=
  let n := N_of_ascii c in
  if ((65 <=? n) && (n <=? 90) || (192 <=? n) && (n <=? 222) && negb (n =? 215))%N
  then ascii_of_N (n + 32) else c.

(** [String.prototype.toLowerCase]. *)
Fixpoint toLowerCase (s : string) : string :=
  match s with
  | String c s' => String (lowerChar c) (toLowerCase s')
  | EmptyString => EmptyString
  end.

(** [s.substr(start, len)]: at most [len] units from [start] on. *)
Definition substr (start len : nat) (s : string) : string := substring start len s.

(** A number as the scripts use them: [parseInt] yields an integer or NaN;
    [Number(s)] may also yield a value that is no integer (a fraction or an
    infinity), which [Number.isInteger] rejects like NaN. *)
Inductive JSNumber :=
| NaN
| Int (z : Z)
| NonInteger.

Definition isInteger (n : JSNumber) : bool :=
  match n with Int _ => true | _ => false end.

(** The value of a digit in the given radix, if it is one. *)
Definition digitValue (radix : Z) (c : ascii) : option Z :=
  let n := Z.of_N (N_of_ascii c) in
  let d := if (48 <=? n) && (n <=? 57) then Some (n - 48)
           else if (97 <=? n) && (n <=? 122) then Some (n - 87)
           else if (65 <=? n) && (n <=? 90) then Some (n - 55)
           else None in
  match d with
  | Some k => if k <? radix then Some k else None
  | None => None
  end.

(** Reads the longest prefix of digits; [acc] is [None] until a digit is seen. *)
Fixpoint parseDigits (radix : Z) (acc : option Z) (s : string) : option Z :=
  match s with
  | String c s' =>
      match digitValue radix c with
      | Some d => parseDigits radix (Some (default 0 acc * radix + d)) s'
      | None => acc
      end
  | EmptyString => acc
  end.

(** [parseInt(s)] without a radix: leading white space, an optional sign,
    an optional 0x or 0X prefix, then the longest run of digits. *)
Definition parseInt (s : string) : JSNumber :=
  let s1 := trimStart s in
  let '(sign, s2) :=
    match s1 with
    | String "-" r => (-1, r)
    | String "+" r => (1, r)
    | _ => (1, s1)
    end in
  let '(radix, s3) :=
    match s2 with
    | String "0" (String "x" r) => (16, r)
    | String "0" (String "X" r) => (16, r)
    | _ => (10, s2)
    end in
  match parseDigits radix None s3 with
  | Some m => Int (sign * m)
  | None => NaN
  end.

End JSString.

Import JSString.

(** ** Data model *)

Module Item.
Record t := mk {
  id : string;
  type : string;
  name : string;
  description : string;
  addedAt : string
}.
End Item.

Module Character.
(** [bag] is [None] when the object has no bag property: the detail
    script tests for it and creates the array on the first add. *)
Record t := mk {
  id : Z;
  type : string;
  name : string;
  description : string;
  imageUrl : string;
  bag : option (list Item.t);
  createdAt : string
}.

(** [character.bag || []] *)
Definition bagOrEmpty (c : t) : list Item.t := default [] (bag c).

Definition with_bag (b : list Item.t) (c : t) : t :=
  mk (id c) (type c) (name c) (description c) (imageUrl c) (Some b) (createdAt c).
End Character.

(** ** The platform

    [JSON.parse], [JSON.stringify] and [Number] are the browser's.  The
    model fixes their types and leaves their definitions to an instance:
    every property below holds for any of them.

    The slot is read as a collection: [JSON_parse] is [None] when the
    text is no JSON (the platform throws a SyntaxError) and the parsed
    array of character objects otherwise.  Texts that parse to something
    else than an array of character objects are outside the model. *)

Class Platform := {
  JSON_parse : string -> option (list Character.t);
  JSON_stringify : list Character.t -> string;
  (** [Number(s)], the platform's conversion of a string to a number *)
  ToNumber : string -> JSNumber
}.

(** What the properties of the store rely on: a serialised collection
    parses back to itself, is never the empty string, and the empty string
    is no JSON. *)
Class JSONLaws (P : Platform) : Prop := {
  parse_stringify : forall cs, JSON_parse (JSON_stringify cs) = Some cs;
  stringify_not_empty : forall cs, JSON_stringify cs <> "";
  parse_empty : JSON_parse "" = None
}.

(** ** Handlers: state and exceptions *)

Inductive Exn := SyntaxError | QuotaExceededError | TypeError.

Inductive Completion (A : Type) :=
| Normal (a : A)
| Throw (e : Exn).
Arguments Normal {A} a.
Arguments Throw {A} e.

(** A computation over the page state [S]: it completes normally with a
    value or abruptly with an exception, and leaves a state either way. *)
Definition JS (S A : Type) : Type := S -> Completion A * S.

Definition ret {S A} (a : A) : JS S A := fun s => (Normal a, s).

Definition bind {S A B} (m : JS S A) (k : A -> JS S B) : JS S B :=
  fun s => match m s with
           | (Normal a, s') => k a s'
           | (Throw e, s') => (Throw e, s')
           end.

Definition throw {S A} (e : Exn) : JS S A := fun s => (Throw e, s).

(** [try { m } catch (error) { h }] *)
Definition try_catch {S A} (m : JS S A) (h : Exn -> JS S A) : JS S A :=
  fun s => match m s with
           | (Normal a, s') => (Normal a, s')
           | (Throw e, s') => h e s'
           end.

Definition gets {S A} (f : S -> A) : JS S A := fun s => (Normal (f s), s).
Definition modify {S} (f : S -> S) : JS S unit := fun s => (Normal tt, f s).

(** The state a handler leaves, and whether it returned. *)
Definition exec {S A} (m : JS S A) (s : S) : S := snd (m s).
Definition returns {S A} (m : JS S A) (s : S) : bool :=
  match fst (m s) with Normal _ => true | Throw _ => false end.

Declare Scope js_scope.
Delimit Scope js_scope with js.
Notation "x <- m ;; k" := (bind m (fun x => k))
  (at level 100, m at next level, k at level 200, right associativity) : js_scope.
Notation "m ;;; k" := (bind m (fun _ => k))
  (at level 100, k at level 200, right associativity) : js_scope.
Notation "'try' m 'catch' h" := (try_catch m h)
  (at level 100, m at level 200, h at level 200) : js_scope.

(** ** The browser: storage, console, navigation *)

Record Browser := mkBrowser {
  (** the [localStorage] slot 'dragonRuneCharacters' *)
  localStorage : option string;
  (** the [sessionStorage] slot 'selectedCharacterIndex' *)
  sessionStorage : option string;
  (** the longest text each storage accepts, in code units; [setItem]
      throws beyond it *)
  localQuota : N;
  sessionQuota : N;
  (** labels passed to [console.error], latest first *)
  console : list string;
  (** [window.location.href = target] *)
  location : option string;
  (** [setTimeout(() => window.location.href = target, delay)] *)
  timers : list (string * nat)
}.

Inductive MessageType := success | error.

(** The texts [showMessage] displays. *)
Inductive MessageText :=
| SelectCharacterType       (* 'Please select a character type!' *)
| CharacterNameTooShort     (* 'Character name must be at least 2 characters!' *)
| DescriptionTooShort (min : nat)
                            (* 'Please provide a description (at least min characters)!' *)
| ImageRequired             (* 'Please select or provide a character image!',
                               'Please select an image from assets/images!' *)
| CharacterNameExists       (* 'A character with this name already exists!' *)
| CharacterCreated (name : string)
                            (* name + ' has been created successfully!' *)
| ErrorCreatingCharacter    (* 'Error creating character!' *)
| ErrorSavingCharacters     (* 'Error saving characters!' *)
| CharacterDeleted          (* 'Character deleted.' *)
| AllCharactersDeleted      (* 'All characters have been deleted.' *)
| ErrorDeletingCharacters   (* 'Error deleting characters!' *)
| ErrorOpeningDetails       (* 'Error opening character details!' *)
| SelectItemType            (* 'Please select an item type!' *)
| ItemNameTooShort          (* 'Item name must be at least 2 characters!' *)
| ItemNameExists            (* 'An item with this name already exists in the bag!' *)
| ItemAdded (item owner : string)
                            (* item + ' has been added to ' + owner + 's bag!' *)
| ErrorAddingItem           (* 'Error adding item to bag!' *)
| ItemRemoved (item : string)
                            (* item + ' has been removed from the bag.' *)
| ErrorRemovingItem         (* 'Error removing item!' *)
| ErrorSavingChanges.       (* 'Error saving changes!' *)

(** Page states that contain a browser. *)
Class HasBrowser (S : Type) := {
  browser : S -> Browser;
  with_browser : Browser -> S -> S
}.

(** [setItem] takes a value that fits the quota. *)
Definition accepts (quota : N) (value : string) : bool :=
  (N.of_nat (String.length value) <=? quota)%N.

Definition with_localStorage (slot : option string) (b : Browser) : Browser :=
  mkBrowser slot (sessionStorage b) (localQuota b) (sessionQuota b)
            (console b) (location b) (timers b).

Definition with_sessionStorage (slot : option string) (b : Browser) : Browser :=
  mkBrowser (localStorage b) slot (localQuota b) (sessionQuota b)
            (console b) (location b) (timers b).

Definition logged (label : string) (b : Browser) : Browser :=
  mkBrowser (localStorage b) (sessionStorage b) (localQuota b) (sessionQuota b)
            (label :: console b) (location b) (timers b).

Definition with_location (target : string) (b : Browser) : Browser :=
  mkBrowser (localStorage b) (sessionStorage b) (localQuota b) (sessionQuota b)
            (console b) (Some target) (timers b).

Definition with_timer (target : string) (delay : nat) (b : Browser) : Browser :=
  mkBrowser (localStorage b) (sessionStorage b) (localQuota b) (sessionQuota b)
            (console b) (location b) ((target, delay) :: timers b).

Section BrowserOperations.
Context {S : Type} `{HasBrowser S}.

Definition on_browser (f : Browser -> Browser) : JS S unit :=
  modify (fun s => with_browser (f (browser s)) s).

Definition localStorage_getItem : JS S (option string) :=
  gets (fun s => localStorage (browser s)).

Definition localStorage_setItem (value : string) : JS S unit :=
  (b <- gets browser ;;
   if accepts (localQuota b) value
   then on_browser (with_localStorage (Some value))
   else throw QuotaExceededError)%js.

Definition sessionStorage_getItem : JS S (option string) :=
  gets (fun s => sessionStorage (browser s)).

Definition sessionStorage_setItem (value : string) : JS S unit :=
  (b <- gets browser ;;
   if accepts (sessionQuota b) value
   then on_browser (with_sessionStorage (Some value))
   else throw QuotaExceededError)%js.

Definition sessionStorage_removeItem : JS S unit :=
  on_browser (with_sessionStorage None).

Definition console_error (label : string) : JS S unit :=
  on_browser (logged label).

Definition location_assign (target : string) : JS S unit :=
  on_browser (with_location target).

Definition setTimeout_redirect (target : string) (delay : nat) : JS S unit :=
  on_browser (with_timer target delay).

(** [JSON.parse(text)]: throws a SyntaxError on a text that is no JSON. *)
Definition JSON_parse_or_throw {P : Platform} (text : string) : JS S (list Character.t) :=
  match JSON_parse text with
  | Some cs => ret cs
  | None => throw SyntaxError
  end.

End BrowserOperations.

(** [array[n]] for a number [n]: the element at an index within the
    array, [undefined] ([None]) for any other number. *)
Definition array_get {A} (l : list A) (n : JSNumber) : option A :=
  match n with
  | Int z => if 0 <=? z then l !! Z.to_nat z else None
  | _ => None
  end.

(** What the scripts read from the clock and the random generator. *)
Record Env := mkEnv {
  (** [Date.now()] *)
  Date_now : Z;
  (** [new Date().toISOString()] *)
  Date_toISOString : string;
  (** [Math.random().toString(36)] *)
  Math_random_toString36 : string
}.

(** ** The gallery page (gallery.js)

    The file holds two variants of the page.  The first takes the image
    from a select or a custom URL field and asks for a description of at
    least 10 characters; the second takes local images only, asks for 5,
    and gives every card a delete button. *)

Module Gallery.

Inductive Variant := CustomImages | LocalImages.

(** The fields [FormData] reads from the character form.  A control
    that is disabled is left out of the form data, and [formData.get]
    returns null for it: the first variant disables the custom URL field
    as soon as an image is selected, and the form of the second variant
    has no such field.  [customImageUrl] is [None] then. *)
Module Form.
Record t := mk {
  type : string;
  name : string;
  description : string;
  imageUrl : string;
  customImageUrl : option string
}.
End Form.

Record State := mkState {
  page_browser : Browser;
  (** [this.characters] *)
  characters : list Character.t;
  (** the message [showMessage] displays *)
  message : option (MessageText * MessageType);
  (** the cards of the gallery, as [renderGallery] built them *)
  cards : list Character.t
}.

#[global] Instance state_browser : HasBrowser State := {
  browser := page_browser;
  with_browser b s := mkState b (characters s) (message s) (cards s)
}.

Definition with_characters (cs : list Character.t) (s : State) : State :=
  mkState (page_browser s) cs (message s) (cards s).

Definition with_message (text : MessageText) (type : MessageType) (s : State) : State :=
  mkState (page_browser s) (characters s) (Some (text, type)) (cards s).

Definition showMessage (text : MessageText) (type : MessageType) : JS State unit :=
  modify (with_message text type).

Definition rendered (s : State) : State :=
  mkState (page_browser s) (characters s) (message s) (characters s).

Definition renderGallery : JS State unit := modify rendered.

Section Manager.
Context {P : Platform}.
Open Scope js_scope.

Definition loadCharacters : JS State (list Character.t) :=
  try (stored <- localStorage_getItem ;;
       match stored with
       | Some text => if truthy text then JSON_parse_or_throw text else ret []
       | None => ret []
       end)
  catch (fun _ => console_error "Error loading characters:" ;;; ret []).

Definition saveCharacters : JS State unit :=
  try (cs <- gets characters ;;
       localStorage_setItem (JSON_stringify cs))
  catch (fun _ => console_error "Error saving characters:" ;;;
                  showMessage ErrorSavingCharacters error).

(** [new CharacterManager()]: load, wire the listeners, render. *)
Definition constructor : JS State unit :=
  cs <- loadCharacters ;;
  modify (with_characters cs) ;;;
  renderGallery.

Definition minDescriptionLength (v : Variant) : nat :=
  match v with CustomImages => 10%nat | LocalImages => 5%nat end.

(** The candidate [characterData] that [handleFormSubmit] builds.  The
    first variant calls [.trim()] on what [formData.get('customImageUrl')]
    returns: on null this is a TypeError, and no candidate is built.  The
    second variant guards its read of the image with [|| ''] and reads no
    custom URL. *)
Definition characterData (v : Variant) (env : Env) (form : Form.t) : Completion Character.t :=
  let candidate imageUrl :=
    Character.mk (Date_now env) (Form.type form) (trim (Form.name form))
                 (trim (Form.description form)) imageUrl (Some [])
                 (Date_toISOString env) in
  match v with
  | CustomImages =>
      (* formData.get('customImageUrl').trim() || formData.get('imageUrl') *)
      match Form.customImageUrl form with
      | Some custom =>
          Normal (candidate (if truthy (trim custom) then trim custom
                             else Form.imageUrl form))
      | None => Throw TypeError
      end
  | LocalImages =>
      (* imageFile ? `assets/images/${imageFile}` : '' *)
      let imageFile := trim (Form.imageUrl form) in
      Normal (candidate (if truthy imageFile then "assets/images/" ++ imageFile else ""))
  end.

(** [this.characters.some(char => char.name.toLowerCase() === data.name.toLowerCase())] *)
Definition nameTaken (cs : list Character.t) (data : Character.t) : bool :=
  existsb (fun char => String.eqb (toLowerCase (Character.name char))
                                  (toLowerCase (Character.name data))) cs.

Definition validateCharacterData (v : Variant) (data : Character.t) : JS State bool :=
  if negb (truthy (Character.type data)) then
    showMessage SelectCharacterType error ;;; ret false
  else if negb (truthy (Character.name data))
          || (String.length (Character.name data) <? 2)%nat then
    showMessage CharacterNameTooShort error ;;; ret false
  else if negb (truthy (Character.description data))
          || (String.length (Character.description data) <? minDescriptionLength v)%nat then
    showMessage (DescriptionTooShort (minDescriptionLength v)) error ;;; ret false
  else if negb (truthy (Character.imageUrl data)) then
    showMessage ImageRequired error ;;; ret false
  else
    cs <- gets characters ;;
    if nameTaken cs data then
      showMessage CharacterNameExists error ;;; ret false
    else ret true.

Definition addCharacter (characterData : Character.t) : JS State unit :=
  try (modify (fun s => with_characters (characters s ++ [characterData]) s) ;;;
       saveCharacters ;;;
       renderGallery ;;;
       (* resetForm() clears the form fields *)
       showMessage (CharacterCreated (Character.name characterData)) success)
  catch (fun _ => console_error "Error adding character:" ;;;
                  showMessage ErrorCreatingCharacter error).

(** The submit listener.  The candidate is built outside any [try]: an
    exception of [characterData] leaves the handler, before validation. *)
Definition handleFormSubmit (v : Variant) (env : Env) (form : Form.t) : JS State unit :=
  match characterData v env form with
  | Normal data =>
      valid <- validateCharacterData v data ;;
      if valid then addCharacter data else ret tt
  | Throw e => throw e
  end.

(** [viewCharacter(index)]: the position goes into the selection slot,
    then the browser is sent to the detail page. *)
Definition viewCharacter (index : nat) : JS State unit :=
  try (sessionStorage_setItem (pretty index) ;;;
       location_assign "detail.html")
  catch (fun _ => console_error "Error navigating to character detail:" ;;;
                  showMessage ErrorOpeningDetails error).

(** [clearAllCharacters()]; [answer] is what the user replies to [confirm]. *)
Definition clearAllCharacters (answer : bool) : JS State unit :=
  if answer then
    try (modify (with_characters []) ;;;
         saveCharacters ;;;
         renderGallery ;;;
         showMessage AllCharactersDeleted success)
    catch (fun _ => console_error "Error clearing characters:" ;;;
                    showMessage ErrorDeletingCharacters error)
  else ret tt.

(** [n >= length], evaluated on integers only. *)
Definition atLeast (n : JSNumber) (length : nat) : bool :=
  match n with
  | Int z => Z.of_nat length <=? z
  | _ => false
  end.

(** The click handler of a card's delete button ([LocalImages] only; the
    cards of the first variant have no such button).  [index] is the
    position the card was rendered for, [answer] the reply to [confirm]. *)
Definition deleteCharacter (answer : bool) (index : nat) : JS State unit :=
  if answer then
    (* this.characters.splice(index, 1) *)
    modify (fun s => with_characters (delete index (characters s)) s) ;;;
    saveCharacters ;;;
    (* Clear invalid selected index *)
    sel <- sessionStorage_getItem ;;
    match sel with
    | Some text =>
        let n := ToNumber text in
        cs <- gets characters ;;
        if negb (isInteger n) || atLeast n (length cs)
        then sessionStorage_removeItem
        else ret tt
    | None => ret tt
    end ;;;
    renderGallery ;;;
    showMessage CharacterDeleted success
  else ret tt.

End Manager.
End Gallery.

(** ** The detail page

    [this.character] is the object stored at [this.characters[i]], for
    [i = parseInt(this.characterIndex)]: one object under two names.  The
    model keeps the array and reads [this.character] from it, so a
    mutation of the character's bag is a mutation of the array element,
    and the assignment [this.characters[i] = this.character] that follows
    it in the source stores the object where it already is. *)

Module Detail.

(** The fields [FormData] reads from the item form. *)
Module Form.
Record t := mk {
  type : string;
  name : string;
  description : string
}.
End Form.

(** The texts [showError] displays. *)
Inductive ErrorText :=
| NoCharacterSelected     (* 'No character selected. Redirecting to gallery...' *)
| CharacterNotFound       (* 'Character not found. Redirecting to gallery...' *)
| ErrorLoadingCharacter.  (* 'Error loading character. Please try again.' *)

(** What the [characterInfo] element shows: nothing yet, the error state
    of [showError], or the character [renderCharacterInfo] rendered. *)
Inductive Panel :=
| Blank
| ErrorPanel (text : ErrorText)
| Info (character : Character.t).

Record State := mkState {
  page_browser : Browser;
  (** [this.characterIndex] *)
  characterIndex : option string;
  (** [this.characters] *)
  characters : list Character.t;
  (** the message [showMessage] displays *)
  message : option (MessageText * MessageType);
  characterInfo : Panel;
  (** the items [renderBag] listed, if it ran *)
  bagItems : option (list Item.t);
  (** [initializeEventListeners] ran: the item form submits to [handleAddItem] *)
  listening : bool
}.

#[global] Instance state_browser : HasBrowser State := {
  browser := page_browser;
  with_browser b s :=
    mkState b (characterIndex s) (characters s) (message s) (characterInfo s)
            (bagItems s) (listening s)
}.

Definition with_characters (cs : list Character.t) (s : State) : State :=
  mkState (page_browser s) (characterIndex s) cs (message s) (characterInfo s)
          (bagItems s) (listening s).

Definition with_characterIndex (idx : option string) (s : State) : State :=
  mkState (page_browser s) idx (characters s) (message s) (characterInfo s)
          (bagItems s) (listening s).

(** [parseInt(this.characterIndex)]; [parseInt(null)] is NaN. *)
Definition position (s : State) : JSNumber :=
  match characterIndex s with
  | Some text => parseInt text
  | None => NaN
  end.

(** [this.character]: [None] when it is null or undefined. *)
Definition character (s : State) : option Character.t :=
  array_get (characters s) (position s).

(** Replaces the bag of [this.character], in the array. *)
Definition with_bag (b : list Item.t) (s : State) : State :=
  match position s with
  | Int z =>
      if 0 <=? z
      then with_characters (alter (Character.with_bag b) (Z.to_nat z) (characters s)) s
      else s
  | _ => s
  end.

Definition with_message (text : MessageText) (type : MessageType) (s : State) : State :=
  mkState (page_browser s) (characterIndex s) (characters s)
          (Some (text, type)) (characterInfo s) (bagItems s) (listening s).

Definition showMessage (text : MessageText) (type : MessageType) : JS State unit :=
  modify (with_message text type).

Definition with_characterInfo (panel : Panel) (s : State) : State :=
  mkState (page_browser s) (characterIndex s) (characters s)
          (message s) panel (bagItems s) (listening s).

Definition set_characterInfo (panel : Panel) : JS State unit :=
  modify (with_characterInfo panel).

Definition showError (text : ErrorText) : JS State unit :=
  set_characterInfo (ErrorPanel text).

(** [this.character] where the source reads a property of it: a
    TypeError when it is null or undefined. *)
Definition this_character : JS State Character.t :=
  fun s => match character s with
           | Some c => (Normal c, s)
           | None => (Throw TypeError, s)
           end.

Definition renderCharacterInfo : JS State unit :=
  (c <- this_character ;;
   set_characterInfo (Info c))%js.

Definition with_bagItems (items : list Item.t) (s : State) : State :=
  mkState (page_browser s) (characterIndex s) (characters s)
          (message s) (characterInfo s) (Some items) (listening s).

Definition renderBag : JS State unit :=
  (c <- this_character ;;
   modify (with_bagItems (Character.bagOrEmpty c)))%js.

Definition with_listeners (s : State) : State :=
  mkState (page_browser s) (characterIndex s) (characters s)
          (message s) (characterInfo s) (bagItems s) true.

Definition initializeEventListeners : JS State unit := modify with_listeners.

Section Manager.
Context {P : Platform}.
Open Scope js_scope.

Definition loadCharacters : JS State unit :=
  try (stored <- localStorage_getItem ;;
       cs <- match stored with
             | Some text => if truthy text then JSON_parse_or_throw text else ret []
             | None => ret []
             end ;;
       modify (with_characters cs))
  catch (fun _ => console_error "Error loading characters:" ;;;
                  modify (with_characters [])).

Definition saveCharacters : JS State unit :=
  try (cs <- gets characters ;;
       localStorage_setItem (JSON_stringify cs))
  catch (fun _ => console_error "Error saving characters:" ;;;
                  showMessage ErrorSavingChanges error).

Definition initializeDetail : JS State unit :=
  try (idx <- sessionStorage_getItem ;;
       modify (with_characterIndex idx) ;;;
       match idx with
       | None =>
           showError NoCharacterSelected ;;;
           setTimeout_redirect "index.html" 2000
       | Some _ =>
           loadCharacters ;;;
           c <- gets character ;;
           match c with
           | None =>
               showError CharacterNotFound ;;;
               setTimeout_redirect "index.html" 2000
           | Some _ =>
               renderCharacterInfo ;;;
               renderBag ;;;
               initializeEventListeners
           end
       end)
  catch (fun _ => console_error "Error initializing character detail:" ;;;
                  showError ErrorLoadingCharacter).

(** [new CharacterDetailManager()] on a freshly loaded page. *)
Definition constructor (b : Browser) : Completion unit * State :=
  initializeDetail (mkState b None [] None Blank None false).

(** [Date.now() + Math.random().toString(36).substr(2, 9)] *)
Definition generateItemId (env : Env) : string :=
  pretty (Date_now env) ++ substr 2 9 (Math_random_toString36 env).

(** The [itemData] that [handleAddItem] builds. *)
Definition itemData (env : Env) (form : Form.t) : Item.t :=
  Item.mk (generateItemId env)
          (Form.type form)
          (trim (Form.name form))
          (trim (Form.description form))
          (Date_toISOString env).

(** [bag.some(item => item.name.toLowerCase() === data.name.toLowerCase())] *)
Definition nameTaken (b : list Item.t) (data : Item.t) : bool :=
  existsb (fun item => String.eqb (toLowerCase (Item.name item))
                                  (toLowerCase (Item.name data))) b.

Definition validateItemData (data : Item.t) : JS State bool :=
  if negb (truthy (Item.type data)) then
    showMessage SelectItemType error ;;; ret false
  else if negb (truthy (Item.name data)) || (String.length (Item.name data) <? 2)%nat then
    showMessage ItemNameTooShort error ;;; ret false
  else
    c <- this_character ;;
    if match Character.bag c with
       | Some b => nameTaken b data
       | None => false
       end
    then showMessage ItemNameExists error ;;; ret false
    else ret true.

Definition addItemToBag (itemData : Item.t) : JS State unit :=
  try (c <- this_character ;;
       (* if (!this.character.bag) this.character.bag = [];
          this.character.bag.push(itemData) *)
       modify (with_bag (Character.bagOrEmpty c ++ [itemData])) ;;;
       saveCharacters ;;;
       renderBag ;;;
       (* itemForm.reset() clears the form fields *)
       showMessage (ItemAdded (Item.name itemData) (Character.name c)) success)
  catch (fun _ => console_error "Error adding item:" ;;;
                  showMessage ErrorAddingItem error).

Definition handleAddItem (env : Env) (form : Form.t) : JS State unit :=
  let data := itemData env form in
  valid <- validateItemData data ;;
  if valid then addItemToBag data else ret tt.

(** [removeItem(index)]; [answer] is what the user replies to [confirm].
    The question quotes [item.name], so a missing item throws before the
    user is asked. *)
Definition removeItem (answer : bool) (index : Z) : JS State unit :=
  try (c <- this_character ;;
       b <- match Character.bag c with
            | Some b => ret b
            | None => throw TypeError
            end ;;
       item <- match array_get b (Int index) with
               | Some item => ret item
               | None => throw TypeError
               end ;;
       if answer then
         (* this.character.bag.splice(index, 1) *)
         modify (with_bag (delete (Z.to_nat index) b)) ;;;
         saveCharacters ;;;
         renderBag ;;;
         renderCharacterInfo ;;;
         showMessage (ItemRemoved (Item.name item)) success
       else ret tt)
  catch (fun _ => console_error "Error removing item:" ;;;
                  showMessage ErrorRemovingItem error).

End Manager.
End Detail.

(** ** A reference platform

    An instance of [Platform] to run the model on examples.  Its codec
    writes a collection the way [JSON.stringify] does (an array of
    objects, keys in the order of creation, strings quoted and escaped,
    no white space) and reads such texts back; it does not read JSON that
    is laid out otherwise.  Its [ToNumber] reads the decimal texts that
    [viewCharacter] writes, and takes every other text for NaN. *)

Module Reference.

Definition dquote : ascii := "034"%char.
Definition backslash : ascii := "092"%char.

(** *** Strings *)

Definition hexDigit (n : N) : ascii :=
  ascii_of_N (if (n <? 10)%N then 48 + n else 87 + n).

(** The escape of a code unit: the quote, the backslash and the control
    characters are escaped, the short forms where JSON has them. *)
Definition escapeChar (c : ascii) (rest : string) : string :=
  let n := N_of_ascii c in
  if Ascii.eqb c dquote then String backslash (String dquote rest)
  else if Ascii.eqb c backslash then String backslash (String backslash rest)
  else if (n =? 8)%N then String backslash (String "b" rest)
  else if (n =? 9)%N then String backslash (String "t" rest)
  else if (n =? 10)%N then String backslash (String "n" rest)
  else if (n =? 12)%N then String backslash (String "f" rest)
  else if (n =? 13)%N then String backslash (String "r" rest)
  else if (n <? 32)%N then
    String backslash (String "u" (String "0" (String "0"
      (String (hexDigit (n / 16)) (String (hexDigit (n mod 16)) rest)))))
  else String c rest.

Fixpoint write_chars (s : string) (rest : string) : string :=
  match s with
  | String c r => escapeChar c (write_chars r rest)
  | EmptyString => rest
  end.

(** Every writer takes the text that follows. *)
Definition write_string (s : string) (rest : string) : string :=
  String dquote (write_chars s (String dquote rest)).

Definition hexValue (c : ascii) : option N := Z.to_N <$> digitValue 16 c.

(** The code unit of a [\uXXXX] escape, when it is below 256. *)
Definition unicodeEscape (a b c d : ascii) : option ascii :=
  a ← hexValue a; b ← hexValue b; c ← hexValue c; d ← hexValue d;
  let n := (((a * 16 + b) * 16 + c) * 16 + d)%N in
  if (n <? 256)%N then Some (ascii_of_N n) else None.

(** Reads the characters of a string up to its closing quote. *)
Fixpoint read_chars (s : string) : option (string * string) :=
  match s with
  | String c r =>
      if Ascii.eqb c dquote then Some (EmptyString, r)
      else if Ascii.eqb c backslash then
        match r with
        | String "u" (String h1 (String h2 (String h3 (String h4 r')))) =>
            u ← unicodeEscape h1 h2 h3 h4;
            '(t, r'') ← read_chars r';
            Some (String u t, r'')
        | String e r' =>
            u ← (if Ascii.eqb e dquote then Some dquote
                 else if Ascii.eqb e backslash then Some backslash
                 else match e with
                      | "/" => Some "/"
                      | "b" => Some "008"
                      | "t" => Some "009"
                      | "n" => Some "010"
                      | "f" => Some "012"
                      | "r" => Some "013"
                      | _ => None
                      end)%char;
            '(t, r'') ← read_chars r';
            Some (String u t, r'')
        | EmptyString => None
        end
      else if (N_of_ascii c <? 32)%N then None
      else '(t, r') ← read_chars r; Some (String c t, r')
  | EmptyString => None
  end.

Definition read_string (s : string) : option (string * string) :=
  match s with
  | String c r => if Ascii.eqb c dquote then read_chars r else None
  | EmptyString => None
  end.

(** *** Numbers *)

Fixpoint write_uint (d : Decimal.uint) (rest : string) : string :=
  match d with
  | Decimal.Nil => rest
  | Decimal.D0 d => String "0" (write_uint d rest)
  | Decimal.D1 d => String "1" (write_uint d rest)
  | Decimal.D2 d => String "2" (write_uint d rest)
  | Decimal.D3 d => String "3" (write_uint d rest)
  | Decimal.D4 d => String "4" (write_uint d rest)
  | Decimal.D5 d => String "5" (write_uint d rest)
  | Decimal.D6 d => String "6" (write_uint d rest)
  | Decimal.D7 d => String "7" (write_uint d rest)
  | Decimal.D8 d => String "8" (write_uint d rest)
  | Decimal.D9 d => String "9" (write_uint d rest)
  end.

Fixpoint read_uint (s : string) : Decimal.uint * string :=
  match s with
  | String "0" r => let '(d, r') := read_uint r in (Decimal.D0 d, r')
  | String "1" r => let '(d, r') := read_uint r in (Decimal.D1 d, r')
  | String "2" r => let '(d, r') := read_uint r in (Decimal.D2 d, r')
  | String "3" r => let '(d, r') := read_uint r in (Decimal.D3 d, r')
  | String "4" r => let '(d, r') := read_uint r in (Decimal.D4 d, r')
  | String "5" r => let '(d, r') := read_uint r in (Decimal.D5 d, r')
  | String "6" r => let '(d, r') := read_uint r in (Decimal.D6 d, r')
  | String "7" r => let '(d, r') := read_uint r in (Decimal.D7 d, r')
  | String "8" r => let '(d, r') := read_uint r in (Decimal.D8 d, r')
  | String "9" r => let '(d, r') := read_uint r in (Decimal.D9 d, r')
  | _ => (Decimal.Nil, s)
  end.

Definition write_number (z : Z) (rest : string) : string :=
  match Z.to_int z with
  | Decimal.Pos d => write_uint d rest
  | Decimal.Neg d => String "-" (write_uint d rest)
  end.

Definition read_number (s : string) : option (Z * string) :=
  match s with
  | String "-" r =>
      match read_uint r with
      | (Decimal.Nil, _) => None
      | (d, r') => Some (Z.of_int (Decimal.Neg d), r')
      end
  | _ =>
      match read_uint s with
      | (Decimal.Nil, _) => None
      | (d, r') => Some (Z.of_int (Decimal.Pos d), r')
      end
  end.

(** *** Objects and arrays *)

(** Strips the literal [lit] from the front of [s]. *)
Fixpoint expect (lit s : string) : option string :=
  match lit with
  | EmptyString => Some s
  | String c lit' =>
      match s with
      | String d r => if Ascii.eqb c d then expect lit' r else None
      | EmptyString => None
      end
  end.

(** A key with its colon: ["name":] *)
Definition key (name : string) : string :=
  String dquote (name ++ String dquote ":").

Definition write_item (i : Item.t) (rest : string) : string :=
  "{" ++ key "id" ++ write_string (Item.id i)
  ("," ++ key "type" ++ write_string (Item.type i)
  ("," ++ key "name" ++ write_string (Item.name i)
  ("," ++ key "description" ++ write_string (Item.description i)
  ("," ++ key "addedAt" ++ write_string (Item.addedAt i)
  (String "}" rest))))).

Definition read_item (s : string) : option (Item.t * string) :=
  s ← expect ("{" ++ key "id") s; '(id, s) ← read_string s;
  s ← expect ("," ++ key "type") s; '(type, s) ← read_string s;
  s ← expect ("," ++ key "name") s; '(name, s) ← read_string s;
  s ← expect ("," ++ key "description") s; '(description, s) ← read_string s;
  s ← expect ("," ++ key "addedAt") s; '(addedAt, s) ← read_string s;
  s ← expect "}" s;
  Some (Item.mk id type name description addedAt, s).

Section Arrays.
Context {A : Type} (write : A -> string -> string) (read : string -> option (A * string)).

Fixpoint write_elements (l : list A) (rest : string) : string :=
  match l with
  | [] => rest
  | [x] => write x rest
  | x :: l' => write x (String "," (write_elements l' rest))
  end.

Definition write_array (l : list A) (rest : string) : string :=
  String "[" (write_elements l (String "]" rest)).

(** Reads the elements of an array that is not empty, up to its bracket. *)
Fixpoint read_elements (fuel : nat) (s : string) : option (list A * string) :=
  match fuel with
  | O => None
  | S fuel' =>
      '(x, r) ← read s;
      match r with
      | String "," r' => '(l, r'') ← read_elements fuel' r'; Some (x :: l, r'')
      | String "]" r' => Some ([x], r')
      | _ => None
      end
  end.

Definition read_array (s : string) : option (list A * string) :=
  match s with
  | String "[" (String "]" r) => Some ([], r)
  | String "[" r => read_elements (String.length r) r
  | _ => None
  end.

End Arrays.

Definition write_character (c : Character.t) (rest : string) : string :=
  "{" ++ key "id" ++ write_number (Character.id c)
  ("," ++ key "type" ++ write_string (Character.type c)
  ("," ++ key "name" ++ write_string (Character.name c)
  ("," ++ key "description" ++ write_string (Character.description c)
  ("," ++ key "imageUrl" ++ write_string (Character.imageUrl c)
  (match Character.bag c with
   | Some b => "," ++ key "bag" ++ write_array write_item b
                 ("," ++ key "createdAt" ++ write_string (Character.createdAt c)
                 (String "}" rest))
   | None => "," ++ key "createdAt" ++ write_string (Character.createdAt c)
               (String "}" rest)
   end))))).

Definition read_character (s : string) : option (Character.t * string) :=
  s ← expect ("{" ++ key "id") s; '(id, s) ← read_number s;
  s ← expect ("," ++ key "type") s; '(type, s) ← read_string s;
  s ← expect ("," ++ key "name") s; '(name, s) ← read_string s;
  s ← expect ("," ++ key "description") s; '(description, s) ← read_string s;
  s ← expect ("," ++ key "imageUrl") s; '(imageUrl, s) ← read_string s;
  '(bag, s) ← match expect ("," ++ key "bag") s with
              | Some s => '(b, s) ← read_array read_item s; Some (Some b, s)
              | None => Some (None, s)
              end;
  s ← expect ("," ++ key "createdAt") s; '(createdAt, s) ← read_string s;
  s ← expect "}" s;
  Some (Character.mk id type name description imageUrl bag createdAt, s).

Definition stringify (cs : list Character.t) : string :=
  write_array write_character cs "".

(** The text must be a collection and nothing more. *)
Definition parse (text : string) : option (list Character.t) :=
  '(cs, rest) ← read_array read_character text;
  if String.eqb rest "" then Some cs else None.

Definition all_decimal (s : string) : bool :=
  forallb (fun c => match digitValue 10 c with Some _ => true | None => false end)
          (list_ascii_of_string s).

#[export] Instance platform : Platform := {
  JSON_parse := parse;
  JSON_stringify := stringify;
  ToNumber text :=
    if all_decimal text then default NaN (Int <$> parseDigits 10 None text) else NaN
}.

End Reference.

(** ** The store and the detail page's states, as the specification names them *)

Module Store.

(** [load()]: the persisted collection, or the empty sequence when the
    slot is absent, empty or holds no JSON. *)
Definition load {P : Platform} (b : Browser) : list Character.t :=
  match localStorage b with
  | Some text => if truthy text then default [] (JSON_parse text) else []
  | None => []
  end.

(** The slot holds a text that does not parse. *)
Definition corrupt {P : Platform} (b : Browser) : bool :=
  match localStorage b with
  | Some text => truthy text && match JSON_parse text with None => true | Some _ => false end
  | None => false
  end.

(** [save(collection)]: the slot after the write; a text beyond the
    quota leaves it as it was. *)
Definition save {P : Platform} (cs : list Character.t) (b : Browser) : option string :=
  if accepts (localQuota b) (JSON_stringify cs)
  then Some (JSON_stringify cs)
  else localStorage b.

End Store.

(** [save(load())] as each manager performs it: load the collection into
    [this.characters], then save it unchanged. *)
Module RoundTrip.

Definition gallery {P : Platform} : JS Gallery.State unit :=
  (cs <- Gallery.loadCharacters ;;
   modify (Gallery.with_characters cs) ;;;
   Gallery.saveCharacters)%js.

Definition detail {P : Platform} : JS Detail.State unit :=
  (Detail.loadCharacters ;;;
   Detail.saveCharacters)%js.

End RoundTrip.

Module Phase.

(** The terminal state of a page that resolved no character: the error
    panel announces the redirect, no character is held, nothing of the
    page is rendered or wired. *)
Definition NotFound (s : Detail.State) : Prop :=
  Detail.character s = None
  /\ (Detail.characterInfo s = Detail.ErrorPanel Detail.NoCharacterSelected
      \/ Detail.characterInfo s = Detail.ErrorPanel Detail.CharacterNotFound)
  /\ Detail.bagItems s = None
  /\ Detail.listening s = false.

(** The page shows character [c] and its bag, and listens to the item form. *)
Definition Ready (c : Character.t) (s : Detail.State) : Prop :=
  Detail.character s = Some c
  /\ Detail.characterInfo s = Detail.Info c
  /\ Detail.bagItems s = Some (Character.bagOrEmpty c)
  /\ Detail.listening s = true.

(** A page state without the selection signal: what pages opened with
    different signals are compared on. *)
Definition without_signal (s : Detail.State) : Detail.State :=
  Detail.with_characterIndex None
    (with_browser (with_sessionStorage None (Detail.page_browser s)) s).

(** From [before] to [after], one more timer was set: to the gallery, in 2000 ms. *)
Definition redirect_scheduled (before after : Browser) : Prop :=
  timers after = ("index.html", 2000%nat) :: timers before.

End Phase.

(** ** The validation policy, as a list of rules

    The field-level rules of the gallery's validation, and the policy
    that the first failing rule of an ordered list decides the report.
    [source_order] is the order [validateCharacterData] checks them in;
    [stated_order] puts the uniqueness of the name next to its length. *)

Module Policy.

Inductive Rule :=
| TypeRequired
| NameLength
| NameUnique
| DescriptionLength
| ImageGiven.

Definition violates (v : Gallery.Variant) (cs : list Character.t) (data : Character.t)
    (r : Rule) : bool :=
  match r with
  | TypeRequired => String.eqb (Character.type data) ""
  | NameLength => (String.length (Character.name data) <? 2)%nat
  | NameUnique => Gallery.nameTaken cs data
  | DescriptionLength =>
      (String.length (Character.description data) <? Gallery.minDescriptionLength v)%nat
  | ImageGiven => String.eqb (Character.imageUrl data) ""
  end.

Definition report (v : Gallery.Variant) (r : Rule) : MessageText :=
  match r with
  | TypeRequired => SelectCharacterType
  | NameLength => CharacterNameTooShort
  | NameUnique => CharacterNameExists
  | DescriptionLength => DescriptionTooShort (Gallery.minDescriptionLength v)
  | ImageGiven => ImageRequired
  end.

Definition first_failure (order : list Rule) (v : Gallery.Variant)
    (cs : list Character.t) (data : Character.t) : option Rule :=
  List.find (violates v cs data) order.

Definition source_order : list Rule :=
  [TypeRequired; NameLength; DescriptionLength; ImageGiven; NameUnique].

Definition stated_order : list Rule :=
  [TypeRequired; NameLength; NameUnique; DescriptionLength; ImageGiven].

(** A candidate no rule rejects. *)
Definition valid (v : Gallery.Variant) (cs : list Character.t) (data : Character.t) : bool :=
  forallb (fun r => negb (violates v cs data r)) source_order.

(** An item the detail page accepts into the bag [b]: it has a type, a
    name of two characters or more, and no item of [b] has its name, case
    apart. *)
Definition valid_item (b : list Item.t) (data : Item.t) : bool :=
  negb (String.eqb (Item.type data) "")
  && negb (String.length (Item.name data) <? 2)%nat
  && negb (Detail.nameTaken b data).

(** The names of a bag, case apart. *)
Definition bag_names (c : Character.t) : list string :=
  (fun item => toLowerCase (Item.name item)) <$> Character.bagOrEmpty c.

(** No two items of a character's bag share a name, case apart. *)
Definition bag_names_unique (c : Character.t) : Prop := NoDup (bag_names c).

End Policy.

(** ** Example data *)

Module Example.

Definition browser0 : Browser := mkBrowser None None 5000000 5000000 [] None [].

Definition env0 : Env := mkEnv 1700000000000 "2023-11-14T22:13:20.000Z" "0.4fzyo82mvyr".

Definition ember : Character.t :=
  Character.mk 1699999999000 "Dragon" "Ember" "A fierce red dragon"
               "assets/images/dragon1.png" (Some []) "2023-11-14T22:13:19.000Z".

Definition sable : Character.t :=
  Character.mk 1699999999100 "Human" "Sable" "A quiet cartographer"
               "assets/images/human1.png" (Some []) "2023-11-14T22:13:19.100Z".

Definition orin : Character.t :=
  Character.mk 1699999999200 "Human" "Orin" "A travelling smith"
               "assets/images/human2.png" (Some []) "2023-11-14T22:13:19.200Z".

Definition gallery_with (cs : list Character.t) : Gallery.State :=
  Gallery.mkState browser0 cs None cs.

(** A browser whose store holds Ember alone, with the given selection signal. *)
Definition browser_with_ember (signal : option string) : Browser :=
  mkBrowser (Some (@JSON_stringify Reference.platform [ember])) signal
            5000000 5000000 [] None [].

(** The character form of the scenario, as the second variant's page
    delivers it: Ember, a dragon, with the image 'dragon1.png' selected. *)
Definition ember_form : Gallery.Form.t :=
  Gallery.Form.mk "Dragon" "Ember" "A fierce red dragon" "dragon1.png" None.

(** Ember with blanks around the name, as the first variant's page
    delivers it when the image is given in the custom URL field: no image
    is selected, and the field is enabled. *)
Definition padded_form : Gallery.Form.t :=
  Gallery.Form.mk "Dragon" " Ember " "A fierce red dragon" ""
                  (Some "https://example.org/ember.png").

(** The item form of the scenario: the Rune of Power. *)
Definition rune_form : Detail.Form.t := Detail.Form.mk "Rune" "Rune of Power" "".

(** The detail page on Ember, as [initializeDetail] leaves it. *)
Definition detail_on_ember : Detail.State :=
  snd (Detail.constructor (P := Reference.platform) (browser_with_ember (Some "0"))).

(** The same page once the Rune of Power is in Ember's bag. *)
Definition detail_with_rune : Detail.State :=
  exec (Detail.handleAddItem (P := Reference.platform) env0 rune_form) detail_on_ember.

(** The Rune of Power again, in lower case. *)
Definition rune_form_lower : Detail.Form.t := Detail.Form.mk "Rune" "rune of power" "".

(** A candidate whose name is taken (by Ember) and whose description is
    too short for either variant. *)
Definition ember_again : Character.t :=
  Character.mk 1700000000000 "Dragon" "ember" "abc" "dragon2.png" (Some [])
               "2023-11-14T22:13:20.000Z".

End Example.

(** ** The cards of the gallery

    What [createCharacterCard] computes for the image of a card. *)

Module CharacterCard.

(** [s.includes(needle)] *)
Fixpoint includes (needle s : string) : bool :=
  String.prefix needle s
  || match s with
     | String _ s' => includes needle s'
     | EmptyString => false
     end.

Definition FALLBACK_IMAGE : string := "assets/images/ravenis.png".

(** The [src] of the card's image.  The first variant takes the stored
    reference as it is (both branches of its conditional are the same
    expression).  The second puts 'assets/images/' before a reference
    without a slash and falls back to a fixed image when there is none. *)
Definition imageSrc (v : Gallery.Variant) (character : Character.t) : string :=
  match v with
  | Gallery.CustomImages => Character.imageUrl character
  | Gallery.LocalImages =>
      let imageSrc := Character.imageUrl character in
      let imageSrc :=
        if truthy imageSrc && negb (includes "/" imageSrc)
        then "assets/images/" ++ imageSrc
        else imageSrc in
      if negb (truthy imageSrc) then FALLBACK_IMAGE else imageSrc
  end.

End CharacterCard.

(** ** The gallery page as the browser loads it

    The [DOMContentLoaded] listener of gallery.js builds the manager, has
    [StatsDisplay.updateStats] fill the statistics element and then adds
    the keyboard shortcuts.  The page state is the manager's, with the
    statistics element and the shortcuts beside it. *)

Module GalleryPage.

(** The [stats] object of [updateStats]. *)
Record Stats := mkStats {
  total : nat;
  dragons : nat;
  humans : nat;
  totalItems : nat
}.

Record State := mkState {
  (** the page of the [CharacterManager] *)
  manager : Gallery.State;
  (** [document.getElementById('galleryStats')] finds an element *)
  statsElement : bool;
  (** the statistics that element shows *)
  galleryStats : option Stats;
  (** the [keydown] listener of the shortcuts is added *)
  shortcuts : bool
}.

#[global] Instance state_browser : HasBrowser State := {
  browser s := Gallery.page_browser (manager s);
  with_browser b s :=
    mkState (with_browser b (manager s)) (statsElement s) (galleryStats s) (shortcuts s)
}.

(** The page a browser has loaded, before any script ran. *)
Definition loaded (b : Browser) (statsElement : bool) : State :=
  mkState (Gallery.mkState b [] None []) statsElement None false.

(** A computation of the manager, run in the page. *)
Definition on_manager {A} (m : JS Gallery.State A) : JS State A :=
  fun s => let '(r, g) := m (manager s) in
           (r, mkState g (statsElement s) (galleryStats s) (shortcuts s)).

Definition with_galleryStats (stats : Stats) (s : State) : State :=
  mkState (manager s) (statsElement s) (Some stats) (shortcuts s).

Definition with_shortcuts (s : State) : State :=
  mkState (manager s) (statsElement s) (galleryStats s) true.

(** The counts [updateStats] takes of a collection. *)
Definition stats_of (characters : list Character.t) : Stats :=
  mkStats
    (length characters)
    (length (List.filter (fun c => String.eqb (Character.type c) "Dragon") characters))
    (length (List.filter (fun c => String.eqb (Character.type c) "Human") characters))
    (fold_left (fun sum c => (sum + match Character.bag c with
                                    | Some b => length b
                                    | None => 0
                                    end)%nat) characters 0%nat).

Section Scripts.
Context {P : Platform}.
Open Scope js_scope.

(** [StatsDisplay.updateStats()]: it parses the slot itself, outside any
    [try]. *)
Definition updateStats : JS State unit :=
  stored <- localStorage_getItem ;;
  characters <- JSON_parse_or_throw
                  match stored with
                  | Some text => if truthy text then text else "[]"
                  | None => "[]"
                  end ;;
  let stats := stats_of characters in
  present <- gets statsElement ;;
  if present then modify (with_galleryStats stats) else ret tt.

(** The [DOMContentLoaded] listener. *)
Definition DOMContentLoaded : JS State unit :=
  on_manager Gallery.constructor ;;;
  updateStats ;;;
  modify with_shortcuts.

End Scripts.
End GalleryPage.

(** ** Utilities (the [utils] object of gallery.js) *)

Module utils.

(** [truncateText(text, maxLength = 100)], for a limit that is an
    integer; [maxLength] is [None] when the argument is left out.
    [substring(0, n)] takes no unit for a negative [n]. *)
Definition truncateText (text : string) (maxLength : option Z) : string :=
  let maxLength := default 100 maxLength in
  if Z.of_nat (String.length text) >? maxLength
  then substring 0 (Z.to_nat maxLength) text ++ "..."
  else text.

End utils.

(** ** The controls of the character form (first variant)

    [initializeEventListeners] of the first variant ties the image select
    ([imageSelect], the control the form data names [imageUrl]) and the
    custom URL field ([customImageUrl]) together with two listeners; the
    second variant has neither listener nor field.  The select has an
    option of empty value, which the [else] branch of its listener is
    for. *)

Module CharacterForm.

Record t := mk {
  type : string;
  name : string;
  description : string;
  (** [imageSelect.value] *)
  imageSelect : string;
  (** [customImageUrl.value] *)
  customImageUrl : string;
  (** [customImageUrl.disabled] *)
  disabled : bool
}.

(** The [change] listener of the select, after the option of this value
    was chosen. *)
Definition imageSelect_change (value : string) (f : t) : t :=
  if truthy value
  then mk (type f) (name f) (description f) value "" true
  else mk (type f) (name f) (description f) value (customImageUrl f) false.

(** The [input] listener of the custom URL field, after its text became
    this value. *)
Definition customImageUrl_input (value : string) (f : t) : t :=
  if truthy (trim value)
  then mk (type f) (name f) (description f) "" value (disabled f)
  else mk (type f) (name f) (description f) (imageSelect f) value (disabled f).

(** [new FormData(characterForm)]: a disabled control has no entry. *)
Definition formData (f : t) : Gallery.Form.t :=
  Gallery.Form.mk (type f) (name f) (description f) (imageSelect f)
                  (if disabled f then None else Some (customImageUrl f)).

End CharacterForm.

(** ** Names of the collection *)

Module Names.

(** The names of a collection, case apart. *)
Definition character_names (cs : list Character.t) : list string :=
  (fun c => toLowerCase (Character.name c)) <$> cs.

(** No two characters of the collection share a name, case apart. *)
Definition unique (cs : list Character.t) : Prop := NoDup (character_names cs).

(** A character without its bag: what the bag operations leave alone. *)
Definition bagless (c : Character.t) : Character.t :=
  Character.mk (Character.id c) (Character.type c) (Character.name c)
               (Character.description c) (Character.imageUrl c) None
               (Character.createdAt c).

(** The text holds white space only (or nothing). *)
Definition blank (s : string) : bool :=
  forallb isWhiteSpace (list_ascii_of_string s).

End Names.

(** ** More example data *)

Module Scenario.

(** A browser whose storages take no text at all. *)
Definition full_browser : Browser := mkBrowser None None 0 0 [] None [].

(** A browser whose store holds the three characters, with the given signal. *)
Definition browser_with_three (signal : option string) : Browser :=
  mkBrowser (Some (@JSON_stringify Reference.platform
                     [Example.ember; Example.sable; Example.orin]))
            signal 5000000 5000000 [] None [].

(** A browser whose slot holds a text that is no JSON. *)
Definition corrupt_browser : Browser :=
  mkBrowser (Some "{not json") None 5000000 5000000 [] None [].

Definition sable_form : Gallery.Form.t :=
  Gallery.Form.mk "Human" "Sable" "A quiet cartographer" "human1.png" None.


End Scenario.

(** * Properties *)

Create HintDb js discriminated.
#[global] Hint Unfold bind ret throw try_catch gets modify exec returns
  on_browser localStorage_getItem localStorage_setItem sessionStorage_getItem
  sessionStorage_setItem sessionStorage_removeItem console_error location_assign
  setTimeout_redirect JSON_parse_or_throw : js.
#[global] Hint Unfold Gallery.showMessage Gallery.renderGallery : js.
#[global] Hint Unfold Detail.showMessage Detail.showError Detail.set_characterInfo
  Detail.renderCharacterInfo Detail.renderBag Detail.initializeEventListeners
  Detail.this_character : js.

(** Runs the monad's plumbing. *)
Ltac js_step := autounfold with js in *; cbn beta iota zeta delta [fst snd browser with_browser
  Gallery.state_browser Detail.state_browser] in *.

(** The string functions on sample inputs. *)
Example trim_samples :
  trim "  Ember " = "Ember" /\ trim "Rune of Power" = "Rune of Power" /\ trim "   " = "".
Proof. by repeat split. Qed.

Example toLowerCase_samples :
  toLowerCase "Rune of Power" = "rune of power" /\ toLowerCase "EMBER-7" = "ember-7".
Proof. by repeat split. Qed.

Example parseInt_samples :
  parseInt "0" = Int 0 /\ parseInt "12" = Int 12 /\ parseInt " 7" = Int 7
  /\ parseInt "-3" = Int (-3) /\ parseInt "1.9" = Int 1 /\ parseInt "12abc" = Int 12
  /\ parseInt "0x1F" = Int 31 /\ parseInt "abc" = NaN /\ parseInt "" = NaN
  /\ parseInt "-" = NaN.
Proof. by repeat split. Qed.

Lemma truthy_false (s : string) : truthy s = false <-> s = "".
Proof.
  unfold truthy. destruct s; cbn; split; congruence.
Qed.

Lemma truthy_eqb (s : string) : negb (truthy s) = String.eqb s "".
Proof. unfold truthy. by rewrite negb_involutive. Qed.

(** A string of length below 2 that is empty is in particular short:
    the test [!s || s.length < 2] is the test on the length. *)
Lemma falsy_or_short (s : string) (n : nat) :
  (0 < n)%nat ->
  negb (truthy s) || (String.length s <? n)%nat = (String.length s <? n)%nat.
Proof.
  intros Hn. destruct s; [|done].
  destruct n; [lia|done].
Qed.

Lemma minDescriptionLength_pos v : (0 < Gallery.minDescriptionLength v)%nat.
Proof. destruct v; cbn; lia. Qed.

Section GalleryValidation.
Context {P : Platform}.

(** [validateCharacterData] reports the first rule of [source_order]
    that the candidate violates, and accepts when there is none. *)
Lemma validateCharacterData_policy v data s :
  Gallery.validateCharacterData v data s =
    match Policy.first_failure Policy.source_order v (Gallery.characters s) data with
    | Some r => (Normal false, exec (Gallery.showMessage (Policy.report v r) error) s)
    | None => (Normal true, s)
    end.
Proof.
  unfold Gallery.validateCharacterData, Policy.first_failure. cbn [find Policy.source_order Policy.violates].
  rewrite truthy_eqb.
  destruct (String.eqb (Character.type data) "") eqn:Ht; [done|].
  rewrite falsy_or_short by lia.
  destruct (String.length (Character.name data) <? 2)%nat eqn:Hn; [done|].
  rewrite falsy_or_short by apply minDescriptionLength_pos.
  destruct (String.length (Character.description data) <? _)%nat eqn:Hd; [done|].
  rewrite truthy_eqb.
  destruct (String.eqb (Character.imageUrl data) "") eqn:Hi; [done|].
  js_step. by destruct (Gallery.nameTaken _ _).
Qed.

End GalleryValidation.

(** C2 (as the code has it).  [validateCharacterData] checks the rules in
    the order type, name length, description length, image, name
    uniqueness, and the first one that fails decides the report; it
    accepts exactly the candidates that violate none.  In particular a
    candidate with a name that is taken and a description that is too
    short is told about the description. *)
Theorem validateCharacterData_first_failure_in_source_order :
  forall (v : Gallery.Variant) (data : Character.t) (s : Gallery.State),
    Gallery.validateCharacterData v data s =
      match Policy.first_failure Policy.source_order v (Gallery.characters s) data with
      | Some r => (Normal false, exec (Gallery.showMessage (Policy.report v r) error) s)
      | None => (Normal true, s)
      end
    /\ (Policy.violates v (Gallery.characters s) data Policy.TypeRequired = false ->
        Policy.violates v (Gallery.characters s) data Policy.NameLength = false ->
        Policy.violates v (Gallery.characters s) data Policy.NameUnique = true ->
        Policy.violates v (Gallery.characters s) data Policy.DescriptionLength = true ->
        Gallery.message (exec (Gallery.validateCharacterData v data) s)
          = Some (DescriptionTooShort (Gallery.minDescriptionLength v), error)).
Proof.
  intros v data s. split; [apply validateCharacterData_policy|].
  intros Ht Hn _ Hd. unfold exec.
  rewrite validateCharacterData_policy.
  unfold Policy.first_failure. cbn [find Policy.source_order].
  by rewrite Ht, Hn, Hd.
Qed.

(** C2, counterexample.  With Ember in the collection, the candidate
    "ember" with the description "abc" violates both the uniqueness of the
    name and the length of the description.  In the stated order the
    first failure is the name; both variants of the script report the
    description. *)
Lemma validation_stated_order_counterexample :
  let s := Example.gallery_with [Example.ember] in
  let data := Example.ember_again in
  Policy.violates Gallery.CustomImages (Gallery.characters s) data Policy.NameUnique = true
  /\ Policy.violates Gallery.CustomImages (Gallery.characters s) data
       Policy.DescriptionLength = true
  /\ Policy.first_failure Policy.stated_order Gallery.CustomImages
       (Gallery.characters s) data = Some Policy.NameUnique
  /\ Gallery.message (exec (Gallery.validateCharacterData Gallery.CustomImages data) s)
       = Some (DescriptionTooShort 10, error)
  /\ Gallery.message (exec (Gallery.validateCharacterData Gallery.LocalImages data) s)
       = Some (DescriptionTooShort 5, error)
  /\ Gallery.message (exec (Gallery.validateCharacterData Gallery.CustomImages data) s)
       <> Some (CharacterNameExists, error).
Proof. cbv zeta. repeat split; try reflexivity. discriminate. Qed.

Section GalleryStore.
Context {P : Platform}.

(** [saveCharacters] always returns: it writes the slot when the text
    fits, and reports the failure otherwise.  The collection in memory
    stays as it is either way. *)
Lemma gallery_saveCharacters_run (s : Gallery.State) :
  Gallery.saveCharacters s =
    (Normal tt,
     let text := JSON_stringify (Gallery.characters s) in
     if accepts (localQuota (Gallery.page_browser s)) text
     then with_browser (with_localStorage (Some text) (Gallery.page_browser s)) s
     else Gallery.with_message ErrorSavingCharacters error
            (with_browser (logged "Error saving characters:" (Gallery.page_browser s)) s)).
Proof.
  unfold Gallery.saveCharacters. js_step.
  by destruct (accepts _ _).
Qed.

Lemma gallery_saveCharacters_characters (s : Gallery.State) :
  Gallery.characters (exec Gallery.saveCharacters s) = Gallery.characters s.
Proof.
  unfold exec. rewrite gallery_saveCharacters_run. cbn.
  by destruct (accepts _ _).
Qed.

Lemma gallery_saveCharacters_localStorage (s : Gallery.State) :
  localStorage (Gallery.page_browser (exec Gallery.saveCharacters s)) =
    let text := JSON_stringify (Gallery.characters s) in
    if accepts (localQuota (Gallery.page_browser s)) text
    then Some text else localStorage (Gallery.page_browser s).
Proof.
  unfold exec. rewrite gallery_saveCharacters_run. cbn.
  by destruct (accepts _ _).
Qed.

Lemma addCharacter_run (data : Character.t) (s : Gallery.State) :
  Gallery.addCharacter data s =
    (Normal tt,
     Gallery.with_message (CharacterCreated (Character.name data)) success
       (Gallery.rendered
          (exec Gallery.saveCharacters
             (Gallery.with_characters (Gallery.characters s ++ [data]) s)))).
Proof.
  unfold Gallery.addCharacter. js_step.
  by rewrite gallery_saveCharacters_run.
Qed.

Lemma valid_no_failure v cs data :
  Policy.valid v cs data = true <->
  Policy.first_failure Policy.source_order v cs data = None.
Proof.
  unfold Policy.valid, Policy.first_failure. cbn [forallb find Policy.source_order].
  repeat match goal with |- context [Policy.violates ?v ?cs ?d ?r] =>
    destruct (Policy.violates v cs d r) end; cbn; split; congruence.
Qed.

Lemma nameTaken_failure v cs data :
  Gallery.nameTaken cs data = true ->
  exists r, Policy.first_failure Policy.source_order v cs data = Some r.
Proof.
  intros Ht. unfold Policy.first_failure. cbn [find Policy.source_order].
  repeat match goal with |- context [if Policy.violates ?v ?cs ?d ?r then _ else _] =>
    destruct (Policy.violates v cs d r) eqn:?; [by eexists|] end.
  cbn in *. congruence.
Qed.

(** What a submission does once its candidate is built, by the first
    rule the candidate violates. *)
Lemma handleFormSubmit_run v env form data (s : Gallery.State) :
  Gallery.characterData v env form = Normal data ->
  Gallery.handleFormSubmit v env form s =
    match Policy.first_failure Policy.source_order v (Gallery.characters s) data with
    | Some r => (Normal tt, Gallery.with_message (Policy.report v r) error s)
    | None =>
        (Normal tt,
         Gallery.with_message (CharacterCreated (Character.name data)) success
           (Gallery.rendered
              (exec Gallery.saveCharacters
                 (Gallery.with_characters (Gallery.characters s ++ [data]) s))))
    end.
Proof.
  intros Hdata. unfold Gallery.handleFormSubmit, bind. rewrite Hdata.
  rewrite validateCharacterData_policy.
  destruct (Policy.first_failure _ _ _ _); [done|].
  by rewrite addCharacter_run.
Qed.

(** An exception of [characterData] leaves the handler with the state as
    it was. *)
Lemma handleFormSubmit_throws v env form e (s : Gallery.State) :
  Gallery.characterData v env form = Throw e ->
  Gallery.handleFormSubmit v env form s = (Throw e, s).
Proof. intros Hdata. unfold Gallery.handleFormSubmit. by rewrite Hdata. Qed.

(** A submission throws and changes nothing, or runs on its candidate. *)
Lemma handleFormSubmit_cases v env form (s : Gallery.State) :
  (exists e, Gallery.characterData v env form = Throw e
             /\ Gallery.handleFormSubmit v env form s = (Throw e, s))
  \/ (exists data, Gallery.characterData v env form = Normal data
                   /\ Gallery.handleFormSubmit v env form s =
                        match Policy.first_failure Policy.source_order v
                                (Gallery.characters s) data with
                        | Some r =>
                            (Normal tt, Gallery.with_message (Policy.report v r) error s)
                        | None =>
                            (Normal tt,
                             Gallery.with_message (CharacterCreated (Character.name data))
                               success
                               (Gallery.rendered
                                  (exec Gallery.saveCharacters
                                     (Gallery.with_characters
                                        (Gallery.characters s ++ [data]) s))))
                        end).
Proof.
  destruct (Gallery.characterData v env form) as [data|e] eqn:Hdata.
  - right. exists data. split; [done|]. by apply handleFormSubmit_run.
  - left. exists e. split; [done|]. by apply handleFormSubmit_throws.
Qed.

(** A candidate starts with an empty bag. *)
Lemma characterData_bag v env form data :
  Gallery.characterData v env form = Normal data -> Character.bag data = Some [].
Proof.
  unfold Gallery.characterData. cbv zeta.
  destruct v; [destruct (Gallery.Form.customImageUrl form); [|done]|];
    by intros [= <-].
Qed.

(** What a candidate takes from the clock and from the text fields. *)
Lemma characterData_fields v env form data :
  Gallery.characterData v env form = Normal data ->
  Character.id data = Date_now env
  /\ Character.type data = Gallery.Form.type form
  /\ Character.name data = trim (Gallery.Form.name form)
  /\ Character.description data = trim (Gallery.Form.description form)
  /\ Character.createdAt data = Date_toISOString env.
Proof.
  unfold Gallery.characterData. cbv zeta.
  destruct v; [destruct (Gallery.Form.customImageUrl form); [|done]|];
    by intros [= <-].
Qed.

(** The second variant builds a candidate from every form; the first
    from the forms that hold the custom URL field. *)
Lemma characterData_built v env form :
  match v with
  | Gallery.CustomImages => is_Some (Gallery.Form.customImageUrl form)
  | Gallery.LocalImages => True
  end ->
  exists data, Gallery.characterData v env form = Normal data.
Proof.
  destruct v; cbn.
  - intros [custom ->]. by eexists.
  - intros _. by eexists.
Qed.

End GalleryStore.

(** C1 (as the code has it).  A submission whose candidate is built (in
    the first variant: a form that holds the custom URL field) and passes
    validation appends exactly one character, that candidate: its type is
    the submitted type, its name and description are the submitted ones
    trimmed, and its image reference is the one the variant builds (the
    trimmed custom URL or else the selected image; 'assets/images/'
    before the trimmed file name).  The collection is written to the
    store when it fits.  A submission whose candidate name is taken, case
    apart, is rejected with an error message; collection and browser stay
    as they are. *)
Theorem handleFormSubmit_appends_candidate {P : Platform} :
  forall (v : Gallery.Variant) (env : Env) (form : Gallery.Form.t) (s : Gallery.State)
         (data : Character.t),
    Gallery.characterData v env form = Normal data ->
    let s' := exec (Gallery.handleFormSubmit v env form) s in
    returns (Gallery.handleFormSubmit v env form) s = true
    /\ Character.type data = Gallery.Form.type form
    /\ Character.name data = trim (Gallery.Form.name form)
    /\ Character.description data = trim (Gallery.Form.description form)
    /\ match v with
       | Gallery.CustomImages =>
           exists custom,
             Gallery.Form.customImageUrl form = Some custom
             /\ Character.imageUrl data =
                  if String.eqb (trim custom) ""
                  then Gallery.Form.imageUrl form
                  else trim custom
       | Gallery.LocalImages =>
           Character.imageUrl data =
             if String.eqb (trim (Gallery.Form.imageUrl form)) ""
             then ""
             else "assets/images/" ++ trim (Gallery.Form.imageUrl form)
       end
    /\ (Policy.valid v (Gallery.characters s) data = true ->
        Gallery.characters s' = (Gallery.characters s ++ [data])%list
        /\ length (Gallery.characters s') = S (length (Gallery.characters s))
        /\ Gallery.cards s' = Gallery.characters s'
        /\ Gallery.message s' = Some (CharacterCreated (Character.name data), success)
        /\ localStorage (browser s') =
             let text := JSON_stringify (Gallery.characters s ++ [data])%list in
             if accepts (localQuota (browser s)) text
             then Some text else localStorage (browser s))
    /\ (Gallery.nameTaken (Gallery.characters s) data = true ->
        Gallery.characters s' = Gallery.characters s
        /\ browser s' = browser s
        /\ exists text, Gallery.message s' = Some (text, error)).
Proof.
  intros v env form s data Hdata s'.
  pose proof (handleFormSubmit_run v env form data s Hdata) as Hrun.
  assert (Hfields : Character.type data = Gallery.Form.type form
                    /\ Character.name data = trim (Gallery.Form.name form)
                    /\ Character.description data = trim (Gallery.Form.description form)).
  { unfold Gallery.characterData in Hdata. cbv zeta in Hdata.
    destruct v; [destruct (Gallery.Form.customImageUrl form); [|done]|];
      by injection Hdata as <-. }
  destruct Hfields as (Htype & Hname & Hdescription).
  split; [|split; [|split; [|split; [|split; [|split]]]]].
  - unfold returns. rewrite Hrun.
    by destruct (Policy.first_failure _ _ _ _).
  - done.
  - done.
  - done.
  - unfold Gallery.characterData in Hdata. cbv zeta in Hdata. destruct v.
    + destruct (Gallery.Form.customImageUrl form) as [custom|]; [|done].
      exists custom. split; [done|]. injection Hdata as <-.
      cbn [Character.imageUrl]. unfold truthy. by destruct (String.eqb _ "").
    + injection Hdata as <-. cbn [Character.imageUrl]. unfold truthy.
      by destruct (String.eqb _ "").
  - intros Hv. apply valid_no_failure in Hv.
    unfold s', exec. rewrite Hrun, Hv.
    cbn [snd Gallery.characters Gallery.cards Gallery.message Gallery.with_message
         Gallery.rendered browser Gallery.state_browser Gallery.page_browser].
    rewrite gallery_saveCharacters_characters, gallery_saveCharacters_localStorage.
    cbn [Gallery.characters Gallery.with_characters Gallery.page_browser].
    repeat split; try done.
    rewrite length_app. cbn. lia.
  - intros Ht. destruct (nameTaken_failure v _ _ Ht) as [r Hr].
    unfold s', exec. rewrite Hrun, Hr. cbn. eauto.
Qed.

(** C1, counterexample.  The scenario's submission (Ember, image
    'dragon1.png') is valid in the second variant, and the character it
    appends has the image reference 'assets/images/dragon1.png', not the
    submitted value.  In the first variant a valid submission with blanks
    around the name and the image given as a custom URL stores the name
    without the blanks. *)
Lemma submitted_values_counterexample :
  let run v form := exec (Gallery.handleFormSubmit (P := Reference.platform) v Example.env0 form)
                         (Example.gallery_with []) in
  (exists data,
     Gallery.characterData Gallery.LocalImages Example.env0 Example.ember_form = Normal data
     /\ Policy.valid Gallery.LocalImages [] data = true)
  /\ Character.imageUrl <$> Gallery.characters (run Gallery.LocalImages Example.ember_form)
       = ["assets/images/dragon1.png"]
  /\ Gallery.Form.imageUrl Example.ember_form = "dragon1.png"
  /\ (exists data,
        Gallery.characterData Gallery.CustomImages Example.env0 Example.padded_form
          = Normal data
        /\ Policy.valid Gallery.CustomImages [] data = true)
  /\ Character.name <$> Gallery.characters (run Gallery.CustomImages Example.padded_form)
       = ["Ember"]
  /\ Gallery.Form.name Example.padded_form = " Ember "
  /\ Character.imageUrl <$> Gallery.characters (run Gallery.LocalImages Example.ember_form)
       <> [Gallery.Form.imageUrl Example.ember_form]
  /\ Character.name <$> Gallery.characters (run Gallery.CustomImages Example.padded_form)
       <> [Gallery.Form.name Example.padded_form].
Proof.
  cbv zeta. repeat split;
    first [ eexists; split; reflexivity | vm_compute; first [reflexivity | discriminate] ].
Qed.

(** C1, witness: the scenario's submission into the empty gallery is
    appended, and a second Ember, in lower case, is turned away. *)
Lemma handleFormSubmit_appends_candidate_witness :
  let lower := Gallery.Form.mk "Dragon" "ember" "Another red dragon" "dragon2.png" None in
  (Character.name <$>
     Gallery.characters
       (exec (Gallery.handleFormSubmit (P := Reference.platform) Gallery.LocalImages
                Example.env0 Example.ember_form) (Example.gallery_with []))) = ["Ember"]
  /\ (Gallery.characters
        (exec (Gallery.handleFormSubmit (P := Reference.platform) Gallery.LocalImages
                 Example.env0 lower) (Example.gallery_with [Example.ember]))
      = [Example.ember]).
Proof.
  cbv zeta. split.
  - destruct (handleFormSubmit_appends_candidate (P := Reference.platform)
                Gallery.LocalImages Example.env0 Example.ember_form
                (Example.gallery_with []) _ eq_refl) as (_ & _ & _ & _ & _ & Hvalid & _).
    destruct Hvalid as [Happ _]; [reflexivity|]. rewrite Happ. reflexivity.
  - destruct (handleFormSubmit_appends_candidate (P := Reference.platform)
                Gallery.LocalImages Example.env0
                (Gallery.Form.mk "Dragon" "ember" "Another red dragon" "dragon2.png" None)
                (Example.gallery_with [Example.ember]) _ eq_refl)
      as (_ & _ & _ & _ & _ & _ & Htaken).
    destruct Htaken as [Hsame _]; [reflexivity|]. exact Hsame.
Defined.

Section GalleryDelete.
Context {P : Platform}.

Lemma gallery_saveCharacters_sessionStorage (s : Gallery.State) :
  sessionStorage (Gallery.page_browser (exec Gallery.saveCharacters s))
    = sessionStorage (Gallery.page_browser s).
Proof.
  unfold exec. rewrite gallery_saveCharacters_run. cbn.
  by destruct (accepts _ _).
Qed.

(** The test of the delete handler, read on the number. *)
Lemma invalid_selection (n : JSNumber) (len : nat) :
  negb (isInteger n) || Gallery.atLeast n len =
    match n with
    | Int z => negb (z <? Z.of_nat len)
    | _ => true
    end.
Proof.
  destruct n as [|z|]; cbn; [done| |done].
  destruct (Z.leb_spec (Z.of_nat len) z), (Z.ltb_spec z (Z.of_nat len)); cbn; lia.
Qed.

End GalleryDelete.

(** C3 (as the code has it).  A confirmed delete removes the character at
    the position and then looks at the selection signal: it removes the
    signal when its number is no integer or is at or beyond the length
    the collection has now, and keeps a signal that is still within
    bounds, whichever character is at that position now.  A declined
    delete changes nothing. *)
Theorem deleteCharacter_clears_signal_out_of_bounds {P : Platform} :
  forall (index : nat) (s : Gallery.State),
    let s' := exec (Gallery.deleteCharacter true index) s in
    returns (Gallery.deleteCharacter true index) s = true
    /\ Gallery.characters s' = delete index (Gallery.characters s)
    /\ sessionStorage (browser s') =
         match sessionStorage (browser s) with
         | Some text =>
             match ToNumber text with
             | Int z => if z <? Z.of_nat (length (Gallery.characters s'))
                        then Some text else None
             | _ => None
             end
         | None => None
         end
    /\ exec (Gallery.deleteCharacter false index) s = s.
Proof.
  intros index s s'.
  assert (Hrun : Gallery.deleteCharacter true index s =
    let s1 := exec Gallery.saveCharacters
                (Gallery.with_characters (delete index (Gallery.characters s)) s) in
    (Normal tt,
     Gallery.with_message CharacterDeleted success
       (Gallery.rendered
          match sessionStorage (Gallery.page_browser s1) with
          | Some text =>
              if negb (isInteger (ToNumber text))
                 || Gallery.atLeast (ToNumber text) (length (Gallery.characters s1))
              then with_browser (with_sessionStorage None (Gallery.page_browser s1)) s1
              else s1
          | None => s1
          end))).
  { unfold Gallery.deleteCharacter. js_step.
    rewrite gallery_saveCharacters_run. js_step.
    destruct (accepts _ _); cbn;
      destruct (sessionStorage (Gallery.page_browser s)) as [text|]; cbn; try done;
      by destruct (negb _ || _). }
  assert (Hcs : Gallery.characters s' = delete index (Gallery.characters s)).
  { unfold s', exec. rewrite Hrun. cbn zeta.
    cbn [snd Gallery.with_message Gallery.rendered Gallery.characters].
    destruct (sessionStorage _) as [text|]; [destruct (negb _ || _)|];
      cbn [with_browser Gallery.state_browser Gallery.characters];
      by rewrite gallery_saveCharacters_characters. }
  split; [|split; [exact Hcs|split; [|done]]].
  - unfold returns. by rewrite Hrun.
  - rewrite Hcs. unfold s', exec. rewrite Hrun. cbn zeta.
    cbn [snd Gallery.with_message Gallery.rendered browser Gallery.state_browser
         Gallery.page_browser].
    rewrite gallery_saveCharacters_sessionStorage, gallery_saveCharacters_characters.
    cbn [Gallery.with_characters Gallery.page_browser Gallery.characters].
    destruct (sessionStorage (Gallery.page_browser s)) as [text|] eqn:Hsel.
    + rewrite invalid_selection.
      destruct (ToNumber text) as [|z|];
        [| destruct (z <? _) |]; cbn;
        rewrite ?gallery_saveCharacters_sessionStorage; done.
    + by rewrite gallery_saveCharacters_sessionStorage.
Qed.

(** C3, counterexample.  Ember, Sable and Orin are in the gallery and the
    signal is '1', written for Sable.  Deleting Ember at position 0
    leaves Sable and Orin: position 1 is now Orin, and the signal is
    still '1'.  With the signal '0', written for Ember, the same delete
    leaves the signal '0', which now designates Sable. *)
Lemma stale_signal_counterexample :
  let cs := [Example.ember; Example.sable; Example.orin] in
  let selected text :=
    Gallery.mkState (with_sessionStorage (Some text) Example.browser0) cs None cs in
  let after text :=
    exec (Gallery.deleteCharacter (P := Reference.platform) true 0) (selected text) in
  cs !! 1%nat = Some Example.sable
  /\ Gallery.characters (after "1") !! 1%nat = Some Example.orin
  /\ sessionStorage (browser (after "1")) = Some "1"
  /\ cs !! 0%nat = Some Example.ember
  /\ Gallery.characters (after "0") !! 0%nat = Some Example.sable
  /\ sessionStorage (browser (after "0")) = Some "0"
  /\ Gallery.characters (after "1") !! 1%nat <> cs !! 1%nat
  /\ sessionStorage (browser (after "1")) <> None.
Proof. cbv zeta. repeat split; vm_compute; first [reflexivity | discriminate]. Qed.

Section DetailStore.
Context {P : Platform}.

(** The two managers load alike: the collection is [Store.load] of the
    slot, a text that does not parse is logged, and no exception leaves
    [loadCharacters]. *)
Lemma detail_loadCharacters_run (s : Detail.State) :
  Detail.loadCharacters s =
    (Normal tt,
     Detail.with_characters (Store.load (Detail.page_browser s))
       (if Store.corrupt (Detail.page_browser s)
        then with_browser (logged "Error loading characters:" (Detail.page_browser s)) s
        else s)).
Proof.
  unfold Detail.loadCharacters, Store.load, Store.corrupt. js_step.
  destruct (localStorage (Detail.page_browser s)) as [text|]; [|done].
  destruct (truthy text); [|done]. cbn.
  by destruct (JSON_parse text).
Qed.

Lemma gallery_loadCharacters_run (s : Gallery.State) :
  Gallery.loadCharacters s =
    (Normal (Store.load (Gallery.page_browser s)),
     if Store.corrupt (Gallery.page_browser s)
     then with_browser (logged "Error loading characters:" (Gallery.page_browser s)) s
     else s).
Proof.
  unfold Gallery.loadCharacters, Store.load, Store.corrupt. js_step.
  destruct (localStorage (Gallery.page_browser s)) as [text|]; [|done].
  destruct (truthy text); [|done]. cbn.
  by destruct (JSON_parse text).
Qed.

Lemma detail_saveCharacters_run (s : Detail.State) :
  Detail.saveCharacters s =
    (Normal tt,
     let text := JSON_stringify (Detail.characters s) in
     if accepts (localQuota (Detail.page_browser s)) text
     then with_browser (with_localStorage (Some text) (Detail.page_browser s)) s
     else Detail.with_message ErrorSavingChanges error
            (with_browser (logged "Error saving characters:" (Detail.page_browser s)) s)).
Proof.
  unfold Detail.saveCharacters. js_step.
  by destruct (accepts _ _).
Qed.

(** What [initializeDetail] leaves on a fresh page, case by case. *)
Lemma constructor_run (b : Browser) :
  let fresh := Detail.mkState b None [] None Detail.Blank None false in
  Detail.constructor b =
    (Normal tt,
     match sessionStorage b with
     | None =>
         with_browser (with_timer "index.html" 2000 b)
           (Detail.with_characterInfo (Detail.ErrorPanel Detail.NoCharacterSelected) fresh)
     | Some text =>
         let loaded :=
           Detail.with_characters (Store.load b)
             (Detail.with_characterIndex (Some text)
                (if Store.corrupt b
                 then with_browser (logged "Error loading characters:" b) fresh
                 else fresh)) in
         match array_get (Store.load b) (parseInt text) with
         | None =>
             with_browser (with_timer "index.html" 2000 (Detail.page_browser loaded))
               (Detail.with_characterInfo (Detail.ErrorPanel Detail.CharacterNotFound) loaded)
         | Some c =>
             Detail.with_listeners
               (Detail.with_bagItems (Character.bagOrEmpty c)
                  (Detail.with_characterInfo (Detail.Info c) loaded))
         end
     end).
Proof.
  unfold Detail.constructor, Detail.initializeDetail.
  unfold try_catch, bind at 1, sessionStorage_getItem, gets.
  cbn [browser Detail.state_browser Detail.page_browser].
  destruct (sessionStorage b) as [text|]; [|done].
  unfold bind at 1, modify. unfold bind at 1.
  rewrite detail_loadCharacters_run.
  unfold bind at 1, gets. unfold Detail.character at 1, Detail.position.
  cbn [Detail.characters Detail.with_characters Detail.characterIndex
       Detail.with_characterIndex Detail.page_browser].
  destruct (Store.corrupt b);
    cbn [Detail.characters Detail.with_characters Detail.characterIndex
         Detail.with_characterIndex Detail.page_browser with_browser Detail.state_browser];
    destruct (array_get (Store.load b) (parseInt text)) as [c|] eqn:Hc; try done.
  all: js_step; unfold Detail.character, Detail.position; cbn; by repeat (rewrite Hc; cbn).
Qed.

End DetailStore.

(** [parseInt] reads back the decimal text that [viewCharacter] writes. *)
Section Decimal.

Lemma digitValue_pretty_N_char (d : N) :
  (d < 10)%N -> digitValue 10 (pretty_N_char d) = Some (Z.of_N d).
Proof.
  intros Hd.
  assert (d = 0 \/ d = 1 \/ d = 2 \/ d = 3 \/ d = 4 \/ d = 5 \/ d = 6 \/ d = 7
          \/ d = 8 \/ d = 9)%N as Hcases by lia.
  repeat destruct Hcases as [-> | Hcases]; try reflexivity. by subst d.
Qed.

(** Reading the decimal digits of [x] multiplies what was read so far by
    a power of ten and adds [x]. *)
Lemma parseDigits_pretty_N_go (x : N) :
  forall acc s, (0 < x)%N ->
    exists k, parseDigits 10 acc (pretty_N_go x s)
              = parseDigits 10 (Some (default 0 acc * k + Z.of_N x)) s.
Proof.
  induction (N.lt_wf_0 x) as [x _ IH]. intros acc s Hx.
  rewrite pretty_N_go_step by done.
  assert (Hdigit : digitValue 10 (pretty_N_char (x `mod` 10)) = Some (Z.of_N (x `mod` 10))).
  { apply digitValue_pretty_N_char. by apply N.mod_lt. }
  pose proof (N.div_mod x 10 ltac:(done)) as Hdm.
  destruct (N.eq_dec (x `div` 10)%N 0%N) as [Hzero|Hpos].
  - rewrite Hzero, pretty_N_go_0. cbn [parseDigits]. rewrite Hdigit.
    apply N.div_small_iff in Hzero; [|done].
    rewrite (N.mod_small _ _ Hzero). by exists 10.
  - destruct (IH (x `div` 10)%N) with (acc := acc)
        (s := String (pretty_N_char (x `mod` 10)) s) as [k Hk].
    { by apply N.div_lt. }
    { by apply N.neq_0_lt_0. }
    rewrite Hk. cbn [parseDigits]. rewrite Hdigit. cbn [default from_option id].
    exists (k * 10). do 2 f_equal. rewrite Hdm at 3. lia.
Qed.

Lemma pretty_N_go_first (x : N) :
  forall s, (0 < x)%N ->
    exists d rest, (1 <= d <= 9)%N /\ pretty_N_go x s = String (pretty_N_char d) rest.
Proof.
  induction (N.lt_wf_0 x) as [x _ IH]. intros s Hx.
  rewrite pretty_N_go_step by done.
  destruct (N.eq_dec (x `div` 10)%N 0%N) as [Hzero|Hpos].
  - rewrite Hzero, pretty_N_go_0. exists (x `mod` 10)%N, s. split; [|done].
    apply N.div_small_iff in Hzero; [|done].
    rewrite (N.mod_small _ _ Hzero). lia.
  - apply IH; [by apply N.div_lt|by apply N.neq_0_lt_0].
Qed.

Lemma parseInt_pretty_nat (n : nat) : parseInt (pretty n) = Int (Z.of_nat n).
Proof.
  unfold pretty, pretty_nat, pretty, pretty_N.
  destruct (decide (N.of_nat n = 0%N)) as [Hzero|Hpos].
  - assert (n = 0%nat) as -> by lia. reflexivity.
  - assert (Hn : (0 < N.of_nat n)%N) by lia.
    destruct (parseDigits_pretty_N_go (N.of_nat n) None "" Hn) as [k Hk].
    destruct (pretty_N_go_first (N.of_nat n) "" Hn) as (d & rest & Hd & Hs).
    assert (Hint : parseInt (pretty_N_go (N.of_nat n) "")
                   = match parseDigits 10 None (pretty_N_go (N.of_nat n) "") with
                     | Some m => Int (1 * m)
                     | None => NaN
                     end).
    { rewrite Hs.
      assert (d = 1 \/ d = 2 \/ d = 3 \/ d = 4 \/ d = 5 \/ d = 6 \/ d = 7
              \/ d = 8 \/ d = 9)%N as Hcases by lia.
      repeat destruct Hcases as [-> | Hcases]; try reflexivity. by subst d. }
    rewrite Hint, Hk. cbn [parseDigits default from_option id]. f_equal. lia.
Qed.

End Decimal.

Section DetailInitialisation.
Context {P : Platform}.

(** A signal that designates no element of the stored collection leaves
    the page in the not-found state, with the redirect set and the store
    as it was. *)
Lemma constructor_not_found (b : Browser) (text : string) :
  sessionStorage b = Some text ->
  array_get (Store.load b) (parseInt text) = None ->
  let s' := snd (Detail.constructor b) in
  fst (Detail.constructor b) = Normal tt
  /\ Phase.NotFound s'
  /\ Detail.characterInfo s' = Detail.ErrorPanel Detail.CharacterNotFound
  /\ Phase.redirect_scheduled b (browser s')
  /\ localStorage (browser s') = localStorage b.
Proof.
  intros Hsel Hget s'. unfold s'. rewrite constructor_run, Hsel. cbn zeta.
  rewrite Hget. unfold Phase.NotFound, Phase.redirect_scheduled, Detail.character,
    Detail.position. cbn. rewrite Hget.
  destruct (Store.corrupt b); cbn; auto 10.
Qed.

Lemma constructor_resolves (b : Browser) (text : string) (c : Character.t) :
  sessionStorage b = Some text ->
  array_get (Store.load b) (parseInt text) = Some c ->
  let s' := snd (Detail.constructor b) in
  fst (Detail.constructor b) = Normal tt
  /\ Phase.Ready c s'
  /\ Detail.characters s' = Store.load b
  /\ timers (browser s') = timers b
  /\ localStorage (browser s') = localStorage b.
Proof.
  intros Hsel Hget s'. unfold s'. rewrite constructor_run, Hsel. cbn zeta.
  rewrite Hget. unfold Phase.Ready, Detail.character, Detail.position. cbn.
  rewrite Hget. destruct (Store.corrupt b); cbn; auto 10.
Qed.

Lemma constructor_no_selection (b : Browser) :
  sessionStorage b = None ->
  let s' := snd (Detail.constructor b) in
  fst (Detail.constructor b) = Normal tt
  /\ Phase.NotFound s'
  /\ Phase.redirect_scheduled b (browser s')
  /\ localStorage (browser s') = localStorage b.
Proof.
  intros Hsel s'. unfold s'. rewrite constructor_run, Hsel.
  unfold Phase.NotFound, Phase.redirect_scheduled. cbn. auto 10.
Qed.

Lemma array_get_out_of_bounds {A} (l : list A) (z : Z) :
  z < 0 \/ Z.of_nat (length l) <= z -> array_get l (Int z) = None.
Proof.
  intros Hz. cbn. destruct (Z.leb_spec 0 z); [|done].
  apply lookup_ge_None. lia.
Qed.

Lemma array_get_in_bounds {A} (l : list A) (z : Z) :
  0 <= z < Z.of_nat (length l) ->
  exists x, l !! Z.to_nat z = Some x /\ array_get l (Int z) = Some x.
Proof.
  intros Hz. destruct (lookup_lt_is_Some_2 l (Z.to_nat z)) as [x Hx]; [lia|].
  exists x. split; [done|]. cbn. by destruct (Z.leb_spec 0 z); [|lia].
Qed.

End DetailInitialisation.

(** C4.  On a fresh detail page, [initializeDetail] returns and leaves
    the store as it was.  When the selection signal is absent, or its
    position is outside the stored collection, the page ends in the
    not-found state with the redirect to the gallery set for 2000 ms; when
    the position is within the collection, the page resolves and renders
    the character at that position.  The position is what [parseInt]
    reads from the signal; for the decimal text of a position [p], as the
    gallery writes it, it is [p]. *)
Theorem initializeDetail_resolves_position {P : Platform} :
  forall (b : Browser),
    let s' := snd (Detail.constructor b) in
    fst (Detail.constructor b) = Normal tt
    /\ localStorage (browser s') = localStorage b
    /\ (sessionStorage b = None ->
        Phase.NotFound s' /\ Phase.redirect_scheduled b (browser s'))
    /\ (forall text z,
          sessionStorage b = Some text -> parseInt text = Int z ->
          z < 0 \/ Z.of_nat (length (Store.load b)) <= z ->
          Phase.NotFound s' /\ Phase.redirect_scheduled b (browser s'))
    /\ (forall text z,
          sessionStorage b = Some text -> parseInt text = Int z ->
          0 <= z < Z.of_nat (length (Store.load b)) ->
          exists c, Store.load b !! Z.to_nat z = Some c
                    /\ Phase.Ready c s'
                    /\ Detail.characters s' = Store.load b)
    /\ (forall p : nat,
          sessionStorage b = Some (pretty p) ->
          match Store.load b !! p with
          | Some c => Phase.Ready c s'
          | None => Phase.NotFound s' /\ Phase.redirect_scheduled b (browser s')
          end).
Proof.
  intros b s'. split; [|split; [|split; [|split; [|split]]]].
  - rewrite constructor_run. done.
  - unfold s'. rewrite constructor_run. cbn zeta.
    destruct (sessionStorage b); [|done].
    destruct (array_get _ _), (Store.corrupt b); done.
  - intros Hsel. by destruct (constructor_no_selection b Hsel) as (_ & ? & ? & _).
  - intros text z Hsel Hz Hout.
    destruct (constructor_not_found b text Hsel) as (_ & ? & _ & ? & _); [|done].
    rewrite Hz. by apply array_get_out_of_bounds.
  - intros text z Hsel Hz Hin.
    destruct (array_get_in_bounds (Store.load b) z Hin) as (c & Hc & Hget).
    exists c. split; [done|].
    destruct (constructor_resolves b text c Hsel) as (_ & ? & ? & _); [|done].
    by rewrite Hz.
  - intros p Hsel.
    assert (Hget : array_get (Store.load b) (parseInt (pretty p)) = Store.load b !! p).
    { rewrite parseInt_pretty_nat. cbn.
      destruct (Z.leb_spec 0 (Z.of_nat p)); [|lia]. by rewrite Nat2Z.id. }
    destruct (Store.load b !! p) as [c|] eqn:Hc.
    + by destruct (constructor_resolves b (pretty p) c Hsel Hget) as (_ & ? & _).
    + by destruct (constructor_not_found b (pretty p) Hsel Hget) as (_ & ? & _ & ? & _).
Qed.

(** C10.  A signal whose text [parseInt] reads as NaN, or as a negative
    number, designates nothing: [initializeDetail] returns normally, the
    page is in the not-found state of the 'Character not found' message
    with the redirect set, and the store is as it was.  The signal apart,
    the page is in the state an out-of-bounds position leaves it in. *)
Theorem initializeDetail_unparsable_signal {P : Platform} :
  forall (b : Browser) (text : string),
    sessionStorage b = Some text ->
    (parseInt text = NaN \/ exists z, parseInt text = Int z /\ z < 0) ->
    let s' := snd (Detail.constructor b) in
    fst (Detail.constructor b) = Normal tt
    /\ Phase.NotFound s'
    /\ Detail.characterInfo s' = Detail.ErrorPanel Detail.CharacterNotFound
    /\ Phase.redirect_scheduled b (browser s')
    /\ localStorage (browser s') = localStorage b
    /\ (forall text' z,
          parseInt text' = Int z -> Z.of_nat (length (Store.load b)) <= z ->
          Phase.without_signal s'
          = Phase.without_signal
              (snd (Detail.constructor (with_sessionStorage (Some text') b)))).
Proof.
  intros b text Hsel Hparse s'.
  assert (Hget : array_get (Store.load b) (parseInt text) = None).
  { destruct Hparse as [-> | (z & -> & Hz)]; [done|].
    apply array_get_out_of_bounds. by left. }
  destruct (constructor_not_found b text Hsel Hget) as (? & ? & ? & ? & ?).
  do 5 (split; [done|]).
  intros text' z Hz Hout. unfold s'.
  rewrite !constructor_run, Hsel. cbn zeta.
  cbn [sessionStorage with_sessionStorage].
  change (Store.load (with_sessionStorage (Some text') b)) with (Store.load b).
  change (Store.corrupt (with_sessionStorage (Some text') b)) with (Store.corrupt b).
  rewrite Hget, Hz, array_get_out_of_bounds by (by right).
  by destruct (Store.corrupt b).
Qed.

(** ** The reference codec reads what it writes *)

Section ReferenceCodec.
Import Reference.

Lemma read_chars_escapeChar (c : ascii) (tail : string) :
  read_chars (escapeChar c tail)
    = '(t, r) ← read_chars tail; Some (String c t, r).
Proof.
  destruct c as [[|] [|] [|] [|] [|] [|] [|] [|]]; reflexivity.
Qed.

Lemma read_chars_write_chars (s rest : string) :
  read_chars (write_chars s (String dquote rest)) = Some (s, rest).
Proof.
  induction s as [|c s IH]; [done|].
  cbn [write_chars]. by rewrite read_chars_escapeChar, IH.
Qed.

Lemma read_string_write_string (s rest : string) :
  read_string (write_string s rest) = Some (s, rest).
Proof. apply read_chars_write_chars. Qed.

Lemma read_uint_write_uint (d : Decimal.uint) (rest : string) :
  read_uint rest = (Decimal.Nil, rest) ->
  read_uint (write_uint d rest) = (d, rest).
Proof.
  intros Hrest. induction d; cbn; by rewrite ?IHd.
Qed.

Lemma to_int_not_nil (z : Z) :
  match Z.to_int z with
  | Decimal.Pos d | Decimal.Neg d => d <> Decimal.Nil
  end.
Proof.
  destruct z as [|p|p]; cbn; [done| |];
    apply DecimalPos.Unsigned.to_uint_nonnil.
Qed.

Lemma read_number_write_number (z : Z) (rest : string) :
  read_uint rest = (Decimal.Nil, rest) ->
  read_number (write_number z rest) = Some (z, rest).
Proof.
  intros Hrest. unfold write_number.
  pose proof (to_int_not_nil z) as Hnil.
  pose proof (DecimalZ.of_to z) as Hz.
  destruct (Z.to_int z) as [d|d].
  - assert (Hread := read_uint_write_uint d rest Hrest).
    destruct d; [done|..]; cbn [write_uint read_number] in *; by rewrite Hread, Hz.
  - cbn [read_number]. rewrite (read_uint_write_uint d rest Hrest).
    destruct d; [done|..]; by rewrite Hz.
Qed.

(** Lays the literal parts of a text out and reads over them. *)
Ltac codec_step :=
  cbv [String.append key];
  cbn -[read_string write_string read_number write_number read_array write_array].

Lemma read_item_write_item (i : Item.t) (rest : string) :
  read_item (write_item i rest) = Some (i, rest).
Proof.
  destruct i as [id type name description addedAt].
  unfold read_item, write_item. codec_step.
  repeat (rewrite read_string_write_string; codec_step).
  done.
Qed.

(** Writers put something before the text that follows. *)
Lemma le_String (n : nat) (c : ascii) (s : string) :
  (n <= String.length s)%nat -> (n <= String.length (String c s))%nat.
Proof. cbn. lia. Qed.

Lemma lt_String (n : nat) (c : ascii) (s : string) :
  (n <= String.length s)%nat -> (n < String.length (String c s))%nat.
Proof. cbn. lia. Qed.

Lemma le_escapeChar (n : nat) (c : ascii) (s : string) :
  (n <= String.length s)%nat -> (n <= String.length (escapeChar c s))%nat.
Proof.
  intros Hn. unfold escapeChar.
  repeat match goal with |- context [if ?b then _ else _] => destruct b end;
    cbn; lia.
Qed.

Lemma le_write_string (n : nat) (s rest : string) :
  (n <= String.length rest)%nat -> (n <= String.length (write_string s rest))%nat.
Proof.
  intros Hn. unfold write_string. apply le_String.
  induction s as [|c s IH]; cbn [write_chars]; [by apply le_String|].
  by apply le_escapeChar.
Qed.

Lemma lt_write_item (i : Item.t) (rest : string) :
  (String.length rest < String.length (write_item i rest))%nat.
Proof.
  unfold write_item. cbv [String.append key]. apply lt_String.
  repeat first [apply le_write_string | apply le_String]. done.
Qed.

Section Arrays.
Context {A : Type} (write : A -> string -> string) (read : string -> option (A * string)).
Hypothesis read_write : forall x rest, read (write x rest) = Some (x, rest).
Hypothesis write_grows : forall x rest,
  (String.length rest < String.length (write x rest))%nat.
Hypothesis write_opens : forall x rest, exists r, write x rest = String "{" r.

Lemma le_write_elements (n : nat) (l : list A) (rest : string) :
  (n <= String.length rest)%nat ->
  (n + length l <= String.length (write_elements write l rest))%nat.
Proof.
  revert n. induction l as [|x l IH]; intros n Hn; [cbn; lia|].
  destruct l as [|y l].
  - cbn. pose proof (write_grows x rest). lia.
  - change (write_elements write (x :: y :: l) rest)
      with (write x (String "," (write_elements write (y :: l) rest))).
    pose proof (write_grows x (String "," (write_elements write (y :: l) rest))) as Hx.
    specialize (IH n Hn). cbn [String.length length] in *. lia.
Qed.

Lemma read_elements_write_elements (l : list A) (rest : string) (fuel : nat) :
  l <> [] -> (length l <= fuel)%nat ->
  read_elements read fuel (write_elements write l (String "]" rest)) = Some (l, rest).
Proof.
  revert fuel. induction l as [|x l IH]; intros fuel Hl Hfuel; [done|].
  destruct fuel as [|fuel]; [cbn in Hfuel; lia|].
  destruct l as [|y l].
  - cbn. by rewrite read_write.
  - change (write_elements write (x :: y :: l) (String "]" rest))
      with (write x (String "," (write_elements write (y :: l) (String "]" rest)))).
    cbn [read_elements]. rewrite read_write. cbn -[write_elements read_elements].
    rewrite IH; [done|done|]. cbn [length] in *. lia.
Qed.

Lemma read_array_write_array (l : list A) (rest : string) :
  read_array read (write_array write l rest) = Some (l, rest).
Proof.
  destruct l as [|x l]; [done|]. unfold write_array.
  assert (Hopen : exists r, write_elements write (x :: l) (String "]" rest) = String "{" r).
  { destruct l; cbn; apply write_opens. }
  destruct Hopen as [r Hr]. unfold read_array. rewrite Hr. rewrite <- Hr.
  apply read_elements_write_elements; [done|].
  pose proof (le_write_elements 0 (x :: l) (String "]" rest) ltac:(lia)). lia.
Qed.

Lemma le_write_array (n : nat) (l : list A) (rest : string) :
  (n <= String.length rest)%nat ->
  (n <= String.length (write_array write l rest))%nat.
Proof.
  intros Hn. unfold write_array. cbn [String.length].
  pose proof (le_write_elements n l (String "]" rest) ltac:(cbn; lia)). lia.
Qed.

End Arrays.

Lemma le_write_uint (n : nat) (d : Decimal.uint) (rest : string) :
  (n <= String.length rest)%nat -> (n <= String.length (write_uint d rest))%nat.
Proof. intros Hn. induction d; cbn; lia. Qed.

Lemma le_write_number (n : nat) (z : Z) (rest : string) :
  (n <= String.length rest)%nat -> (n <= String.length (write_number z rest))%nat.
Proof.
  intros Hn. unfold write_number.
  destruct (Z.to_int z); [|apply le_String]; by apply le_write_uint.
Qed.

Lemma read_bag_write_bag (b : list Item.t) (rest : string) :
  read_array read_item (write_array write_item b rest) = Some (b, rest).
Proof.
  apply read_array_write_array.
  - apply read_item_write_item.
  - apply lt_write_item.
  - intros i r. by eexists.
Qed.

Lemma read_character_write_character (c : Character.t) (rest : string) :
  read_character (write_character c rest) = Some (c, rest).
Proof.
  destruct c as [id type name description imageUrl bag createdAt].
  unfold read_character, write_character. cbn [Character.bag].
  destruct bag as [b|]; codec_step;
    (rewrite read_number_write_number by done); codec_step;
    repeat (first [rewrite read_string_write_string | rewrite read_bag_write_bag];
            codec_step);
    done.
Qed.

Lemma lt_write_character (c : Character.t) (rest : string) :
  (String.length rest < String.length (write_character c rest))%nat.
Proof.
  unfold write_character.
  destruct (Character.bag c); cbv [String.append key]; apply lt_String;
    repeat first [apply le_write_string | apply le_write_number
                 | apply le_write_array; [apply lt_write_item|]
                 | apply le_String];
    done.
Qed.

Lemma parse_stringify_reference (cs : list Character.t) :
  parse (stringify cs) = Some cs.
Proof.
  unfold parse, stringify.
  rewrite read_array_write_array; [done| | |].
  - apply read_character_write_character.
  - apply lt_write_character.
  - intros c r. by eexists.
Qed.

End ReferenceCodec.

(** The reference platform's codec obeys the laws. *)
Lemma reference_laws : JSONLaws Reference.platform.
Proof.
  split.
  - exact parse_stringify_reference.
  - done.
  - done.
Qed.

(** C4, witness: the scenario.  With Ember alone in the store, the signal
    '0' resolves and renders Ember; the signal '5' ends in the not-found
    state with the redirect set. *)
Lemma initializeDetail_resolves_position_witness :
  (exists c, Character.name c = "Ember"
             /\ Phase.Ready c (snd (Detail.constructor (P := Reference.platform)
                                      (Example.browser_with_ember (Some "0")))))
  /\ Phase.NotFound (snd (Detail.constructor (P := Reference.platform)
                            (Example.browser_with_ember (Some "5"))))
  /\ Phase.redirect_scheduled (Example.browser_with_ember (Some "5"))
       (browser (snd (Detail.constructor (P := Reference.platform)
                        (Example.browser_with_ember (Some "5"))))).
Proof.
  split.
  - destruct (initializeDetail_resolves_position (P := Reference.platform)
                (Example.browser_with_ember (Some "0"))) as (_ & _ & _ & _ & Hin & _).
    destruct (Hin "0" 0) as (c & Hc & Hready & _); [reflexivity|reflexivity|
      vm_compute; split; [discriminate|reflexivity] |].
    exists c. split; [|exact Hready].
    vm_compute in Hc. by injection Hc as <-.
  - destruct (initializeDetail_resolves_position (P := Reference.platform)
                (Example.browser_with_ember (Some "5"))) as (_ & _ & _ & Hout & _).
    apply (Hout "5" 5); [reflexivity|reflexivity|].
    right. vm_compute. discriminate.
Defined.

(** C10, witness: the signal 'abc' over a store that holds Ember. *)
Lemma initializeDetail_unparsable_signal_witness :
  parseInt "abc" = NaN
  /\ Phase.NotFound (snd (Detail.constructor (P := Reference.platform)
                            (Example.browser_with_ember (Some "abc"))))
  /\ localStorage (browser (snd (Detail.constructor (P := Reference.platform)
                                   (Example.browser_with_ember (Some "abc")))))
     = localStorage (Example.browser_with_ember (Some "abc")).
Proof.
  split; [reflexivity|].
  destruct (initializeDetail_unparsable_signal (P := Reference.platform)
              (Example.browser_with_ember (Some "abc")) "abc")
    as (_ & Hnf & _ & _ & Hstore & _); [reflexivity|by left|].
  split; [exact Hnf|exact Hstore].
Defined.

Section StoreRoundTrip.
Context {P : Platform}.

Lemma roundtrip_gallery_run (g : Gallery.State) :
  let g' := exec RoundTrip.gallery g in
  returns RoundTrip.gallery g = true
  /\ Gallery.characters g' = Store.load (browser g)
  /\ localStorage (browser g') = Store.save (Store.load (browser g)) (browser g)
  /\ localQuota (browser g') = localQuota (browser g).
Proof.
  unfold RoundTrip.gallery, exec, returns, bind.
  rewrite gallery_loadCharacters_run. unfold modify.
  rewrite gallery_saveCharacters_run. unfold Store.save. cbn.
  destruct (Store.corrupt (Gallery.page_browser g)); cbn;
    destruct (accepts _ _); cbn; done.
Qed.

Lemma roundtrip_detail_run (d : Detail.State) :
  let d' := exec RoundTrip.detail d in
  returns RoundTrip.detail d = true
  /\ Detail.characters d' = Store.load (browser d)
  /\ localStorage (browser d') = Store.save (Store.load (browser d)) (browser d)
  /\ localQuota (browser d') = localQuota (browser d).
Proof.
  unfold RoundTrip.detail, exec, returns, bind.
  rewrite detail_loadCharacters_run.
  rewrite detail_saveCharacters_run. unfold Store.save. cbn.
  destruct (Store.corrupt (Detail.page_browser d)); cbn;
    destruct (accepts _ _); cbn; done.
Qed.

Context {L : JSONLaws P}.

Lemma stringify_truthy (cs : list Character.t) : truthy (JSON_stringify cs) = true.
Proof.
  destruct (truthy _) eqn:Ht; [done|].
  apply truthy_false in Ht. by apply stringify_not_empty in Ht.
Qed.

(** Saving what was loaded, and loading again, gives the same collection,
    whose text is the one the slot holds if the write went through. *)
Lemma save_load_fixed (b b' : Browser) :
  localStorage b' = Store.save (Store.load b) b ->
  localQuota b' = localQuota b ->
  Store.save (Store.load b') b' = Store.save (Store.load b) b.
Proof.
  intros Hslot Hquota. unfold Store.save in *. rewrite Hquota.
  destruct (accepts (localQuota b) (JSON_stringify (Store.load b))) eqn:Hfit.
  - assert (Hload : Store.load b' = Store.load b).
    { unfold Store.load at 1. rewrite Hslot, stringify_truthy, parse_stringify. done. }
    by rewrite Hload, Hfit.
  - assert (Hload : Store.load b' = Store.load b).
    { unfold Store.load. by rewrite Hslot. }
    by rewrite Hload, Hfit.
Qed.

End StoreRoundTrip.

(** C5.  For every state of the slot, [save(load())] leaves a slot that a
    second [save(load())] leaves unchanged, character for character, on
    the gallery page and on the detail page. *)
Theorem save_load_idempotent {P : Platform} {L : JSONLaws P} :
  forall (g : Gallery.State) (d : Detail.State),
    (returns RoundTrip.gallery g = true
     /\ returns RoundTrip.gallery (exec RoundTrip.gallery g) = true
     /\ localStorage (browser (exec RoundTrip.gallery (exec RoundTrip.gallery g)))
        = localStorage (browser (exec RoundTrip.gallery g)))
    /\ (returns RoundTrip.detail d = true
        /\ returns RoundTrip.detail (exec RoundTrip.detail d) = true
        /\ localStorage (browser (exec RoundTrip.detail (exec RoundTrip.detail d)))
           = localStorage (browser (exec RoundTrip.detail d))).
Proof.
  intros g d. split.
  - destruct (roundtrip_gallery_run g) as (Hr1 & _ & Hs1 & Hq1).
    destruct (roundtrip_gallery_run (exec RoundTrip.gallery g)) as (Hr2 & _ & Hs2 & _).
    repeat split; [done|done|].
    rewrite Hs2, Hs1. by apply save_load_fixed.
  - destruct (roundtrip_detail_run d) as (Hr1 & _ & Hs1 & Hq1).
    destruct (roundtrip_detail_run (exec RoundTrip.detail d)) as (Hr2 & _ & Hs2 & _).
    repeat split; [done|done|].
    rewrite Hs2, Hs1. by apply save_load_fixed.
Qed.

(** C5, witness: a slot that holds Ember, and a slot that holds no JSON. *)
Lemma save_load_idempotent_witness :
  let g := Gallery.mkState (Example.browser_with_ember None) [] None [] in
  let d := Detail.mkState (with_localStorage (Some "{not json") Example.browser0)
                          None [] None Detail.Blank None false in
  localStorage (browser (exec (RoundTrip.gallery (P := Reference.platform))
                           (exec (RoundTrip.gallery (P := Reference.platform)) g)))
    = localStorage (browser (exec (RoundTrip.gallery (P := Reference.platform)) g))
  /\ localStorage (browser (exec (RoundTrip.detail (P := Reference.platform))
                              (exec (RoundTrip.detail (P := Reference.platform)) d)))
     = localStorage (browser (exec (RoundTrip.detail (P := Reference.platform)) d)).
Proof.
  cbv zeta.
  destruct (save_load_idempotent (L := reference_laws)
              (Gallery.mkState (Example.browser_with_ember None) [] None [])
              (Detail.mkState (with_localStorage (Some "{not json") Example.browser0)
                              None [] None Detail.Blank None false))
    as ((_ & _ & Hg) & (_ & _ & Hd)).
  split; [exact Hg|exact Hd].
Defined.

(** C6.  [loadCharacters] never throws, on either page.  It yields the
    collection the slot's text parses to, leaving the page as it was; it
    yields the empty collection when the slot is absent and when its text
    does not parse, and logs the failed parse of a text it tried. *)
Theorem loadCharacters_yields_collection_or_empty {P : Platform} {L : JSONLaws P} :
  forall (g : Gallery.State) (d : Detail.State),
    (returns Gallery.loadCharacters g = true
     /\ (forall text cs,
           localStorage (browser g) = Some text -> JSON_parse text = Some cs ->
           Gallery.loadCharacters g = (Normal cs, g))
     /\ (localStorage (browser g) = None ->
         Gallery.loadCharacters g = (Normal [], g))
     /\ (forall text,
           localStorage (browser g) = Some text -> JSON_parse text = None ->
           fst (Gallery.loadCharacters g) = Normal []
           /\ snd (Gallery.loadCharacters g) =
                if truthy text
                then with_browser (logged "Error loading characters:" (browser g)) g
                else g))
    /\ (returns Detail.loadCharacters d = true
        /\ (forall text cs,
              localStorage (browser d) = Some text -> JSON_parse text = Some cs ->
              Detail.loadCharacters d = (Normal tt, Detail.with_characters cs d))
        /\ (localStorage (browser d) = None ->
            Detail.loadCharacters d = (Normal tt, Detail.with_characters [] d))
        /\ (forall text,
              localStorage (browser d) = Some text -> JSON_parse text = None ->
              Detail.loadCharacters d =
                (Normal tt,
                 Detail.with_characters []
                   (if truthy text
                    then with_browser (logged "Error loading characters:" (browser d)) d
                    else d)))).
Proof.
  intros g d.
  assert (Hparsed : forall text cs, JSON_parse text = Some cs -> truthy text = true).
  { intros text cs Hp. destruct (truthy text) eqn:Ht; [done|].
    apply truthy_false in Ht. subst text. rewrite parse_empty in Hp. done. }
  split.
  - unfold returns. rewrite gallery_loadCharacters_run.
    unfold Store.load, Store.corrupt. cbn [fst snd browser Gallery.state_browser].
    split; [done|]. split; [|split].
    + intros text cs -> Hp. by rewrite (Hparsed _ _ Hp), Hp.
    + by intros ->.
    + intros text -> Hp. rewrite Hp. by destruct (truthy text).
  - unfold returns. rewrite detail_loadCharacters_run.
    unfold Store.load, Store.corrupt. cbn [fst snd browser Detail.state_browser].
    split; [done|]. split; [|split].
    + intros text cs -> Hp. by rewrite (Hparsed _ _ Hp), Hp.
    + by intros ->.
    + intros text -> Hp. rewrite Hp. by destruct (truthy text).
Qed.

(** C6, witness: a slot that holds Ember parses to Ember alone, and the
    text '{not json' is taken for the empty collection. *)
Lemma loadCharacters_yields_collection_or_empty_witness :
  fst (Gallery.loadCharacters (P := Reference.platform)
         (Gallery.mkState (Example.browser_with_ember None) [] None []))
    = Normal [Example.ember]
  /\ fst (Gallery.loadCharacters (P := Reference.platform)
            (Gallery.mkState (with_localStorage (Some "{not json") Example.browser0)
                             [] None []))
     = Normal [].
Proof.
  split.
  - destruct (loadCharacters_yields_collection_or_empty (L := reference_laws)
                (Gallery.mkState (Example.browser_with_ember None) [] None [])
                (Detail.mkState Example.browser0 None [] None Detail.Blank None false))
      as ((_ & Hparsed & _) & _).
    rewrite (Hparsed (@JSON_stringify Reference.platform [Example.ember]) [Example.ember]);
      [reflexivity|reflexivity|vm_compute; reflexivity].
  - destruct (loadCharacters_yields_collection_or_empty (L := reference_laws)
                (Gallery.mkState (with_localStorage (Some "{not json") Example.browser0)
                                 [] None [])
                (Detail.mkState Example.browser0 None [] None Detail.Blank None false))
      as ((_ & _ & _ & Hcorrupt) & _).
    destruct (Hcorrupt "{not json") as [Hempty _]; [reflexivity|reflexivity|].
    exact Hempty.
Defined.

Section DetailBag.
Context {P : Platform}.

(** [this.character] is the element of the array at the parsed position. *)
Lemma character_Some (s : Detail.State) (c : Character.t) :
  Detail.character s = Some c <->
  exists z, Detail.position s = Int z /\ 0 <= z
            /\ Detail.characters s !! Z.to_nat z = Some c.
Proof.
  unfold Detail.character, array_get. split.
  - destruct (Detail.position s) as [|z|]; [done| |done].
    destruct (Z.leb_spec 0 z); [|done]. intros Hc. by exists z.
  - intros (z & -> & Hz & Hc). by destruct (Z.leb_spec 0 z); [|lia].
Qed.

(** Replacing the bag replaces it in the character, in place. *)
Lemma with_bag_character (b : list Item.t) (s : Detail.State) (c : Character.t) :
  Detail.character s = Some c ->
  Detail.character (Detail.with_bag b s) = Some (Character.with_bag b c).
Proof.
  intros Hc. pose proof Hc as (z & Hpos & Hz & Hlook)%character_Some.
  apply character_Some. exists z.
  unfold Detail.with_bag. rewrite Hpos.
  destruct (Z.leb_spec 0 z); [|lia].
  unfold Detail.position in *. cbn. split; [done|]. split; [done|].
  by rewrite list_lookup_alter_eq, Hlook.
Qed.

Lemma with_bag_characters (b : list Item.t) (s : Detail.State) (c : Character.t) (z : Z) :
  Detail.position s = Int z -> 0 <= z ->
  Detail.characters (Detail.with_bag b s)
    = alter (Character.with_bag b) (Z.to_nat z) (Detail.characters s).
Proof.
  intros Hpos Hz. unfold Detail.with_bag. rewrite Hpos.
  by destruct (Z.leb_spec 0 z); [|lia].
Qed.

Lemma with_bag_browser (b : list Item.t) (s : Detail.State) :
  Detail.page_browser (Detail.with_bag b s) = Detail.page_browser s.
Proof.
  unfold Detail.with_bag. destruct (Detail.position s) as [|z|]; [done| |done].
  by destruct (0 <=? z).
Qed.

(** Saving touches the browser and the message, nothing of the collection. *)
Lemma detail_saveCharacters_character (s : Detail.State) :
  Detail.character (exec Detail.saveCharacters s) = Detail.character s
  /\ Detail.characters (exec Detail.saveCharacters s) = Detail.characters s
  /\ Detail.characterInfo (exec Detail.saveCharacters s) = Detail.characterInfo s.
Proof.
  unfold exec. rewrite detail_saveCharacters_run. cbn zeta.
  by destruct (accepts _ _).
Qed.

Lemma validateItemData_run (data : Item.t) (s : Detail.State) (c : Character.t) :
  Detail.character s = Some c ->
  Detail.validateItemData data s =
    if Policy.valid_item (Character.bagOrEmpty c) data
    then (Normal true, s)
    else (Normal false,
          Detail.with_message
            (if String.eqb (Item.type data) "" then SelectItemType
             else if (String.length (Item.name data) <? 2)%nat then ItemNameTooShort
             else ItemNameExists) error s).
Proof.
  intros Hc. unfold Detail.validateItemData, Policy.valid_item.
  rewrite truthy_eqb. destruct (String.eqb (Item.type data) ""); [done|].
  rewrite falsy_or_short by lia.
  destruct (String.length (Item.name data) <? 2)%nat; [done|].
  js_step. rewrite Hc. unfold Character.bagOrEmpty.
  destruct (Character.bag c) as [b|]; [|done].
  change (default [] (Some b)) with b. by destruct (Detail.nameTaken b data).
Qed.

Lemma bind_normal {S A B} (m : JS S A) (k : A -> JS S B) (s s' : S) (a : A) :
  m s = (Normal a, s') -> bind m k s = k a s'.
Proof. intros Hm. unfold bind. by rewrite Hm. Qed.

Lemma bind_throw {S A B} (m : JS S A) (k : A -> JS S B) (s s' : S) (e : Exn) :
  m s = (Throw e, s') -> bind m k s = (Throw e, s').
Proof. intros Hm. unfold bind. by rewrite Hm. Qed.

Lemma this_character_run (s : Detail.State) (c : Character.t) :
  Detail.character s = Some c -> Detail.this_character s = (Normal c, s).
Proof. intros Hc. unfold Detail.this_character. by rewrite Hc. Qed.

Lemma detail_saveCharacters_returns (s : Detail.State) :
  Detail.saveCharacters s = (Normal tt, exec Detail.saveCharacters s).
Proof. unfold exec. by rewrite detail_saveCharacters_run. Qed.

Lemma renderBag_run (s : Detail.State) (c : Character.t) :
  Detail.character s = Some c ->
  Detail.renderBag s = (Normal tt, Detail.with_bagItems (Character.bagOrEmpty c) s).
Proof.
  intros Hc. unfold Detail.renderBag.
  by rewrite (bind_normal _ _ _ _ _ (this_character_run s c Hc)).
Qed.

Lemma renderCharacterInfo_run (s : Detail.State) (c : Character.t) :
  Detail.character s = Some c ->
  Detail.renderCharacterInfo s = (Normal tt, Detail.with_characterInfo (Detail.Info c) s).
Proof.
  intros Hc. unfold Detail.renderCharacterInfo.
  by rewrite (bind_normal _ _ _ _ _ (this_character_run s c Hc)).
Qed.

(** The state after the bag was replaced and the collection saved. *)
Lemma saved_with_bag_character (b : list Item.t) (s : Detail.State) (c : Character.t) :
  Detail.character s = Some c ->
  Detail.character (exec Detail.saveCharacters (Detail.with_bag b s))
    = Some (Character.with_bag b c).
Proof.
  intros Hc. destruct (detail_saveCharacters_character (Detail.with_bag b s)) as [-> _].
  by apply with_bag_character.
Qed.

Lemma addItemToBag_run (item : Item.t) (s : Detail.State) (c : Character.t) :
  Detail.character s = Some c ->
  Detail.addItemToBag item s =
    (Normal tt,
     Detail.with_message (ItemAdded (Item.name item) (Character.name c)) success
       (Detail.with_bagItems (Character.bagOrEmpty c ++ [item])
          (exec Detail.saveCharacters
             (Detail.with_bag (Character.bagOrEmpty c ++ [item]) s)))).
Proof.
  intros Hc. unfold Detail.addItemToBag, try_catch.
  rewrite (bind_normal _ _ _ _ _ (this_character_run s c Hc)).
  unfold bind at 1, modify.
  rewrite (bind_normal _ _ _ _ _ (detail_saveCharacters_returns _)).
  rewrite (bind_normal _ _ _ _ _
             (renderBag_run _ _ (saved_with_bag_character _ s c Hc))).
  done.
Qed.

(** Removing the item at a position within the bag, once confirmed. *)
Lemma removeItem_run (i : nat) (s : Detail.State) (c : Character.t)
    (b : list Item.t) (item : Item.t) :
  Detail.character s = Some c ->
  Character.bag c = Some b ->
  b !! i = Some item ->
  Detail.removeItem true (Z.of_nat i) s =
    (Normal tt,
     Detail.with_message (ItemRemoved (Item.name item)) success
       (Detail.with_characterInfo (Detail.Info (Character.with_bag (delete i b) c))
          (Detail.with_bagItems (delete i b)
             (exec Detail.saveCharacters (Detail.with_bag (delete i b) s))))).
Proof.
  intros Hc Hb Hi. unfold Detail.removeItem, try_catch.
  rewrite (bind_normal _ _ _ _ _ (this_character_run s c Hc)).
  rewrite Hb. unfold bind at 1, ret.
  unfold array_get. destruct (Z.leb_spec 0 (Z.of_nat i)); [|lia].
  rewrite Nat2Z.id, Hi. unfold bind at 1.
  unfold bind at 1, modify.
  rewrite (bind_normal _ _ _ _ _ (detail_saveCharacters_returns _)).
  pose proof (saved_with_bag_character (delete i b) s c Hc) as Hc'.
  rewrite (bind_normal _ _ _ _ _ (renderBag_run _ _ Hc')).
  assert (Hc'' : Detail.character
            (Detail.with_bagItems (Character.bagOrEmpty (Character.with_bag (delete i b) c))
               (exec Detail.saveCharacters (Detail.with_bag (delete i b) s)))
          = Some (Character.with_bag (delete i b) c)) by exact Hc'.
  rewrite (bind_normal _ _ _ _ _ (renderCharacterInfo_run _ _ Hc'')).
  done.
Qed.

(** Whatever makes [bag[index]] undefined makes [removeItem] report the
    error and leave everything else as it was. *)
Lemma removeItem_missing (answer : bool) (index : Z) (s : Detail.State) :
  match Detail.character s with
  | Some c =>
      match Character.bag c with
      | Some b => array_get b (Int index) = None
      | None => True
      end
  | None => True
  end ->
  Detail.removeItem answer index s =
    (Normal tt,
     Detail.with_message ErrorRemovingItem error
       (with_browser (logged "Error removing item:" (browser s)) s)).
Proof.
  intros Hmiss. unfold Detail.removeItem, try_catch.
  destruct (Detail.character s) as [c|] eqn:Hc.
  - rewrite (bind_normal _ _ _ _ _ (this_character_run s c Hc)).
    destruct (Character.bag c) as [b|]; [|done].
    unfold bind at 1, ret. by rewrite Hmiss.
  - unfold bind, Detail.this_character. by rewrite Hc.
Qed.

End DetailBag.

Section DetailHandlers.
Context {P : Platform}.

Lemma handleAddItem_run (env : Env) (form : Detail.Form.t) (s : Detail.State)
    (c : Character.t) :
  Detail.character s = Some c ->
  let data := Detail.itemData env form in
  Detail.handleAddItem env form s =
    if Policy.valid_item (Character.bagOrEmpty c) data
    then Detail.addItemToBag data s
    else (Normal tt,
          Detail.with_message
            (if String.eqb (Item.type data) "" then SelectItemType
             else if (String.length (Item.name data) <? 2)%nat then ItemNameTooShort
             else ItemNameExists) error s).
Proof.
  intros Hc data. unfold Detail.handleAddItem, bind. fold data.
  rewrite (validateItemData_run data s c Hc).
  by destruct (Policy.valid_item _ _).
Qed.

(** The collection after the bag of the current character was replaced
    and the collection saved. *)
Lemma saved_with_bag_characters (b : list Item.t) (s : Detail.State) (z : Z) :
  Detail.position s = Int z -> 0 <= z ->
  Detail.characters (exec Detail.saveCharacters (Detail.with_bag b s))
    = alter (Character.with_bag b) (Z.to_nat z) (Detail.characters s).
Proof.
  intros Hpos Hz.
  destruct (detail_saveCharacters_character (Detail.with_bag b s)) as (_ & -> & _).
  unfold Detail.with_bag. rewrite Hpos. by destruct (Z.leb_spec 0 z); [|lia].
Qed.

Lemma saved_with_bag_position (b : list Item.t) (s : Detail.State) :
  Detail.position (exec Detail.saveCharacters (Detail.with_bag b s)) = Detail.position s.
Proof.
  assert (Hidx : Detail.characterIndex (Detail.with_bag b s) = Detail.characterIndex s).
  { unfold Detail.with_bag.
    destruct (Detail.position s) as [|z|]; [done| |done]. by destruct (0 <=? z). }
  unfold exec. rewrite detail_saveCharacters_run. cbn zeta.
  unfold Detail.position at 1.
  destruct (accepts _ _); cbn; by rewrite Hidx.
Qed.

End DetailHandlers.

(** C9.  With an index outside the bag of the current character,
    [removeItem] returns, whatever the reply to the confirmation would
    be: the error message is shown and the failure logged, and the
    collection, the character and the store are as before. *)
Theorem removeItem_out_of_bounds {P : Platform} :
  forall (s : Detail.State) (c : Character.t) (answer : bool) (index : Z),
    Detail.character s = Some c ->
    index < 0 \/ Z.of_nat (length (Character.bagOrEmpty c)) <= index ->
    let s' := exec (Detail.removeItem answer index) s in
    returns (Detail.removeItem answer index) s = true
    /\ Detail.characters s' = Detail.characters s
    /\ Detail.character s' = Some c
    /\ localStorage (browser s') = localStorage (browser s)
    /\ Detail.message s' = Some (ErrorRemovingItem, error)
    /\ console (browser s') = "Error removing item:" :: console (browser s).
Proof.
  intros s c answer index Hc Hout s'.
  assert (Hrun : Detail.removeItem answer index s =
    (Normal tt, Detail.with_message ErrorRemovingItem error
                  (with_browser (logged "Error removing item:" (browser s)) s))).
  { apply removeItem_missing. rewrite Hc.
    unfold Character.bagOrEmpty in Hout.
    destruct (Character.bag c) as [b|]; [|done].
    by apply array_get_out_of_bounds. }
  unfold s', returns, exec. rewrite Hrun. cbn. repeat split; try done.
Qed.

(** C9, witness: the page on Ember, whose bag is empty, asked to remove
    the item at index 3. *)
Lemma removeItem_out_of_bounds_witness :
  Detail.character Example.detail_on_ember = Some Example.ember
  /\ Detail.characters (exec (Detail.removeItem (P := Reference.platform) true 3)
                             Example.detail_on_ember)
     = Detail.characters Example.detail_on_ember
  /\ Detail.message (exec (Detail.removeItem (P := Reference.platform) true 3)
                          Example.detail_on_ember)
     = Some (ErrorRemovingItem, error).
Proof.
  split; [vm_compute; reflexivity|].
  destruct (removeItem_out_of_bounds (P := Reference.platform)
              Example.detail_on_ember Example.ember true 3)
    as (_ & Hcs & _ & _ & Hmsg & _); [vm_compute; reflexivity|right; cbn; lia|].
  split; [exact Hcs|exact Hmsg].
Defined.

Section AddThenRemove.
Context {P : Platform}.


Lemma with_bag_same (b : list Item.t) (c : Character.t) :
  Character.bag c = Some b -> Character.with_bag b c = c.
Proof. destruct c as [? ? ? ? ? bag ?]. cbn. by intros ->. Qed.

Lemma bagOrEmpty_with_bag (b : list Item.t) (c : Character.t) :
  Character.bagOrEmpty (Character.with_bag b c) = b.
Proof. done. Qed.

(** What a valid add leaves: the item is the last of the bag. *)
Lemma handleAddItem_valid (env : Env) (form : Detail.Form.t) (s : Detail.State)
    (c : Character.t) (z : Z) :
  Detail.character s = Some c ->
  Detail.position s = Int z -> 0 <= z ->
  Policy.valid_item (Character.bagOrEmpty c) (Detail.itemData env form) = true ->
  let b1 := (Character.bagOrEmpty c ++ [Detail.itemData env form])%list in
  let s1 := exec (Detail.handleAddItem env form) s in
  returns (Detail.handleAddItem env form) s = true
  /\ Detail.character s1 = Some (Character.with_bag b1 c)
  /\ Detail.position s1 = Int z
  /\ Detail.characters s1 = alter (Character.with_bag b1) (Z.to_nat z) (Detail.characters s)
  /\ Detail.bagItems s1 = Some b1.
Proof.
  intros Hc Hpos Hz Hvalid b1 s1.
  assert (Hrun : Detail.handleAddItem env form s = Detail.addItemToBag (Detail.itemData env form) s).
  { rewrite (handleAddItem_run env form s c Hc). cbn zeta. by rewrite Hvalid. }
  unfold s1, returns, exec. rewrite Hrun, (addItemToBag_run _ s c Hc). fold b1.
  split; [done|]. split; [|split; [|split]].
  - exact (saved_with_bag_character b1 s c Hc).
  - rewrite <- Hpos. exact (saved_with_bag_position b1 s).
  - exact (saved_with_bag_characters b1 s z Hpos Hz).
  - done.
Qed.

End AddThenRemove.

(** C7.  On a page that shows a character, adding a valid item puts it at
    the end of the bag, at the index that was the bag's length; removing
    the item at that index, once confirmed, gives the bag its prior
    content and length.  The other characters are untouched throughout,
    and a character that had a bag is as it was. *)
Theorem add_then_remove_restores_bag {P : Platform} :
  forall (env : Env) (form : Detail.Form.t) (s : Detail.State) (c : Character.t),
    Detail.character s = Some c ->
    Policy.valid_item (Character.bagOrEmpty c) (Detail.itemData env form) = true ->
    let item := Detail.itemData env form in
    let i := length (Character.bagOrEmpty c) in
    let s1 := exec (Detail.handleAddItem env form) s in
    let s2 := exec (Detail.removeItem true (Z.of_nat i)) s1 in
    (exists c1, Detail.character s1 = Some c1
                /\ Character.bagOrEmpty c1 = (Character.bagOrEmpty c ++ [item])%list
                /\ Character.bagOrEmpty c1 !! i = Some item)
    /\ (exists c2, Detail.character s2 = Some c2
                   /\ Character.bagOrEmpty c2 = Character.bagOrEmpty c
                   /\ length (Character.bagOrEmpty c2) = length (Character.bagOrEmpty c)
                   /\ c2 = Character.with_bag (Character.bagOrEmpty c) c)
    /\ Detail.bagItems s2 = Some (Character.bagOrEmpty c)
    /\ length (Detail.characters s2) = length (Detail.characters s)
    /\ (is_Some (Character.bag c) -> Detail.characters s2 = Detail.characters s).
Proof.
  intros env form s c Hc Hvalid item i s1 s2.
  pose proof Hc as (z & Hpos & Hz & Hlook)%character_Some.
  destruct (handleAddItem_valid env form s c z Hc Hpos Hz Hvalid)
    as (_ & Hc1 & Hpos1 & Hcs1 & _).
  fold item s1 in Hc1, Hpos1, Hcs1.
  set (b1 := (Character.bagOrEmpty c ++ [item])%list) in *.
  assert (Hi : b1 !! i = Some item) by apply list_lookup_middle, eq_refl.
  assert (Hdel : delete i b1 = Character.bagOrEmpty c).
  { unfold b1, i. by rewrite delete_middle, app_nil_r. }
  assert (Hrun : Detail.removeItem true (Z.of_nat i) s1 = _) by
    exact (removeItem_run i s1 (Character.with_bag b1 c) b1 item Hc1 eq_refl Hi).
  rewrite Hdel in Hrun.
  assert (Hcs2 : Detail.characters s2 =
            alter (Character.with_bag (Character.bagOrEmpty c)) (Z.to_nat z)
                  (Detail.characters s)).
  { unfold s2, exec at 1. rewrite Hrun.
    cbn [snd Detail.characters Detail.with_message Detail.with_characterInfo
         Detail.with_bagItems].
    rewrite (saved_with_bag_characters _ s1 z Hpos1 Hz), Hcs1.
    by rewrite list_alter_alter_eq. }
  split; [|split; [|split; [|split]]].
  - exists (Character.with_bag b1 c). by split.
  - exists (Character.with_bag (Character.bagOrEmpty c) c).
    split; [|by split].
    unfold s2, exec. rewrite Hrun. cbn [snd].
    exact (saved_with_bag_character (Character.bagOrEmpty c) s1 _ Hc1).
  - unfold s2, exec. by rewrite Hrun.
  - by rewrite Hcs2, length_alter.
  - intros [b Hb]. rewrite Hcs2.
    transitivity (alter id (Z.to_nat z) (Detail.characters s));
      [|by apply list_alter_id].
    apply list_alter_ext; [|done].
    intros x Hx. rewrite Hlook in Hx. injection Hx as <-.
    unfold Character.bagOrEmpty. rewrite Hb. by apply with_bag_same.
Qed.

(** C7, witness: the scenario.  The Rune of Power is added to Ember's
    empty bag and removed at index 0: the bag is empty again. *)
Lemma add_then_remove_restores_bag_witness :
  let s1 := exec (Detail.handleAddItem (P := Reference.platform) Example.env0 Example.rune_form)
                 Example.detail_on_ember in
  let s2 := exec (Detail.removeItem (P := Reference.platform) true 0) s1 in
  Detail.bagItems s2 = Some []
  /\ Detail.characters s2 = Detail.characters Example.detail_on_ember.
Proof.
  cbv zeta.
  destruct (add_then_remove_restores_bag (P := Reference.platform)
              Example.env0 Example.rune_form Example.detail_on_ember Example.ember)
    as (_ & _ & Hbag & _ & Hsame); [vm_compute; reflexivity|reflexivity|].
  split; [exact Hbag|]. apply Hsame. by eexists.
Defined.

Section BagNames.
Context {P : Platform}.

Lemma nameTaken_elem_of (b : list Item.t) (data : Item.t) :
  Detail.nameTaken b data = true <->
  toLowerCase (Item.name data) ∈ (fun item => toLowerCase (Item.name item)) <$> b.
Proof.
  unfold Detail.nameTaken. rewrite existsb_exists, list_elem_of_fmap. split.
  - intros (item & Hin & Heq). exists item. split.
    + symmetry. by apply String.eqb_eq.
    + by apply list_elem_of_In.
  - intros (item & Heq & Hin). exists item. split.
    + by apply list_elem_of_In.
    + apply String.eqb_eq. by symmetry.
Qed.

(** A bag with unique names, extended by an item whose name is not taken. *)
Lemma bag_names_unique_add (c : Character.t) (data : Item.t) :
  Policy.bag_names_unique c ->
  Detail.nameTaken (Character.bagOrEmpty c) data = false ->
  Policy.bag_names_unique (Character.with_bag (Character.bagOrEmpty c ++ [data]) c).
Proof.
  unfold Policy.bag_names_unique, Policy.bag_names. intros Hc Hfree.
  rewrite bagOrEmpty_with_bag, fmap_app. apply NoDup_app.
  split; [done|]. split; [|apply NoDup_singleton].
  intros x Hx Hx'. apply list_elem_of_singleton in Hx'. subst x.
  apply nameTaken_elem_of in Hx. congruence.
Qed.

Lemma bag_names_unique_delete (c : Character.t) (b : list Item.t) (i : nat) :
  Policy.bag_names_unique c ->
  Character.bag c = Some b ->
  Policy.bag_names_unique (Character.with_bag (delete i b) c).
Proof.
  unfold Policy.bag_names_unique, Policy.bag_names, Character.bagOrEmpty.
  intros Hc Hb. rewrite Hb in Hc. cbn in *.
  rewrite list_fmap_delete.
  eapply sublist_NoDup; [exact Hc|apply sublist_delete].
Qed.

(** [handleAddItem] leaves the collection as it is, or appends an item
    whose name is not taken to the bag of the current character. *)
Lemma handleAddItem_characters (env : Env) (form : Detail.Form.t) (s : Detail.State) :
  Detail.characters (exec (Detail.handleAddItem env form) s) = Detail.characters s
  \/ exists z c,
       Detail.characters s !! Z.to_nat z = Some c
       /\ Detail.nameTaken (Character.bagOrEmpty c) (Detail.itemData env form) = false
       /\ Detail.characters (exec (Detail.handleAddItem env form) s)
          = alter (Character.with_bag (Character.bagOrEmpty c ++ [Detail.itemData env form]))
                  (Z.to_nat z) (Detail.characters s).
Proof.
  destruct (Detail.character s) as [c|] eqn:Hc.
  - pose proof Hc as (z & Hpos & Hz & Hlook)%character_Some.
    destruct (Policy.valid_item (Character.bagOrEmpty c) (Detail.itemData env form))
      eqn:Hvalid.
    + right. exists z, c. split; [done|]. split.
      * unfold Policy.valid_item in Hvalid.
        apply andb_prop in Hvalid as [_ Hfree]. by apply negb_true_iff.
      * by destruct (handleAddItem_valid env form s c z Hc Hpos Hz Hvalid)
          as (_ & _ & _ & ? & _).
    + left. unfold exec. rewrite (handleAddItem_run env form s c Hc). cbn zeta.
      by rewrite Hvalid.
  - left. unfold exec, Detail.handleAddItem, Detail.validateItemData.
    destruct (negb (truthy _)); [done|]. destruct (negb (truthy _) || _); [done|].
    unfold bind, Detail.this_character. by rewrite Hc.
Qed.

(** [removeItem] leaves the collection as it is, or deletes one item of
    the bag of the current character. *)
Lemma removeItem_characters (answer : bool) (index : Z) (s : Detail.State) :
  Detail.characters (exec (Detail.removeItem answer index) s) = Detail.characters s
  \/ exists z c b i,
       Detail.characters s !! Z.to_nat z = Some c
       /\ Character.bag c = Some b
       /\ Detail.characters (exec (Detail.removeItem answer index) s)
          = alter (Character.with_bag (delete i b)) (Z.to_nat z) (Detail.characters s).
Proof.
  destruct (Detail.character s) as [c|] eqn:Hc;
    [destruct (Character.bag c) as [b|] eqn:Hb;
       [destruct (array_get b (Int index)) as [item|] eqn:Hitem|]|].
  2-4: left; unfold exec; rewrite removeItem_missing; [done|];
       rewrite Hc; try rewrite Hb; done.
  pose proof Hc as (z & Hpos & Hz & Hlook)%character_Some.
  cbn in Hitem. destruct (Z.leb_spec 0 index) as [Hindex|]; [|done].
  destruct answer.
  - right. exists z, c, b, (Z.to_nat index). split; [done|]. split; [done|].
    rewrite <- (Z2Nat.id index Hindex) at 1.
    unfold exec. rewrite (removeItem_run _ s c b item Hc Hb Hitem).
    exact (saved_with_bag_characters _ s z Hpos Hz).
  - left. unfold exec, Detail.removeItem, try_catch.
    rewrite (bind_normal _ _ _ _ _ (this_character_run s c Hc)), Hb.
    unfold bind, ret, array_get. destruct (Z.leb_spec 0 index); [|lia].
    by rewrite Hitem.
Qed.

End BagNames.

Section GalleryCollection.
Context {P : Platform}.

(** [handleFormSubmit] leaves the collection as it is or appends the candidate. *)
Lemma handleFormSubmit_characters v env form (s : Gallery.State) :
  Gallery.characters (exec (Gallery.handleFormSubmit v env form) s) = Gallery.characters s
  \/ exists data,
       Gallery.characterData v env form = Normal data
       /\ Policy.first_failure Policy.source_order v (Gallery.characters s) data = None
       /\ Gallery.characters (exec (Gallery.handleFormSubmit v env form) s)
          = (Gallery.characters s ++ [data])%list.
Proof.
  unfold exec.
  destruct (handleFormSubmit_cases v env form s) as [(e & _ & ->) | (data & Hdata & ->)];
    [by left|].
  destruct (Policy.first_failure _ _ _ _) eqn:Hfail; [by left|right].
  exists data. split; [done|]. split; [done|].
  cbn [snd Gallery.characters Gallery.with_message Gallery.rendered].
  by rewrite gallery_saveCharacters_characters.
Qed.

Lemma clearAllCharacters_characters answer (s : Gallery.State) :
  Gallery.characters (exec (Gallery.clearAllCharacters answer) s)
    = if answer then [] else Gallery.characters s.
Proof.
  destruct answer; [|done].
  unfold exec, Gallery.clearAllCharacters, try_catch, bind at 1, modify.
  rewrite (bind_normal _ _ _ _ _ (gallery_saveCharacters_run _)).
  js_step. by destruct (accepts _ _).
Qed.

Lemma deleteCharacter_characters answer index (s : Gallery.State) :
  Gallery.characters (exec (Gallery.deleteCharacter answer index) s)
    = if answer then delete index (Gallery.characters s) else Gallery.characters s.
Proof.
  destruct answer; [|done].
  unfold exec, Gallery.deleteCharacter, bind at 1, modify.
  rewrite (bind_normal _ _ _ _ _ (gallery_saveCharacters_run _)).
  js_step.
  destruct (accepts _ _); cbn;
    destruct (sessionStorage (Gallery.page_browser s)); cbn; try done;
    by destruct (negb _ || _).
Qed.

End GalleryCollection.

(** C8.  When no bag of the collection holds two items with the same
    name, case apart, this is still so after [handleAddItem] and after
    [removeItem] on the detail page, and after a submission, a delete and
    a delete-all on the gallery page.  An add whose item name is taken in
    the bag of the current character is rejected with an error message:
    the collection, and with it the bag and its length, and the browser
    stay as they are. *)
Theorem bag_names_unique_preserved {P : Platform} :
  forall (d : Detail.State) (g : Gallery.State),
    Forall Policy.bag_names_unique (Detail.characters d) ->
    Forall Policy.bag_names_unique (Gallery.characters g) ->
    (forall env form,
       Forall Policy.bag_names_unique
              (Detail.characters (exec (Detail.handleAddItem env form) d)))
    /\ (forall answer index,
          Forall Policy.bag_names_unique
                 (Detail.characters (exec (Detail.removeItem answer index) d)))
    /\ (forall env form c,
          Detail.character d = Some c ->
          Detail.nameTaken (Character.bagOrEmpty c) (Detail.itemData env form) = true ->
          let d' := exec (Detail.handleAddItem env form) d in
          returns (Detail.handleAddItem env form) d = true
          /\ Detail.characters d' = Detail.characters d
          /\ Detail.character d' = Some c
          /\ browser d' = browser d
          /\ exists text, Detail.message d' = Some (text, error))
    /\ (forall v env form,
          Forall Policy.bag_names_unique
                 (Gallery.characters (exec (Gallery.handleFormSubmit v env form) g)))
    /\ (forall answer index,
          Forall Policy.bag_names_unique
                 (Gallery.characters (exec (Gallery.deleteCharacter answer index) g)))
    /\ (forall answer,
          Forall Policy.bag_names_unique
                 (Gallery.characters (exec (Gallery.clearAllCharacters answer) g))).
Proof.
  intros d g Hd Hg. split; [|split; [|split; [|split; [|split]]]].
  - intros env form.
    destruct (handleAddItem_characters env form d) as [-> | (z & c & Hc & Hfree & ->)];
      [done|].
    apply Forall_alter; [done|]. intros x Hx Hux.
    rewrite Hc in Hx. injection Hx as <-. by apply bag_names_unique_add.
  - intros answer index.
    destruct (removeItem_characters answer index d)
      as [-> | (z & c & b & i & Hc & Hb & ->)]; [done|].
    apply Forall_alter; [done|]. intros x Hx Hux.
    rewrite Hc in Hx. injection Hx as <-. by apply bag_names_unique_delete.
  - intros env form c Hc Htaken d'.
    assert (Hrun : Detail.handleAddItem env form d =
      (Normal tt,
       Detail.with_message
         (if String.eqb (Item.type (Detail.itemData env form)) "" then SelectItemType
          else if (String.length (Item.name (Detail.itemData env form)) <? 2)%nat
               then ItemNameTooShort else ItemNameExists) error d)).
    { rewrite (handleAddItem_run env form d c Hc). cbn zeta.
      unfold Policy.valid_item. rewrite Htaken. by rewrite andb_false_r. }
    unfold d', returns, exec. rewrite Hrun. cbn. repeat split; try done. eauto.
  - intros v env form.
    destruct (handleFormSubmit_characters v env form g)
      as [-> | (data & Hdata & _ & ->)]; [done|].
    apply Forall_app. split; [done|]. apply Forall_singleton.
    unfold Policy.bag_names_unique, Policy.bag_names, Character.bagOrEmpty.
    rewrite (characterData_bag v env form data Hdata). apply NoDup_nil_2.
  - intros answer index. rewrite deleteCharacter_characters.
    destruct answer; [by apply Forall_delete|done].
  - intros answer. rewrite clearAllCharacters_characters.
    by destruct answer.
Qed.

(** C8, witness: the scenario.  With the Rune of Power in Ember's bag,
    an item named 'rune of power' is rejected and the bag still holds one
    item. *)
Lemma bag_names_unique_preserved_witness :
  let d' := exec (Detail.handleAddItem (P := Reference.platform) Example.env0
                    Example.rune_form_lower) Example.detail_with_rune in
  (length <$> (Character.bagOrEmpty <$> Detail.character Example.detail_with_rune))
    = Some 1%nat
  /\ Detail.characters d' = Detail.characters Example.detail_with_rune
  /\ exists text, Detail.message d' = Some (text, error).
Proof.
  cbv zeta. split; [vm_compute; reflexivity|].
  assert (Hd : Forall Policy.bag_names_unique (Detail.characters Example.detail_with_rune)).
  { vm_compute. repeat constructor; intros H%list_elem_of_In; cbn in H; tauto. }
  assert (Hg : Forall Policy.bag_names_unique
                 (Gallery.characters (Example.gallery_with [Example.ember]))).
  { vm_compute. repeat constructor. }
  destruct (bag_names_unique_preserved (P := Reference.platform)
              Example.detail_with_rune (Example.gallery_with [Example.ember]) Hd Hg)
    as (_ & _ & Hreject & _).
  destruct (Hreject Example.env0 Example.rune_form_lower
              (default Example.ember (Detail.character Example.detail_with_rune)))
    as (_ & Hcs & _ & _ & Hmsg); [vm_compute; reflexivity|vm_compute; reflexivity|].
  split; [exact Hcs|exact Hmsg].
Defined.

(** ** The gallery's handlers, step by step *)

Section GalleryRuns.
Context {P : Platform}.

Lemma viewCharacter_run (g : Gallery.State) (i : nat) :
  Gallery.viewCharacter i g =
    (Normal tt,
     if accepts (sessionQuota (browser g)) (pretty i)
     then with_browser (with_location "detail.html"
                          (with_sessionStorage (Some (pretty i)) (browser g))) g
     else Gallery.with_message ErrorOpeningDetails error
            (with_browser (logged "Error navigating to character detail:" (browser g)) g)).
Proof.
  unfold Gallery.viewCharacter. js_step. by destruct (accepts _ _).
Qed.

Lemma gallery_constructor_run (g : Gallery.State) :
  Gallery.constructor g =
    (Normal tt,
     Gallery.rendered
       (Gallery.with_characters (Store.load (browser g))
          (if Store.corrupt (browser g)
           then with_browser (logged "Error loading characters:" (browser g)) g
           else g))).
Proof.
  unfold Gallery.constructor.
  by rewrite (bind_normal _ _ _ _ _ (gallery_loadCharacters_run g)).
Qed.

Lemma clearAllCharacters_run (g : Gallery.State) :
  Gallery.clearAllCharacters true g =
    (Normal tt,
     Gallery.with_message AllCharactersDeleted success
       (Gallery.rendered (exec Gallery.saveCharacters (Gallery.with_characters [] g)))).
Proof.
  unfold Gallery.clearAllCharacters, try_catch, bind at 1, modify.
  rewrite (bind_normal _ _ _ _ _ (gallery_saveCharacters_run _)).
  unfold exec. by rewrite gallery_saveCharacters_run.
Qed.

Lemma deleteCharacter_run (index : nat) (g : Gallery.State) :
  Gallery.deleteCharacter true index g =
    let g1 := exec Gallery.saveCharacters
                (Gallery.with_characters (delete index (Gallery.characters g)) g) in
    (Normal tt,
     Gallery.with_message CharacterDeleted success
       (Gallery.rendered
          match sessionStorage (Gallery.page_browser g1) with
          | Some text =>
              if negb (isInteger (ToNumber text))
                 || Gallery.atLeast (ToNumber text) (length (Gallery.characters g1))
              then with_browser (with_sessionStorage None (Gallery.page_browser g1)) g1
              else g1
          | None => g1
          end)).
Proof.
  unfold Gallery.deleteCharacter. js_step.
  rewrite gallery_saveCharacters_run. js_step.
  destruct (accepts _ _); cbn;
    destruct (sessionStorage (Gallery.page_browser g)) as [text|]; cbn; try done;
    by destruct (negb _ || _).
Qed.

(** The collection a store holds once it took the text of [cs]. *)
Lemma load_stringify {L : JSONLaws P} (b : Browser) (cs : list Character.t) :
  localStorage b = Some (JSON_stringify cs) -> Store.load b = cs.
Proof.
  intros Hslot. unfold Store.load. by rewrite Hslot, stringify_truthy, parse_stringify.
Qed.

End GalleryRuns.

(** ** Across the two pages *)

(** X1.  Selecting position [i] in the gallery writes the decimal text of
    [i] into the selection slot and sends the browser to the detail page;
    the detail page opened next resolves the character the store holds at
    [i], and is in the not-found state when the store holds none there:
    the signal carries the position, not the character. *)
Theorem viewCharacter_hands_over_position {P : Platform} :
  forall (g : Gallery.State) (i : nat),
    accepts (sessionQuota (browser g)) (pretty i) = true ->
    let b := browser (exec (Gallery.viewCharacter i) g) in
    sessionStorage b = Some (pretty i)
    /\ location b = Some "detail.html"
    /\ localStorage b = localStorage (browser g)
    /\ match Store.load (browser g) !! i with
       | Some c => Phase.Ready c (snd (Detail.constructor b))
       | None => Phase.NotFound (snd (Detail.constructor b))
       end.
Proof.
  intros g i Hfits b.
  assert (Hb : b = with_location "detail.html"
                     (with_sessionStorage (Some (pretty i)) (browser g))).
  { unfold b, exec. rewrite viewCharacter_run. by rewrite Hfits. }
  assert (Hsel : sessionStorage b = Some (pretty i)) by by rewrite Hb.
  split; [done|]. split; [by rewrite Hb|]. split; [by rewrite Hb|].
  assert (Hload : Store.load b = Store.load (browser g)) by by rewrite Hb.
  assert (Hget : array_get (Store.load b) (parseInt (pretty i)) = Store.load (browser g) !! i).
  { rewrite parseInt_pretty_nat, Hload. cbn.
    destruct (Z.leb_spec 0 (Z.of_nat i)); [|lia]. by rewrite Nat2Z.id. }
  destruct (Store.load (browser g) !! i) as [c|].
  - by destruct (constructor_resolves b (pretty i) c Hsel Hget) as (_ & ? & _).
  - by destruct (constructor_not_found b (pretty i) Hsel Hget) as (_ & ? & _).
Qed.

(** X1, witness: with Ember in the store, a click on the card at position 0
    opens the detail page on Ember. *)
Lemma viewCharacter_hands_over_position_witness :
  let g := Gallery.mkState (Example.browser_with_ember None) [Example.ember] None
                           [Example.ember] in
  Phase.Ready Example.ember
    (snd (Detail.constructor (P := Reference.platform)
            (browser (exec (Gallery.viewCharacter 0) g)))).
Proof.
  cbv zeta.
  destruct (viewCharacter_hands_over_position (P := Reference.platform)
              (Gallery.mkState (Example.browser_with_ember None) [Example.ember] None
                               [Example.ember]) 0 eq_refl) as (_ & _ & _ & Hpage).
  exact Hpage.
Defined.

(** X2.  When the selection slot refuses the text of the position,
    [viewCharacter] returns without navigating: the failure is logged, the
    error message is shown, and the slot keeps what it held, so a detail
    page opened by hand would still see the previous selection. *)
Theorem viewCharacter_refused_stays :
  forall (g : Gallery.State) (i : nat),
    accepts (sessionQuota (browser g)) (pretty i) = false ->
    let g' := exec (Gallery.viewCharacter i) g in
    returns (Gallery.viewCharacter i) g = true
    /\ location (browser g') = location (browser g)
    /\ sessionStorage (browser g') = sessionStorage (browser g)
    /\ localStorage (browser g') = localStorage (browser g)
    /\ Gallery.message g' = Some (ErrorOpeningDetails, error)
    /\ console (browser g') = "Error navigating to character detail:" :: console (browser g)
    /\ Gallery.characters g' = Gallery.characters g.
Proof.
  intros g i Hfull g'. unfold g', returns, exec.
  rewrite viewCharacter_run, Hfull. cbn. done.
Qed.

(** X2, witness: a browser whose session storage takes nothing. *)
Lemma viewCharacter_refused_stays_witness :
  let g := Gallery.mkState Scenario.full_browser [Example.ember] None [Example.ember] in
  location (browser (exec (Gallery.viewCharacter 0) g)) = None
  /\ Gallery.message (exec (Gallery.viewCharacter 0) g)
     = Some (ErrorOpeningDetails, error).
Proof.
  cbv zeta.
  destruct (viewCharacter_refused_stays
              (Gallery.mkState Scenario.full_browser [Example.ember] None [Example.ember])
              0 eq_refl) as (_ & Hloc & _ & _ & Hmsg & _).
  split; [exact Hloc|exact Hmsg].
Defined.

(** X3.  A confirmed delete-all that the store takes leaves the empty
    collection in memory, on the page and in the store.  It does not
    touch the selection signal, and whatever that signal is, a detail page
    opened afterwards resolves no character.  A declined delete-all
    changes nothing. *)
Theorem clearAllCharacters_empties_store {P : Platform} {L : JSONLaws P} :
  forall (g : Gallery.State),
    accepts (localQuota (browser g)) (JSON_stringify []) = true ->
    let g' := exec (Gallery.clearAllCharacters true) g in
    returns (Gallery.clearAllCharacters true) g = true
    /\ Gallery.characters g' = []
    /\ Gallery.cards g' = []
    /\ Store.load (browser g') = []
    /\ sessionStorage (browser g') = sessionStorage (browser g)
    /\ Phase.NotFound (snd (Detail.constructor (browser g')))
    /\ exec (Gallery.clearAllCharacters false) g = g.
Proof.
  intros g Hfits g'.
  assert (Hg' : g' = Gallery.with_message AllCharactersDeleted success
                       (Gallery.rendered
                          (with_browser (with_localStorage (Some (JSON_stringify []))
                                           (browser g))
                             (Gallery.with_characters [] g)))).
  { unfold g', exec at 1. rewrite clearAllCharacters_run.
    unfold exec. rewrite gallery_saveCharacters_run. cbn in Hfits |- *.
    by rewrite Hfits. }
  assert (Hload : Store.load (browser g') = []).
  { apply load_stringify. by rewrite Hg'. }
  split; [unfold returns; by rewrite clearAllCharacters_run|].
  split; [by rewrite Hg'|]. split; [by rewrite Hg'|]. split; [done|].
  split; [by rewrite Hg'|]. split; [|done].
  destruct (sessionStorage (browser g')) as [text|] eqn:Hsel.
  - destruct (constructor_not_found (browser g') text Hsel) as (_ & ? & _); [|done].
    rewrite Hload. unfold array_get.
    destruct (parseInt text) as [|z|]; [done| |done]. by destruct (0 <=? z).
  - by destruct (constructor_no_selection (browser g') Hsel) as (_ & ? & _).
Qed.

(** X3, witness: the three characters with the signal '1', deleted. *)
Lemma clearAllCharacters_empties_store_witness :
  let cs := [Example.ember; Example.sable; Example.orin] in
  let g := Gallery.mkState (Scenario.browser_with_three (Some "1")) cs None cs in
  let g' := exec (Gallery.clearAllCharacters (P := Reference.platform) true) g in
  Store.load (P := Reference.platform) (browser g') = []
  /\ sessionStorage (browser g') = Some "1"
  /\ Phase.NotFound (snd (Detail.constructor (P := Reference.platform) (browser g'))).
Proof.
  cbv zeta.
  destruct (clearAllCharacters_empties_store (P := Reference.platform) (L := reference_laws)
              (Gallery.mkState (Scenario.browser_with_three (Some "1"))
                 [Example.ember; Example.sable; Example.orin] None
                 [Example.ember; Example.sable; Example.orin]) eq_refl)
    as (_ & _ & _ & Hload & Hsel & Hpage & _).
  split; [exact Hload|]. split; [exact Hsel|exact Hpage].
Defined.

(** X4.  On a slot that is absent, empty, no JSON or the text of a
    collection, [new CharacterManager()] returns: it holds and shows the
    stored collection (none for the first three), leaves both storages as
    they were, and logs the text that is no JSON and nothing else.  A text
    that is JSON but no collection, such as 'null', is none of these
    cases ([JSON_parse] has no outcome for it) and is not covered: the
    script's [loadCharacters] returns what it parses to, and
    [renderGallery] fails on it. *)
Theorem gallery_constructor_loads {P : Platform} :
  forall (g : Gallery.State),
    let g' := exec Gallery.constructor g in
    let started (cs : list Character.t) (logs : bool) :=
      returns Gallery.constructor g = true
      /\ Gallery.characters g' = cs
      /\ Gallery.cards g' = cs
      /\ localStorage (browser g') = localStorage (browser g)
      /\ sessionStorage (browser g') = sessionStorage (browser g)
      /\ console (browser g') =
           if logs then "Error loading characters:" :: console (browser g)
           else console (browser g) in
    match localStorage (browser g) with
    | None => started [] false
    | Some text =>
        if String.eqb text "" then started [] false
        else match JSON_parse text with
             | Some cs => started cs false
             | None => started [] true
             end
    end.
Proof.
  intros g g' started. unfold started, g', exec, returns.
  rewrite gallery_constructor_run. unfold Store.load, Store.corrupt, truthy.
  cbn [fst snd].
  destruct (localStorage (browser g)) as [text|] eqn:Hslot; [|by cbn].
  destruct (String.eqb text ""); [by cbn|]. cbn [negb andb].
  by destruct (JSON_parse text); cbn.
Qed.

(** X5.  The cards follow the collection: when the gallery shows the
    collection the manager holds, it still does after a submission
    (accepted or rejected), a delete, a delete-all and a selection,
    whatever the store does with the writes. *)
Theorem renderGallery_follows_collection {P : Platform} :
  forall (g : Gallery.State),
    Gallery.cards g = Gallery.characters g ->
    (forall v env form,
       let g' := exec (Gallery.handleFormSubmit v env form) g in
       Gallery.cards g' = Gallery.characters g')
    /\ (forall answer index,
          let g' := exec (Gallery.deleteCharacter answer index) g in
          Gallery.cards g' = Gallery.characters g')
    /\ (forall answer,
          let g' := exec (Gallery.clearAllCharacters answer) g in
          Gallery.cards g' = Gallery.characters g')
    /\ (forall i,
          let g' := exec (Gallery.viewCharacter i) g in
          Gallery.cards g' = Gallery.characters g').
Proof.
  intros g Hshown. split; [|split; [|split]].
  - intros v env form g'. unfold g', exec.
    destruct (handleFormSubmit_cases v env form g) as [(e & _ & ->) | (data & _ & ->)];
      [done|].
    by destruct (Policy.first_failure _ _ _ _).
  - intros [|] index g'; [|done]. unfold g', exec. by rewrite deleteCharacter_run.
  - intros [|] g'; [|done]. unfold g', exec. by rewrite clearAllCharacters_run.
  - intros i g'. unfold g', exec. rewrite viewCharacter_run.
    by destruct (accepts _ _).
Qed.

(** X5, witness: the gallery that shows Ember, after Ember is deleted. *)
Lemma renderGallery_follows_collection_witness :
  Gallery.cards (exec (Gallery.deleteCharacter (P := Reference.platform) true 0)
                      (Example.gallery_with [Example.ember])) = [].
Proof.
  destruct (renderGallery_follows_collection (P := Reference.platform)
              (Example.gallery_with [Example.ember]) eq_refl) as (_ & Hdelete & _).
  rewrite (Hdelete true 0%nat). reflexivity.
Defined.

(** X6.  A failed write is masked.  When the store refuses the text of
    the grown collection, a submission whose candidate is built and valid
    still appends the character in memory and on the page, and the
    message left on the page is the success message: [showMessage]
    replaces the error message that [saveCharacters] showed.  The failure
    is in the console only; the store holds what it held, so a reload
    loses the character. *)
Theorem handleFormSubmit_refused_write {P : Platform} :
  forall (v : Gallery.Variant) (env : Env) (form : Gallery.Form.t) (g : Gallery.State)
         (data : Character.t),
    Gallery.characterData v env form = Normal data ->
    Policy.valid v (Gallery.characters g) data = true ->
    accepts (localQuota (browser g))
            (JSON_stringify (Gallery.characters g ++ [data])%list) = false ->
    let g' := exec (Gallery.handleFormSubmit v env form) g in
    returns (Gallery.handleFormSubmit v env form) g = true
    /\ Gallery.characters g' = (Gallery.characters g ++ [data])%list
    /\ Gallery.cards g' = (Gallery.characters g ++ [data])%list
    /\ Gallery.message g' = Some (CharacterCreated (Character.name data), success)
    /\ console (browser g') = "Error saving characters:" :: console (browser g)
    /\ localStorage (browser g') = localStorage (browser g)
    /\ Gallery.characters (exec Gallery.constructor g') = Store.load (browser g).
Proof.
  intros v env form g data Hdata Hvalid Hfull g'.
  apply valid_no_failure in Hvalid.
  pose proof (handleFormSubmit_run v env form data g Hdata) as Hrun.
  rewrite Hvalid in Hrun.
  assert (Hg' : g' = Gallery.with_message (CharacterCreated (Character.name data)) success
                       (Gallery.rendered
                          (Gallery.with_message ErrorSavingCharacters error
                             (with_browser (logged "Error saving characters:" (browser g))
                                (Gallery.with_characters (Gallery.characters g ++ [data]) g))))).
  { unfold g', exec at 1. rewrite Hrun.
    unfold exec. rewrite gallery_saveCharacters_run.
    cbn in Hfull |- *. by rewrite Hfull. }
  split; [unfold returns; by rewrite Hrun|].
  rewrite Hg'. do 5 (split; [done|]).
  unfold exec. by rewrite gallery_constructor_run.
Qed.

(** X6, witness: Ember submitted on a browser whose storage is full. *)
Lemma handleFormSubmit_refused_write_witness :
  let g := Gallery.mkState Scenario.full_browser [] None [] in
  let g' := exec (Gallery.handleFormSubmit (P := Reference.platform) Gallery.LocalImages
                    Example.env0 Example.ember_form) g in
  (Character.name <$> Gallery.cards g') = ["Ember"]
  /\ Gallery.message g' = Some (CharacterCreated "Ember", success)
  /\ Gallery.characters (exec (Gallery.constructor (P := Reference.platform)) g') = [].
Proof.
  cbv zeta.
  destruct (handleFormSubmit_refused_write (P := Reference.platform) Gallery.LocalImages
              Example.env0 Example.ember_form
              (Gallery.mkState Scenario.full_browser [] None []) _ eq_refl)
    as (_ & _ & Hcards & Hmsg & _ & _ & Hreload); [reflexivity|reflexivity|].
  split; [by rewrite Hcards|]. split; [exact Hmsg|exact Hreload].
Defined.

(** ** The detail page between its handlers *)

Section DetailRuns.
Context {P : Platform}.

(** Replacing the bag and saving leaves what the page shows and listens
    to as it was. *)
Lemma saved_with_bag_page (b : list Item.t) (s : Detail.State) :
  let s' := exec Detail.saveCharacters (Detail.with_bag b s) in
  Detail.characterInfo s' = Detail.characterInfo s
  /\ Detail.listening s' = Detail.listening s
  /\ Detail.bagItems s' = Detail.bagItems s
  /\ Detail.characterIndex s' = Detail.characterIndex s
  /\ sessionStorage (browser s') = sessionStorage (browser s).
Proof.
  assert (Hbag : Detail.characterInfo (Detail.with_bag b s) = Detail.characterInfo s
                 /\ Detail.listening (Detail.with_bag b s) = Detail.listening s
                 /\ Detail.bagItems (Detail.with_bag b s) = Detail.bagItems s
                 /\ Detail.characterIndex (Detail.with_bag b s) = Detail.characterIndex s
                 /\ Detail.page_browser (Detail.with_bag b s) = Detail.page_browser s).
  { unfold Detail.with_bag.
    destruct (Detail.position s) as [|z|]; [done| |done]. by destruct (0 <=? z). }
  destruct Hbag as (Hinfo & Hlisten & Hitems & Hidx & Hbrowser).
  cbv zeta. unfold exec. rewrite detail_saveCharacters_run. cbn zeta.
  destruct (accepts _ _); cbn; by rewrite ?Hinfo, ?Hlisten, ?Hitems, ?Hidx, ?Hbrowser.
Qed.

(** What a refused write leaves of the browser. *)
Lemma saved_with_bag_refused (b : list Item.t) (s : Detail.State) :
  accepts (localQuota (browser s))
          (JSON_stringify (Detail.characters (Detail.with_bag b s))) = false ->
  browser (exec Detail.saveCharacters (Detail.with_bag b s))
    = logged "Error saving characters:" (browser s).
Proof.
  intros Hfull. unfold exec. rewrite detail_saveCharacters_run. cbn zeta.
  rewrite with_bag_browser. cbn in Hfull |- *. by rewrite Hfull.
Qed.

(** The bags apart, replacing a bag changes no character. *)
Lemma bagless_alter (b : list Item.t) (i : nat) (cs : list Character.t) :
  Names.bagless <$> alter (Character.with_bag b) i cs = Names.bagless <$> cs.
Proof.
  rewrite (list_fmap_alter _ _ id); [by rewrite list_alter_id|].
  by apply Forall_forall.
Qed.

Lemma character_names_bagless (cs : list Character.t) :
  Names.character_names cs = Names.character_names (Names.bagless <$> cs).
Proof.
  unfold Names.character_names. rewrite <- list_fmap_compose. done.
Qed.

End DetailRuns.

(** X7.  After a valid add the bag list shows the new item, but the
    character panel is not rendered again: it still shows the character as
    it was before the add, with one item fewer than the bag holds.  A
    confirmed remove renders both, so the page then shows the character as
    it is. *)
Theorem addItemToBag_leaves_info_panel {P : Platform} :
  forall (env : Env) (form : Detail.Form.t) (s : Detail.State) (c : Character.t),
    Phase.Ready c s ->
    Policy.valid_item (Character.bagOrEmpty c) (Detail.itemData env form) = true ->
    let item := Detail.itemData env form in
    let c1 := Character.with_bag (Character.bagOrEmpty c ++ [item]) c in
    let s1 := exec (Detail.handleAddItem env form) s in
    Detail.character s1 = Some c1
    /\ Detail.bagItems s1 = Some (Character.bagOrEmpty c1)
    /\ Detail.characterInfo s1 = Detail.Info c
    /\ length (Character.bagOrEmpty c1) = S (length (Character.bagOrEmpty c))
    /\ Detail.message s1 = Some (ItemAdded (Item.name item) (Character.name c), success)
    /\ (forall (i : nat) (removed : Item.t),
          Character.bagOrEmpty c1 !! i = Some removed ->
          Phase.Ready (Character.with_bag (delete i (Character.bagOrEmpty c1)) c1)
                      (exec (Detail.removeItem true (Z.of_nat i)) s1)).
Proof.
  intros env form s c (Hc & Hinfo & _ & Hlisten) Hvalid item c1 s1.
  set (b1 := (Character.bagOrEmpty c ++ [item])%list).
  assert (Hs1 : s1 = Detail.with_message (ItemAdded (Item.name item) (Character.name c)) success
                       (Detail.with_bagItems b1
                          (exec Detail.saveCharacters (Detail.with_bag b1 s)))).
  { unfold s1, exec at 1. rewrite (handleAddItem_run env form s c Hc). cbn zeta.
    rewrite Hvalid. by rewrite (addItemToBag_run _ s c Hc). }
  destruct (saved_with_bag_page b1 s) as (Hinfo1 & Hlisten1 & _).
  assert (Hc1 : Detail.character s1 = Some c1).
  { rewrite Hs1. exact (saved_with_bag_character b1 s c Hc). }
  split; [done|]. split; [by rewrite Hs1|]. split.
  { rewrite Hs1. cbn. by rewrite Hinfo1. }
  split; [unfold c1; rewrite bagOrEmpty_with_bag, length_app; cbn; lia|].
  split; [by rewrite Hs1|].
  intros i removed Hi. change (Character.bagOrEmpty c1) with b1 in Hi |- *.
  set (b2 := delete i b1).
  assert (Hrun : Detail.removeItem true (Z.of_nat i) s1 = _)
    by exact (removeItem_run i s1 c1 b1 removed Hc1 eq_refl Hi).
  fold b2 in Hrun.
  destruct (saved_with_bag_page b2 s1) as (_ & Hlisten2 & _).
  unfold Phase.Ready, exec. rewrite Hrun. cbn [snd].
  split; [exact (saved_with_bag_character b2 s1 c1 Hc1)|].
  split; [done|]. split; [done|].
  cbn. rewrite Hlisten2, Hs1. cbn. by rewrite Hlisten1.
Qed.

(** X7, witness: after the Rune of Power is added, the panel still shows
    Ember with the empty bag. *)
Lemma addItemToBag_leaves_info_panel_witness :
  Detail.characterInfo Example.detail_with_rune = Detail.Info Example.ember
  /\ (length <$> Detail.bagItems Example.detail_with_rune) = Some 1%nat.
Proof.
  destruct (addItemToBag_leaves_info_panel (P := Reference.platform)
              Example.env0 Example.rune_form Example.detail_on_ember Example.ember)
    as (_ & Hitems & Hinfo & _); [by vm_compute|reflexivity|].
  split; [exact Hinfo|].
  unfold Example.detail_with_rune. by rewrite Hitems.
Defined.

(** X8.  A failed write is masked on the detail page too.  When the store
    refuses the text after a confirmed remove, the item is gone from the
    character in memory and from the page, and the message left is the
    success message; the failure is in the console only and the store
    holds what it held. *)
Theorem removeItem_refused_write {P : Platform} :
  forall (s : Detail.State) (c : Character.t) (b : list Item.t) (i : nat) (item : Item.t),
    Detail.character s = Some c ->
    Character.bag c = Some b ->
    b !! i = Some item ->
    accepts (localQuota (browser s))
            (JSON_stringify (Detail.characters (Detail.with_bag (delete i b) s))) = false ->
    let s' := exec (Detail.removeItem true (Z.of_nat i)) s in
    Detail.character s' = Some (Character.with_bag (delete i b) c)
    /\ Detail.bagItems s' = Some (delete i b)
    /\ Detail.message s' = Some (ItemRemoved (Item.name item), success)
    /\ console (browser s') = "Error saving characters:" :: console (browser s)
    /\ localStorage (browser s') = localStorage (browser s).
Proof.
  intros s c b i item Hc Hb Hi Hfull s'.
  unfold s', exec at 1, exec at 1, exec at 1, exec at 1, exec at 1.
  rewrite (removeItem_run i s c b item Hc Hb Hi). cbn [snd].
  split; [exact (saved_with_bag_character (delete i b) s c Hc)|].
  split; [done|]. split; [done|].
  cbn [browser Detail.state_browser Detail.page_browser Detail.with_message
       Detail.with_characterInfo Detail.with_bagItems].
  pose proof (saved_with_bag_refused (delete i b) s Hfull) as Hbrowser.
  cbn [browser Detail.state_browser] in Hbrowser. by rewrite Hbrowser.
Qed.

(** X8, witness: the Rune of Power removed while the storage is full. *)
Lemma removeItem_refused_write_witness :
  let s := with_browser (with_localStorage None Scenario.full_browser)
                        Example.detail_with_rune in
  let s' := exec (Detail.removeItem (P := Reference.platform) true 0) s in
  Detail.bagItems s' = Some []
  /\ (exists name, Detail.message s' = Some (ItemRemoved name, success))
  /\ localStorage (browser s') = None.
Proof.
  cbv zeta.
  destruct (removeItem_refused_write (P := Reference.platform)
              (with_browser (with_localStorage None Scenario.full_browser)
                            Example.detail_with_rune)
              (Character.with_bag [Detail.itemData Example.env0 Example.rune_form]
                                  Example.ember)
              [Detail.itemData Example.env0 Example.rune_form] 0
              (Detail.itemData Example.env0 Example.rune_form))
    as (_ & Hitems & Hmsg & _ & Hslot);
    [by vm_compute|reflexivity|reflexivity|by vm_compute|].
  split; [exact Hitems|]. split; [by eexists|exact Hslot].
Defined.



(** X10.  The bag operations touch bags only.  Whatever the form, the
    index and the reply, [handleAddItem] and [removeItem] leave the
    collection with the same characters in the same order, each with the
    id, type, name, description, image and date it had. *)
Theorem bag_operations_touch_only_bags {P : Platform} :
  forall (s : Detail.State),
    (forall env form,
       Names.bagless <$> Detail.characters (exec (Detail.handleAddItem env form) s)
       = Names.bagless <$> Detail.characters s)
    /\ (forall answer index,
          Names.bagless <$> Detail.characters (exec (Detail.removeItem answer index) s)
          = Names.bagless <$> Detail.characters s).
Proof.
  intros s. split.
  - intros env form.
    destruct (handleAddItem_characters env form s) as [-> | (z & c & _ & _ & ->)]; [done|].
    apply bagless_alter.
  - intros answer index.
    destruct (removeItem_characters answer index s) as [-> | (z & c & b & i & _ & _ & ->)];
      [done|].
    apply bagless_alter.
Qed.

(** ** The names of the collection *)

Section CharacterNames.
Context {P : Platform}.

Lemma gallery_nameTaken_elem_of (cs : list Character.t) (data : Character.t) :
  Gallery.nameTaken cs data = true <->
  toLowerCase (Character.name data) ∈ Names.character_names cs.
Proof.
  unfold Gallery.nameTaken, Names.character_names.
  rewrite existsb_exists, list_elem_of_fmap. split.
  - intros (c & Hin & Heq). exists c. split.
    + symmetry. by apply String.eqb_eq.
    + by apply list_elem_of_In.
  - intros (c & Heq & Hin). exists c. split.
    + by apply list_elem_of_In.
    + apply String.eqb_eq. by symmetry.
Qed.

(** A candidate that passes validation has a name that is not taken. *)
Lemma no_failure_name_free v cs data :
  Policy.first_failure Policy.source_order v cs data = None ->
  Gallery.nameTaken cs data = false.
Proof.
  intros Hnone. apply valid_no_failure in Hnone.
  unfold Policy.valid in Hnone. cbn [forallb Policy.source_order Policy.violates] in Hnone.
  repeat (apply andb_prop in Hnone as [? Hnone]).
  by apply negb_true_iff.
Qed.

Lemma names_unique_add (cs : list Character.t) (data : Character.t) :
  Names.unique cs ->
  Gallery.nameTaken cs data = false ->
  Names.unique (cs ++ [data]).
Proof.
  unfold Names.unique, Names.character_names. intros Hcs Hfree.
  rewrite fmap_app. apply NoDup_app.
  split; [done|]. split; [|apply NoDup_singleton].
  intros x Hx Hx'. apply list_elem_of_singleton in Hx'. subst x.
  apply gallery_nameTaken_elem_of in Hx. congruence.
Qed.

Lemma names_unique_delete (cs : list Character.t) (i : nat) :
  Names.unique cs -> Names.unique (delete i cs).
Proof.
  unfold Names.unique, Names.character_names. intros Hcs.
  rewrite list_fmap_delete.
  eapply sublist_NoDup; [exact Hcs|apply sublist_delete].
Qed.

Lemma names_unique_bagless (cs cs' : list Character.t) :
  Names.bagless <$> cs' = Names.bagless <$> cs ->
  Names.unique cs -> Names.unique cs'.
Proof.
  unfold Names.unique. intros Hsame.
  by rewrite (character_names_bagless cs), (character_names_bagless cs'), Hsame.
Qed.

End CharacterNames.

(** X11.  When no two characters of the collection share a name, case
    apart, this is still so after every handler of the two pages: a
    submission (the duplicate check turns the taken names away), a
    delete, a delete-all, and the bag operations of the detail page, which
    rename nothing. *)
Theorem character_names_unique_preserved {P : Platform} :
  forall (g : Gallery.State) (d : Detail.State),
    Names.unique (Gallery.characters g) ->
    Names.unique (Detail.characters d) ->
    (forall v env form,
       Names.unique (Gallery.characters (exec (Gallery.handleFormSubmit v env form) g)))
    /\ (forall answer index,
          Names.unique (Gallery.characters (exec (Gallery.deleteCharacter answer index) g)))
    /\ (forall answer,
          Names.unique (Gallery.characters (exec (Gallery.clearAllCharacters answer) g)))
    /\ (forall env form,
          Names.unique (Detail.characters (exec (Detail.handleAddItem env form) d)))
    /\ (forall answer index,
          Names.unique (Detail.characters (exec (Detail.removeItem answer index) d))).
Proof.
  intros g d Hg Hd. split; [|split; [|split; [|split]]].
  - intros v env form.
    destruct (handleFormSubmit_characters v env form g)
      as [-> | (data & _ & Hfail & ->)]; [done|].
    apply names_unique_add; [done|]. by eapply no_failure_name_free.
  - intros answer index. rewrite deleteCharacter_characters.
    destruct answer; [by apply names_unique_delete|done].
  - intros answer. rewrite clearAllCharacters_characters.
    destruct answer; [apply NoDup_nil_2|done].
  - intros env form. apply (names_unique_bagless (Detail.characters d)); [|done].
    destruct (handleAddItem_characters env form d) as [-> | (z & c & _ & _ & ->)]; [done|].
    apply bagless_alter.
  - intros answer index. apply (names_unique_bagless (Detail.characters d)); [|done].
    destruct (removeItem_characters answer index d)
      as [-> | (z & c & b & i & _ & _ & ->)]; [done|].
    apply bagless_alter.
Qed.

(** X11, witness: Ember and Sable; a submission of 'SABLE' leaves the two. *)
Lemma character_names_unique_preserved_witness :
  let g := Example.gallery_with [Example.ember; Example.sable] in
  let shout := Gallery.Form.mk "Human" "SABLE" "Another cartographer" "human2.png" None in
  Names.unique (Gallery.characters
                  (exec (Gallery.handleFormSubmit (P := Reference.platform)
                           Gallery.LocalImages Example.env0 shout) g))
  /\ Gallery.characters
       (exec (Gallery.handleFormSubmit (P := Reference.platform)
                Gallery.LocalImages Example.env0 shout) g)
     = [Example.ember; Example.sable].
Proof.
  cbv zeta.
  assert (Hg : Names.unique [Example.ember; Example.sable]).
  { repeat constructor; intros H%list_elem_of_In; cbn in H; intuition discriminate. }
  assert (Hd : Names.unique (Detail.characters Example.detail_on_ember)).
  { vm_compute. repeat constructor. intros H%list_elem_of_In. destruct H. }
  destruct (character_names_unique_preserved (P := Reference.platform)
              (Example.gallery_with [Example.ember; Example.sable])
              Example.detail_on_ember Hg Hd) as (Hsubmit & _).
  split; [apply Hsubmit|reflexivity].
Defined.

(** X12.  After a confirmed delete that the store took, the selection
    signal written for position [i] means the character that is at [i]
    now.  It is kept, and the detail page resolves that character, when
    one is there: for a delete at or before [i] this is the character that
    was at [i + 1].  When none is there the signal is removed and the
    detail page resolves nothing. *)
Theorem deleteCharacter_shifts_selection {P : Platform} {L : JSONLaws P} :
  forall (g : Gallery.State) (index i : nat),
    sessionStorage (browser g) = Some (pretty i) ->
    ToNumber (pretty i) = Int (Z.of_nat i) ->
    let g' := exec (Gallery.deleteCharacter true index) g in
    accepts (localQuota (browser g)) (JSON_stringify (delete index (Gallery.characters g)))
      = true ->
    match delete index (Gallery.characters g) !! i with
    | Some c =>
        sessionStorage (browser g') = Some (pretty i)
        /\ Phase.Ready c (snd (Detail.constructor (browser g')))
        /\ ((index <= i)%nat -> Gallery.characters g !! S i = Some c)
        /\ ((i < index)%nat -> Gallery.characters g !! i = Some c)
    | None =>
        sessionStorage (browser g') = None
        /\ Phase.NotFound (snd (Detail.constructor (browser g')))
    end.
Proof.
  intros g index i Hsel Hnum g' Hfits.
  set (cs' := delete index (Gallery.characters g)) in *.
  set (kept := with_browser (with_localStorage (Some (JSON_stringify cs')) (browser g))
                 (Gallery.with_characters cs' g)).
  assert (Hsaved : exec Gallery.saveCharacters
                     (Gallery.with_characters (delete index (Gallery.characters g)) g) = kept).
  { unfold exec. rewrite gallery_saveCharacters_run. fold cs'. cbn in Hfits |- *.
    by rewrite Hfits. }
  assert (Hg' : g' = Gallery.with_message CharacterDeleted success
                       (Gallery.rendered
                          (if negb (Z.of_nat i <? Z.of_nat (length cs'))
                           then with_browser (with_sessionStorage None (browser kept)) kept
                           else kept))).
  { unfold g', exec at 1. rewrite deleteCharacter_run. cbv zeta. rewrite Hsaved.
    cbn [snd]. cbn [kept with_browser Gallery.state_browser Gallery.page_browser
      Gallery.with_characters Gallery.characters sessionStorage with_localStorage].
    rewrite Hsel, invalid_selection, Hnum. done. }
  destruct (cs' !! i) as [c|] eqn:Hc.
  - assert (Hin : (i < length cs')%nat) by (apply lookup_lt_is_Some; by eexists).
    destruct (Z.ltb_spec (Z.of_nat i) (Z.of_nat (length cs'))) as [_|]; [|lia].
    cbn [negb] in Hg'.
    assert (Hsel' : sessionStorage (browser g') = Some (pretty i)).
    { rewrite Hg'. cbn. cbn in Hsel. done. }
    assert (Hload : Store.load (browser g') = cs').
    { apply load_stringify. by rewrite Hg'. }
    split; [done|]. split; [|split].
    + destruct (constructor_resolves (browser g') (pretty i) c Hsel') as (_ & ? & _); [|done].
      rewrite Hload, parseInt_pretty_nat. cbn.
      destruct (Z.leb_spec 0 (Z.of_nat i)); [|lia]. by rewrite Nat2Z.id.
    + intros Hle. rewrite <- Hc. unfold cs'. by rewrite list_lookup_delete_ge.
    + intros Hlt. rewrite <- Hc. unfold cs'. by rewrite list_lookup_delete_lt.
  - assert (Hout : (length cs' <= i)%nat) by by apply lookup_ge_None.
    destruct (Z.ltb_spec (Z.of_nat i) (Z.of_nat (length cs'))) as [|_]; [lia|].
    cbn [negb] in Hg'.
    assert (Hsel' : sessionStorage (browser g') = None) by by rewrite Hg'.
    split; [done|].
    by destruct (constructor_no_selection (browser g') Hsel') as (_ & ? & _).
Qed.

(** X12, witness: Ember, Sable and Orin with the signal '1', written for
    Sable.  After Ember is deleted the detail page opens on Orin. *)
Lemma deleteCharacter_shifts_selection_witness :
  let cs := [Example.ember; Example.sable; Example.orin] in
  let g := Gallery.mkState (Scenario.browser_with_three (Some "1")) cs None cs in
  let g' := exec (Gallery.deleteCharacter (P := Reference.platform) true 0) g in
  cs !! 1%nat = Some Example.sable
  /\ Phase.Ready Example.orin
       (snd (Detail.constructor (P := Reference.platform) (browser g'))).
Proof.
  cbv zeta. split; [reflexivity|].
  pose proof (deleteCharacter_shifts_selection (P := Reference.platform) (L := reference_laws)
                (Gallery.mkState (Scenario.browser_with_three (Some "1"))
                   [Example.ember; Example.sable; Example.orin] None
                   [Example.ember; Example.sable; Example.orin])
                0 1 eq_refl eq_refl eq_refl) as Hshift.
  cbn [delete list_delete Gallery.characters lookup list_lookup] in Hshift.
  destruct Hshift as (_ & Hpage & _). exact Hpage.
Defined.

(** X13.  Nothing compares the ids of characters either.  The id is the
    clock's reading, so two submissions within the same millisecond whose
    candidates are built and valid append two characters with the same
    id. *)
Theorem character_id_not_checked {P : Platform} :
  forall (v : Gallery.Variant) (env : Env) (form1 form2 : Gallery.Form.t) (g : Gallery.State)
         (data1 data2 : Character.t),
    Gallery.characterData v env form1 = Normal data1 ->
    Gallery.characterData v env form2 = Normal data2 ->
    Policy.valid v (Gallery.characters g) data1 = true ->
    Policy.valid v (Gallery.characters g ++ [data1]) data2 = true ->
    let g2 := exec (Gallery.handleFormSubmit v env form2)
                   (exec (Gallery.handleFormSubmit v env form1) g) in
    Gallery.characters g2 = (Gallery.characters g ++ [data1; data2])%list
    /\ Character.id data1 = Character.id data2
    /\ toLowerCase (Character.name data1) <> toLowerCase (Character.name data2).
Proof.
  intros v env form1 form2 g data1 data2 Hdata1 Hdata2 Hv1 Hv2 g2.
  apply valid_no_failure in Hv1, Hv2.
  assert (Hcs1 : Gallery.characters (exec (Gallery.handleFormSubmit v env form1) g)
                 = (Gallery.characters g ++ [data1])%list).
  { unfold exec at 1. rewrite (handleFormSubmit_run v env form1 data1 g Hdata1), Hv1.
    cbn [snd Gallery.characters Gallery.with_message Gallery.rendered].
    by rewrite gallery_saveCharacters_characters. }
  split; [|split].
  - unfold g2, exec at 1. rewrite (handleFormSubmit_run v env form2 data2 _ Hdata2).
    rewrite Hcs1, Hv2.
    cbn [snd Gallery.characters Gallery.with_message Gallery.rendered].
    rewrite gallery_saveCharacters_characters. cbn [Gallery.characters Gallery.with_characters].
    by rewrite <- app_assoc.
  - destruct (characterData_fields v env form1 data1 Hdata1) as (-> & _).
    by destruct (characterData_fields v env form2 data2 Hdata2) as (-> & _).
  - intros Hsame. apply no_failure_name_free in Hv2.
    unfold Gallery.nameTaken in Hv2. rewrite existsb_app in Hv2.
    apply orb_false_elim in Hv2 as [_ Hlast]. cbn in Hlast.
    rewrite orb_false_r in Hlast. apply String.eqb_neq in Hlast. done.
Qed.

(** X13, witness: Ember and Sable, submitted within the same millisecond. *)
Lemma character_id_not_checked_witness :
  let g2 := exec (Gallery.handleFormSubmit (P := Reference.platform) Gallery.LocalImages
                    Example.env0 Scenario.sable_form)
              (exec (Gallery.handleFormSubmit (P := Reference.platform) Gallery.LocalImages
                       Example.env0 Example.ember_form) (Example.gallery_with [])) in
  (Character.id <$> Gallery.characters g2) = [1700000000000; 1700000000000]
  /\ (Character.name <$> Gallery.characters g2) = ["Ember"; "Sable"].
Proof.
  cbv zeta.
  destruct (character_id_not_checked (P := Reference.platform) Gallery.LocalImages
              Example.env0 Example.ember_form Scenario.sable_form (Example.gallery_with [])
              _ _ eq_refl eq_refl)
    as (Hcs & _); [reflexivity|reflexivity|].
  rewrite Hcs. split; reflexivity.
Defined.

(** ** Truncation *)

Section Truncation.

Lemma append_cons (c : ascii) (s r : string) : String c s ++ r = String c (s ++ r).
Proof. reflexivity. Qed.

Lemma append_empty (r : string) : "" ++ r = r.
Proof. reflexivity. Qed.

Lemma length_append (s r : string) :
  String.length (s ++ r) = (String.length s + String.length r)%nat.
Proof.
  induction s as [|c s IH]; [done|].
  rewrite append_cons. cbn [String.length]. by rewrite IH.
Qed.

Lemma length_substring_0 (n : nat) (s : string) :
  (n <= String.length s)%nat -> String.length (substring 0 n s) = n.
Proof.
  revert s. induction n as [|n IH]; intros s Hn.
  - by destruct s.
  - destruct s as [|c s]; cbn [String.length substring] in *; [lia|].
    rewrite IH; [done|lia].
Qed.

(** The first [n] units of a text that begins with the first [n] units
    of [s] are those of [s]. *)
Lemma substring_0_append (n : nat) (s r : string) :
  (n <= String.length s)%nat ->
  substring 0 n (substring 0 n s ++ r) = substring 0 n s.
Proof.
  revert s. induction n as [|n IH]; intros s Hn.
  - destruct s; cbn [substring]; rewrite append_empty; by destruct r.
  - destruct s as [|c s]; cbn [String.length substring] in *; [lia|].
    rewrite append_cons. cbn [substring]. rewrite IH; [done|lia].
Qed.

Lemma substring_0_all (s r : string) :
  substring 0 (String.length s) (s ++ r) = s.
Proof.
  induction s as [|c s IH]; [rewrite append_empty; by destruct r|].
  rewrite append_cons. cbn [String.length substring]. by rewrite IH.
Qed.

End Truncation.

(** X14.  Truncating twice is truncating once: the text [truncateText]
    returns is one it returns unchanged when it is given it with the same
    limit, although a cut text is three units longer than the limit. *)
Theorem truncateText_idempotent :
  forall (text : string) (maxLength : option Z),
    utils.truncateText (utils.truncateText text maxLength) maxLength
    = utils.truncateText text maxLength.
Proof.
  intros text maxLength. unfold utils.truncateText.
  set (m := default 100 maxLength).
  destruct (Z.gtb_spec (Z.of_nat (String.length text)) m) as [Hcut|Hkeep].
  - assert (Hn : (Z.to_nat m <= String.length text)%nat) by lia.
    assert (Hlen : Z.of_nat (String.length (substring 0 (Z.to_nat m) text ++ "...")) > m).
    { rewrite length_append, length_substring_0 by done. cbn. lia. }
    destruct (Z.gtb_spec (Z.of_nat (String.length (substring 0 (Z.to_nat m) text ++ "...")))
                m); [|lia].
    by rewrite substring_0_append.
  - destruct (Z.gtb_spec (Z.of_nat (String.length text)) m); [lia|done].
Qed.

(** X15.  The length of what [truncateText] returns: a text within the
    limit comes back as it is; a longer one comes back as its first
    [maxLength] units (none for a negative limit) and three dots, so never
    longer than the limit plus three, but longer than the text itself when
    the text is one or two units over the limit: a text one unit over
    trades that unit for the three dots.  Without a limit, the limit is
    100. *)
Theorem truncateText_length :
  forall (text : string) (maxLength : option Z),
    let m := default 100 maxLength in
    let result := utils.truncateText text maxLength in
    Z.of_nat (String.length result)
      = (if Z.of_nat (String.length text) >? m
         then Z.max 0 m + 3
         else Z.of_nat (String.length text))
    /\ Z.of_nat (String.length result) <= Z.max 0 m + 3
    /\ (forall (kept : string) (c : ascii),
          utils.truncateText (kept ++ String c "")
                             (Some (Z.of_nat (String.length kept)))
          = kept ++ "...")
    /\ utils.truncateText text None = utils.truncateText text (Some 100).
Proof.
  intros text maxLength m result.
  assert (Hlen : Z.of_nat (String.length result)
                 = if Z.of_nat (String.length text) >? m
                   then Z.max 0 m + 3
                   else Z.of_nat (String.length text)).
  { unfold result, utils.truncateText. fold m.
    destruct (Z.gtb_spec (Z.of_nat (String.length text)) m) as [Hcut|Hkeep]; [|done].
    rewrite length_append, length_substring_0 by lia. cbn [String.length]. lia. }
  split; [done|]. split; [|split; [|done]].
  - rewrite Hlen. destruct (Z.gtb_spec (Z.of_nat (String.length text)) m); lia.
  - intros kept c. unfold utils.truncateText. cbn [default from_option id].
    rewrite length_append. cbn [String.length].
    destruct (Z.gtb_spec (Z.of_nat (String.length kept + 1)) (Z.of_nat (String.length kept)));
      [|lia].
    by rewrite Nat2Z.id, substring_0_all.
Qed.

(** ** The image of a card *)

Section Cards.

Lemma includes_slash_cons (c : ascii) (s : string) :
  CharacterCard.includes "/" (String c s)
  = Ascii.eqb c "/" || CharacterCard.includes "/" s.
Proof.
  cbn [CharacterCard.includes String.prefix].
  destruct (ascii_dec "/" c) as [<-|Hne]; [by destruct s|].
  destruct (Ascii.eqb_spec c "/") as [->|_]; done.
Qed.

Lemma includes_slash_prefixed (s : string) :
  CharacterCard.includes "/" ("assets/images/" ++ s) = true.
Proof.
  rewrite !append_cons, append_empty. by rewrite !includes_slash_cons.
Qed.

(** The source of the second variant, by cases on the stored reference. *)
Lemma imageSrc_local (character : Character.t) :
  CharacterCard.imageSrc Gallery.LocalImages character
  = if String.eqb (Character.imageUrl character) ""
    then CharacterCard.FALLBACK_IMAGE
    else if CharacterCard.includes "/" (Character.imageUrl character)
         then Character.imageUrl character
         else "assets/images/" ++ Character.imageUrl character.
Proof.
  unfold CharacterCard.imageSrc. cbv zeta. unfold truthy.
  destruct (Character.imageUrl character) as [|c url] eqn:Hurl; [done|].
  cbn [String.eqb negb andb].
  by destruct (CharacterCard.includes "/" (String c url)) eqn:Hslash.
Qed.

End Cards.

(** X16.  In the second variant every card's image is addressed by a
    path: the source [createCharacterCard] computes always contains a
    slash and is never empty, whatever the stored reference is.  For a
    character as a submission builds it, the source is the stored
    reference itself (the prefix is not put a second time), or the
    fallback image when the form named no file. *)
Theorem createCharacterCard_image_path :
  forall (character : Character.t),
    let src := CharacterCard.imageSrc Gallery.LocalImages character in
    CharacterCard.includes "/" src = true
    /\ src <> ""
    /\ (CharacterCard.includes "/" (Character.imageUrl character) = true ->
        src = Character.imageUrl character)
    /\ (forall env form,
          exists data,
            Gallery.characterData Gallery.LocalImages env form = Normal data
            /\ CharacterCard.imageSrc Gallery.LocalImages data
               = if String.eqb (trim (Gallery.Form.imageUrl form)) ""
                 then CharacterCard.FALLBACK_IMAGE
                 else Character.imageUrl data).
Proof.
  intros character src. pose proof (imageSrc_local character) as Hsrc. fold src in Hsrc.
  split; [|split; [|split]].
  - rewrite Hsrc. destruct (String.eqb _ ""); [done|].
    destruct (CharacterCard.includes "/" (Character.imageUrl character)) eqn:Hslash; [done|].
    apply includes_slash_prefixed.
  - rewrite Hsrc. destruct (Character.imageUrl character) as [|c url]; [done|].
    cbn [String.eqb]. by destruct (CharacterCard.includes "/" (String c url)).
  - intros Hslash. rewrite Hsrc, Hslash.
    by destruct (Character.imageUrl character).
  - intros env form. eexists. split; [reflexivity|]. rewrite imageSrc_local.
    cbn [Character.imageUrl]. unfold truthy.
    destruct (String.eqb (trim (Gallery.Form.imageUrl form)) ""); [done|].
    cbn [negb]. rewrite includes_slash_prefixed. by rewrite append_cons.
Qed.

(** X16, witness: Ember's stored reference names a path, and is the
    source of Ember's card. *)
Lemma createCharacterCard_image_path_witness :
  CharacterCard.imageSrc Gallery.LocalImages Example.ember = "assets/images/dragon1.png".
Proof.
  destruct (createCharacterCard_image_path Example.ember) as (_ & _ & Hsame & _).
  exact (Hsame eq_refl).
Defined.

(** ** The gallery page as the browser loads it *)

Section PageLoad.
Context {P : Platform}.

Lemma on_manager_constructor_run (s : GalleryPage.State) :
  GalleryPage.on_manager Gallery.constructor s =
    (Normal tt,
     GalleryPage.mkState (exec Gallery.constructor (GalleryPage.manager s))
       (GalleryPage.statsElement s) (GalleryPage.galleryStats s) (GalleryPage.shortcuts s)).
Proof.
  unfold GalleryPage.on_manager, exec. by rewrite gallery_constructor_run.
Qed.

Lemma corrupt_load (b : Browser) : Store.corrupt b = true -> Store.load b = [].
Proof.
  unfold Store.corrupt, Store.load.
  destruct (localStorage b) as [text|]; [|done].
  destruct (truthy text); [|done]. by destruct (JSON_parse text).
Qed.

(** What [updateStats] parses, when the slot is not corrupt. *)
Lemma updateStats_parses (b : Browser) :
  Store.corrupt b = false ->
  JSON_parse "[]" = Some [] ->
  JSON_parse match localStorage b with
             | Some text => if truthy text then text else "[]"
             | None => "[]"
             end = Some (Store.load b).
Proof.
  unfold Store.corrupt, Store.load. intros Hfine Hempty.
  destruct (localStorage b) as [text|]; [|done].
  destruct (truthy text); [|done]. by destruct (JSON_parse text).
Qed.

(** Dragons and humans are different characters. *)
Lemma stats_of_types (cs : list Character.t) :
  (GalleryPage.dragons (GalleryPage.stats_of cs) + GalleryPage.humans (GalleryPage.stats_of cs)
   <= GalleryPage.total (GalleryPage.stats_of cs))%nat.
Proof.
  unfold GalleryPage.stats_of. cbn [GalleryPage.dragons GalleryPage.humans GalleryPage.total].
  induction cs as [|c cs IH]; [done|]. cbn [List.filter length].
  destruct (String.eqb_spec (Character.type c) "Dragon") as [->|_]; cbn [length].
  - destruct (String.eqb_spec "Dragon" "Human"); [done|]. lia.
  - destruct (String.eqb (Character.type c) "Human"); cbn [length]; lia.
Qed.

End PageLoad.

(** X17.  With a slot that holds no JSON the gallery page loads halfway.
    The manager catches the parse error and starts on the empty
    collection, but [StatsDisplay.updateStats] parses the slot again
    outside any [try]: the listener ends with the SyntaxError, no
    statistics are shown and the keyboard shortcuts are never added.  The
    slot is left as it is. *)
Theorem DOMContentLoaded_corrupt_store {P : Platform} :
  forall (b : Browser) (present : bool),
    Store.corrupt b = true ->
    let s' := exec GalleryPage.DOMContentLoaded (GalleryPage.loaded b present) in
    fst (GalleryPage.DOMContentLoaded (GalleryPage.loaded b present)) = Throw SyntaxError
    /\ Gallery.characters (GalleryPage.manager s') = []
    /\ Gallery.cards (GalleryPage.manager s') = []
    /\ GalleryPage.galleryStats s' = None
    /\ GalleryPage.shortcuts s' = false
    /\ console (browser s') = "Error loading characters:" :: console b
    /\ localStorage (browser s') = localStorage b.
Proof.
  intros b present Hcorrupt s'.
  assert (Hrun : GalleryPage.DOMContentLoaded (GalleryPage.loaded b present) =
    (Throw SyntaxError,
     GalleryPage.mkState
       (Gallery.mkState (logged "Error loading characters:" b) [] None [])
       present None false)).
  { unfold GalleryPage.DOMContentLoaded.
    rewrite (bind_normal _ _ _ _ _ (on_manager_constructor_run _)).
    unfold exec. rewrite gallery_constructor_run.
    cbn [snd GalleryPage.manager GalleryPage.loaded browser Gallery.state_browser
         Gallery.page_browser].
    rewrite Hcorrupt, (corrupt_load b Hcorrupt).
    unfold Store.corrupt in Hcorrupt.
    destruct (localStorage b) as [text|] eqn:Hslot; [|done].
    destruct (truthy text) eqn:Htext; [|done].
    destruct (JSON_parse text) eqn:Hparse; [done|].
    unfold GalleryPage.updateStats. js_step. cbn. rewrite Hslot, Htext. cbn.
    by rewrite Hparse. }
  unfold s', exec. rewrite Hrun. done.
Qed.

(** X17, witness: the slot holds the text '{not json'. *)
Lemma DOMContentLoaded_corrupt_store_witness :
  let s' := exec (GalleryPage.DOMContentLoaded (P := Reference.platform))
                 (GalleryPage.loaded Scenario.corrupt_browser true) in
  GalleryPage.shortcuts s' = false /\ GalleryPage.galleryStats s' = None.
Proof.
  cbv zeta.
  destruct (DOMContentLoaded_corrupt_store (P := Reference.platform)
              Scenario.corrupt_browser true eq_refl) as (_ & _ & _ & Hstats & Hkeys & _).
  split; [exact Hkeys|exact Hstats].
Defined.

(** X18.  With a slot that is absent, empty or holds a collection, the
    listener runs to its end: the manager holds and shows the stored
    collection, the shortcuts are added, and the statistics element, when
    the page has one, shows the counts of that same collection: as many
    characters as there are cards, and no more dragons and humans together
    than characters. *)
Theorem DOMContentLoaded_shows_stats {P : Platform} :
  forall (b : Browser) (present : bool),
    Store.corrupt b = false ->
    JSON_parse "[]" = Some [] ->
    let s' := exec GalleryPage.DOMContentLoaded (GalleryPage.loaded b present) in
    let stats := GalleryPage.stats_of (Store.load b) in
    returns GalleryPage.DOMContentLoaded (GalleryPage.loaded b present) = true
    /\ Gallery.characters (GalleryPage.manager s') = Store.load b
    /\ GalleryPage.shortcuts s' = true
    /\ GalleryPage.galleryStats s' = (if present then Some stats else None)
    /\ GalleryPage.total stats = length (Gallery.cards (GalleryPage.manager s'))
    /\ (GalleryPage.dragons stats + GalleryPage.humans stats <= GalleryPage.total stats)%nat
    /\ browser s' = b.
Proof.
  intros b present Hfine Hempty s' stats.
  assert (Hrun : GalleryPage.DOMContentLoaded (GalleryPage.loaded b present) =
    (Normal tt,
     GalleryPage.mkState
       (Gallery.mkState b (Store.load b) None (Store.load b))
       present (if present then Some stats else None) true)).
  { unfold GalleryPage.DOMContentLoaded.
    rewrite (bind_normal _ _ _ _ _ (on_manager_constructor_run _)).
    unfold exec. rewrite gallery_constructor_run.
    cbn [snd GalleryPage.manager GalleryPage.loaded browser Gallery.state_browser
         Gallery.page_browser].
    rewrite Hfine.
    unfold GalleryPage.updateStats. js_step. cbn.
    rewrite (updateStats_parses b Hfine Hempty). cbn.
    by destruct present. }
  unfold s', returns, exec. rewrite Hrun. cbn.
  repeat split; try done. apply stats_of_types.
Qed.

(** X18, witness: the page opens on the store that holds the three
    characters: one dragon, two humans, no item. *)
Lemma DOMContentLoaded_shows_stats_witness :
  GalleryPage.galleryStats
    (exec (GalleryPage.DOMContentLoaded (P := Reference.platform))
          (GalleryPage.loaded (Scenario.browser_with_three None) true))
  = Some (GalleryPage.mkStats 3 1 2 0).
Proof.
  destruct (DOMContentLoaded_shows_stats (P := Reference.platform)
              (Scenario.browser_with_three None) true)
    as (_ & _ & _ & Hstats & _); [by vm_compute|reflexivity|].
  rewrite Hstats. by vm_compute.
Defined.

(** ** Memory and store *)

Section Coherence.
Context {P : Platform}.

(** The slot after [saveCharacters], when the store takes the text. *)
Lemma gallery_saved_slot (g : Gallery.State) :
  accepts (localQuota (browser g)) (JSON_stringify (Gallery.characters g)) = true ->
  localStorage (browser (exec Gallery.saveCharacters g))
    = Some (JSON_stringify (Gallery.characters g)).
Proof.
  intros Hfits. cbn [browser Gallery.state_browser] in *.
  rewrite gallery_saveCharacters_localStorage. cbv zeta. by rewrite Hfits.
Qed.

Lemma detail_saved_slot (s : Detail.State) :
  accepts (localQuota (browser s)) (JSON_stringify (Detail.characters s)) = true ->
  localStorage (browser (exec Detail.saveCharacters s))
    = Some (JSON_stringify (Detail.characters s)).
Proof.
  intros Hfits. unfold exec. rewrite detail_saveCharacters_run. cbn in Hfits |- *.
  by rewrite Hfits.
Qed.

(** [handleAddItem] leaves the state's collection and store alone, or
    replaces a bag and saves. *)
Lemma handleAddItem_saves (env : Env) (form : Detail.Form.t) (s : Detail.State) :
  let s' := exec (Detail.handleAddItem env form) s in
  Detail.characters s' = Detail.characters s
  \/ exists b, Detail.characters s' = Detail.characters (Detail.with_bag b s)
               /\ browser s' = browser (exec Detail.saveCharacters (Detail.with_bag b s)).
Proof.
  intros s'. destruct (Detail.character s) as [c|] eqn:Hc.
  - destruct (Policy.valid_item (Character.bagOrEmpty c) (Detail.itemData env form))
      eqn:Hvalid.
    + right. exists (Character.bagOrEmpty c ++ [Detail.itemData env form])%list.
      unfold s', exec at 1, exec at 1.
      rewrite (handleAddItem_run env form s c Hc). cbn zeta. rewrite Hvalid.
      rewrite (addItemToBag_run _ s c Hc).
      split; [|done].
      by destruct (detail_saveCharacters_character
                     (Detail.with_bag (Character.bagOrEmpty c ++ [Detail.itemData env form]) s))
        as (_ & ? & _).
    + left. unfold s', exec. rewrite (handleAddItem_run env form s c Hc). cbn zeta.
      by rewrite Hvalid.
  - left. unfold s', exec, Detail.handleAddItem, Detail.validateItemData.
    destruct (negb (truthy _)); [done|]. destruct (negb (truthy _) || _); [done|].
    unfold bind, Detail.this_character. by rewrite Hc.
Qed.

Lemma removeItem_saves (answer : bool) (index : Z) (s : Detail.State) :
  let s' := exec (Detail.removeItem answer index) s in
  Detail.characters s' = Detail.characters s
  \/ exists b, Detail.characters s' = Detail.characters (Detail.with_bag b s)
               /\ browser s' = browser (exec Detail.saveCharacters (Detail.with_bag b s)).
Proof.
  intros s'.
  destruct (Detail.character s) as [c|] eqn:Hc;
    [destruct (Character.bag c) as [b|] eqn:Hb;
       [destruct (array_get b (Int index)) as [item|] eqn:Hitem|]|].
  2-4: left; unfold s', exec; rewrite removeItem_missing; [done|];
       rewrite Hc; try rewrite Hb; done.
  cbn in Hitem. destruct (Z.leb_spec 0 index) as [Hindex|]; [|done].
  destruct answer.
  - right. exists (delete (Z.to_nat index) b).
    pose proof (removeItem_run _ s c b item Hc Hb Hitem) as Hrun.
    rewrite (Z2Nat.id index Hindex) in Hrun.
    unfold s', exec at 1, exec at 1. rewrite Hrun.
    split; [|done].
    by destruct (detail_saveCharacters_character
                   (Detail.with_bag (delete (Z.to_nat index) b) s)) as (_ & ? & _).
  - left. unfold s', exec, Detail.removeItem, try_catch.
    rewrite (bind_normal _ _ _ _ _ (this_character_run s c Hc)), Hb.
    unfold bind, ret, array_get. destruct (Z.leb_spec 0 index); [|lia].
    by rewrite Hitem.
Qed.

Context {L : JSONLaws P}.

(** A page that replaced a bag and saved, on a store that took the text. *)
Lemma bag_change_stored (b : list Item.t) (s s' : Detail.State) :
  Detail.characters s' = Detail.characters (Detail.with_bag b s) ->
  browser s' = browser (exec Detail.saveCharacters (Detail.with_bag b s)) ->
  accepts (localQuota (browser s)) (JSON_stringify (Detail.characters s')) = true ->
  Store.load (browser s') = Detail.characters s'.
Proof.
  intros Hcs Hbrowser Hfits. apply load_stringify.
  rewrite Hbrowser, Hcs. apply detail_saved_slot.
  cbn [browser Detail.state_browser] in *. by rewrite with_bag_browser, <- Hcs.
Qed.

End Coherence.

(** X19.  The store follows the gallery's memory.  Whenever a
    submission, a delete or a delete-all has changed the collection and
    the store took the text written for it, the store holds the collection
    the manager holds: a manager built on that browser starts from it. *)
Theorem gallery_changes_are_stored {P : Platform} {L : JSONLaws P} :
  forall (g : Gallery.State),
    let stored (g' : Gallery.State) :=
      Gallery.characters g' <> Gallery.characters g ->
      accepts (localQuota (browser g)) (JSON_stringify (Gallery.characters g')) = true ->
      Store.load (browser g') = Gallery.characters g'
      /\ Gallery.characters (exec Gallery.constructor g') = Gallery.characters g' in
    (forall v env form, stored (exec (Gallery.handleFormSubmit v env form) g))
    /\ (forall answer index, stored (exec (Gallery.deleteCharacter answer index) g))
    /\ (forall answer, stored (exec (Gallery.clearAllCharacters answer) g)).
Proof.
  intros g stored.
  assert (Hreload : forall g', Store.load (browser g') = Gallery.characters g' ->
            Store.load (browser g') = Gallery.characters g'
            /\ Gallery.characters (exec Gallery.constructor g') = Gallery.characters g').
  { intros g' Hload. split; [done|]. unfold exec. by rewrite gallery_constructor_run. }
  split; [|split].
  - intros v env form Hchanged Hfits. apply Hreload. revert Hchanged Hfits.
    unfold exec at 1 2 3 4.
    destruct (handleFormSubmit_cases v env form g) as [(e & _ & ->) | (data & _ & ->)];
      [done|].
    destruct (Policy.first_failure _ _ _ _); [done|]. intros _.
    cbn [snd Gallery.characters Gallery.with_message Gallery.rendered browser
         Gallery.state_browser Gallery.page_browser].
    rewrite gallery_saveCharacters_characters. intros Hfits.
    apply load_stringify. by apply (gallery_saved_slot (Gallery.with_characters _ g)).
  - intros [|] index Hchanged Hfits; [|done]. apply Hreload. revert Hfits.
    rewrite deleteCharacter_characters. intros Hfits.
    apply load_stringify.
    pose proof (gallery_saved_slot (Gallery.with_characters
                                      (delete index (Gallery.characters g)) g) Hfits) as Hslot.
    unfold exec at 1. rewrite deleteCharacter_run. cbv zeta.
    cbn [snd browser Gallery.state_browser Gallery.page_browser Gallery.with_message
         Gallery.rendered] in Hslot |- *.
    destruct (sessionStorage _); [destruct (negb _ || _)|]; done.
  - intros [|] Hchanged Hfits; [|done]. apply Hreload. revert Hfits.
    rewrite clearAllCharacters_characters. intros Hfits.
    apply load_stringify.
    pose proof (gallery_saved_slot (Gallery.with_characters [] g) Hfits) as Hslot.
    unfold exec at 1. rewrite clearAllCharacters_run. done.
Qed.

(** X19, witness: Ember, submitted to the empty gallery, is in the store. *)
Lemma gallery_changes_are_stored_witness :
  let g' := exec (Gallery.handleFormSubmit (P := Reference.platform) Gallery.LocalImages
                    Example.env0 Example.ember_form) (Example.gallery_with []) in
  (Character.name <$> Store.load (P := Reference.platform) (browser g')) = ["Ember"].
Proof.
  cbv zeta.
  destruct (gallery_changes_are_stored (P := Reference.platform) (L := reference_laws)
              (Example.gallery_with [])) as (Hsubmit & _).
  destruct (Hsubmit Gallery.LocalImages Example.env0 Example.ember_form) as [Hload _];
    [discriminate|reflexivity|].
  rewrite Hload. reflexivity.
Defined.

(** X20.  The store follows the detail page's memory, and the gallery
    sees it.  Whenever [handleAddItem] or [removeItem] has changed the
    collection and the store took the text, the store holds the collection
    the detail page holds, so a gallery opened next starts from it. *)
Theorem bag_changes_reach_gallery {P : Platform} {L : JSONLaws P} :
  forall (s : Detail.State),
    let stored (s' : Detail.State) :=
      Detail.characters s' <> Detail.characters s ->
      accepts (localQuota (browser s)) (JSON_stringify (Detail.characters s')) = true ->
      Store.load (browser s') = Detail.characters s'
      /\ forall g, browser g = browser s' ->
                   Gallery.characters (exec Gallery.constructor g) = Detail.characters s' in
    (forall env form, stored (exec (Detail.handleAddItem env form) s))
    /\ (forall answer index, stored (exec (Detail.removeItem answer index) s)).
Proof.
  intros s stored.
  assert (Hreload : forall s', Store.load (browser s') = Detail.characters s' ->
            Store.load (browser s') = Detail.characters s'
            /\ forall g, browser g = browser s' ->
                 Gallery.characters (exec Gallery.constructor g) = Detail.characters s').
  { intros s' Hload. split; [done|]. intros g Hg.
    unfold exec. rewrite gallery_constructor_run. cbn [snd Gallery.rendered
      Gallery.characters Gallery.with_characters]. by rewrite Hg. }
  split.
  - intros env form Hchanged Hfits. apply Hreload.
    destruct (handleAddItem_saves env form s) as [Hsame | (b & Hcs & Hbrowser)]; [done|].
    by apply (bag_change_stored b s).
  - intros answer index Hchanged Hfits. apply Hreload.
    destruct (removeItem_saves answer index s) as [Hsame | (b & Hcs & Hbrowser)]; [done|].
    by apply (bag_change_stored b s).
Qed.

(** X20, witness: the Rune of Power, added to Ember's bag on the detail
    page, is in Ember's bag when the gallery loads. *)
Lemma bag_changes_reach_gallery_witness :
  let s1 := exec (Detail.handleAddItem (P := Reference.platform) Example.env0
                    Example.rune_form) Example.detail_on_ember in
  let g := Gallery.mkState (browser s1) [] None [] in
  Gallery.characters (exec (Gallery.constructor (P := Reference.platform)) g)
  = Detail.characters s1
  /\ (length <$> (Character.bagOrEmpty <$> Detail.character s1)) = Some 1%nat.
Proof.
  cbv zeta.
  destruct (bag_changes_reach_gallery (P := Reference.platform) (L := reference_laws)
              Example.detail_on_ember) as (Hadd & _).
  destruct (Hadd Example.env0 Example.rune_form) as [_ Hgallery];
    [by vm_compute|by vm_compute|].
  split; [|by vm_compute].
  apply Hgallery. cbn [browser Gallery.state_browser Gallery.page_browser]. reflexivity.
Defined.

(** X21.  A character that was just created can be opened.  After a
    submission whose candidate is built and valid and that the store took,
    a click on the last card (the position that was the length of the
    collection) opens the detail page on that candidate, with the empty
    bag. *)
Theorem created_character_opens {P : Platform} {L : JSONLaws P} :
  forall (v : Gallery.Variant) (env : Env) (form : Gallery.Form.t) (g : Gallery.State)
         (data : Character.t),
    Gallery.characterData v env form = Normal data ->
    let i := length (Gallery.characters g) in
    Policy.valid v (Gallery.characters g) data = true ->
    accepts (localQuota (browser g))
            (JSON_stringify (Gallery.characters g ++ [data])%list) = true ->
    accepts (sessionQuota (browser g)) (pretty i) = true ->
    let g1 := exec (Gallery.handleFormSubmit v env form) g in
    let g2 := exec (Gallery.viewCharacter i) g1 in
    returns (Gallery.handleFormSubmit v env form) g = true
    /\ Gallery.cards g1 !! i = Some data
    /\ location (browser g2) = Some "detail.html"
    /\ Phase.Ready data (snd (Detail.constructor (browser g2)))
    /\ Detail.bagItems (snd (Detail.constructor (browser g2))) = Some [].
Proof.
  intros v env form g data Hdata i Hvalid Hfits Hsession g1 g2.
  apply valid_no_failure in Hvalid.
  pose proof (handleFormSubmit_run v env form data g Hdata) as Hrun.
  rewrite Hvalid in Hrun.
  set (cs1 := (Gallery.characters g ++ [data])%list) in *.
  assert (Hg1 : g1 = Gallery.with_message (CharacterCreated (Character.name data)) success
                       (Gallery.rendered
                          (with_browser (with_localStorage (Some (JSON_stringify cs1))
                                           (browser g))
                             (Gallery.with_characters cs1 g)))).
  { unfold g1, exec at 1. rewrite Hrun.
    unfold exec. rewrite gallery_saveCharacters_run.
    cbn in Hfits |- *. by rewrite Hfits. }
  assert (Hlook : cs1 !! i = Some data) by apply list_lookup_middle, eq_refl.
  assert (Hb2 : browser g2 = with_location "detail.html"
                  (with_sessionStorage (Some (pretty i))
                     (with_localStorage (Some (JSON_stringify cs1)) (browser g)))).
  { unfold g2, exec. rewrite viewCharacter_run, Hg1.
    cbn in Hsession |- *. by rewrite Hsession. }
  assert (Hload : Store.load (browser g2) = cs1).
  { apply load_stringify. by rewrite Hb2. }
  assert (Hsel : sessionStorage (browser g2) = Some (pretty i)) by by rewrite Hb2.
  assert (Hready : Phase.Ready data (snd (Detail.constructor (browser g2)))).
  { destruct (constructor_resolves (browser g2) (pretty i) data Hsel) as (_ & ? & _); [|done].
    rewrite Hload, parseInt_pretty_nat. cbn.
    destruct (Z.leb_spec 0 (Z.of_nat i)); [|lia]. by rewrite Nat2Z.id. }
  split; [unfold returns; by rewrite Hrun|].
  split; [by rewrite Hg1|]. split; [by rewrite Hb2|]. split; [done|].
  destruct Hready as (_ & _ & -> & _).
  unfold Character.bagOrEmpty. by rewrite (characterData_bag v env form data Hdata).
Qed.

(** X21, witness: Ember, submitted to the empty gallery and opened. *)
Lemma created_character_opens_witness :
  let g1 := exec (Gallery.handleFormSubmit (P := Reference.platform) Gallery.LocalImages
                    Example.env0 Example.ember_form) (Example.gallery_with []) in
  Detail.bagItems
    (snd (Detail.constructor (P := Reference.platform)
            (browser (exec (Gallery.viewCharacter 0) g1)))) = Some [].
Proof.
  cbv zeta.
  destruct (created_character_opens (P := Reference.platform) (L := reference_laws)
              Gallery.LocalImages Example.env0 Example.ember_form (Example.gallery_with [])
              _ eq_refl)
    as (_ & _ & _ & _ & Hbag); [reflexivity|reflexivity|reflexivity|].
  exact Hbag.
Defined.

(** ** Blank names *)

Section Blank.

Lemma trimStart_blank (s : string) : Names.blank s = true -> trimStart s = "".
Proof.
  unfold Names.blank. induction s as [|c s IH]; [done|]. cbn.
  intros [Hc Hs]%andb_prop. rewrite Hc. by apply IH.
Qed.

Lemma trim_blank (s : string) : Names.blank s = true -> trim s = "".
Proof. intros Hs. unfold trim. by rewrite trimStart_blank. Qed.

End Blank.

(** X22.  A name of white space only is no name.  Both forms trim the
    name before they validate it, so a submission whose name is blank is
    turned away, on the gallery (once its candidate is built) as on the
    detail page: the message asks for the type when that is missing too
    and else for a longer name, and collection, page and browser stay as
    they are. *)
Theorem blank_name_rejected {P : Platform} :
  forall (g : Gallery.State) (d : Detail.State),
    (forall v env form data,
       Gallery.characterData v env form = Normal data ->
       Names.blank (Gallery.Form.name form) = true ->
       returns (Gallery.handleFormSubmit v env form) g = true
       /\ exec (Gallery.handleFormSubmit v env form) g
          = Gallery.with_message
              (if String.eqb (Gallery.Form.type form) "" then SelectCharacterType
               else CharacterNameTooShort) error g)
    /\ (forall env form,
          Names.blank (Detail.Form.name form) = true ->
          returns (Detail.handleAddItem env form) d = true
          /\ exec (Detail.handleAddItem env form) d
             = Detail.with_message
                 (if String.eqb (Detail.Form.type form) "" then SelectItemType
                  else ItemNameTooShort) error d).
Proof.
  intros g d. split.
  - intros v env form data Hdata Hblank.
    destruct (characterData_fields v env form data Hdata) as (_ & Htype & Hname & _).
    unfold returns, exec. rewrite (handleFormSubmit_run v env form data g Hdata).
    unfold Policy.first_failure.
    cbn [find Policy.source_order Policy.violates].
    rewrite Htype, Hname, (trim_blank _ Hblank).
    by destruct (String.eqb (Gallery.Form.type form) "").
  - intros env form Hblank.
    unfold returns, exec, Detail.handleAddItem, Detail.validateItemData, bind.
    cbn [Detail.itemData Item.type Item.name]. rewrite (trim_blank _ Hblank).
    rewrite truthy_eqb. by destruct (String.eqb (Detail.Form.type form) "").
Qed.

(** X22, witness: a dragon named with three blanks. *)
Lemma blank_name_rejected_witness :
  let form := Gallery.Form.mk "Dragon" "   " "A fierce red dragon" "dragon1.png" None in
  Gallery.message
    (exec (Gallery.handleFormSubmit (P := Reference.platform) Gallery.LocalImages
             Example.env0 form) (Example.gallery_with []))
  = Some (CharacterNameTooShort, error).
Proof.
  cbv zeta.
  destruct (blank_name_rejected (P := Reference.platform) (Example.gallery_with [])
              Example.detail_on_ember) as [Hsubmit _].
  destruct (Hsubmit Gallery.LocalImages Example.env0
              (Gallery.Form.mk "Dragon" "   " "A fierce red dragon" "dragon1.png" None)
              _ eq_refl eq_refl) as [_ Hstate].
  rewrite Hstate. reflexivity.
Defined.

(** ** The custom URL field that is not there *)

Lemma handleFormSubmit_built_returns {P : Platform}
      (v : Gallery.Variant) (env : Env) (form : Gallery.Form.t) (data : Character.t)
      (g : Gallery.State) :
  Gallery.characterData v env form = Normal data ->
  returns (Gallery.handleFormSubmit v env form) g = true.
Proof.
  intros Hdata. unfold returns. rewrite (handleFormSubmit_run v env form data g Hdata).
  by destruct (Policy.first_failure _ _ _).
Qed.

(** X23.  The first variant reads the custom URL field without a guard:
    a submission whose form data has no such entry throws a TypeError
    before anything is validated, and page, collection and browser stay as
    they are; with the entry the submission returns.  The second variant
    guards the one field it reads, and every submission returns. *)
Theorem handleFormSubmit_missing_field {P : Platform} :
  forall (env : Env) (form : Gallery.Form.t) (g : Gallery.State),
    (Gallery.Form.customImageUrl form = None ->
     Gallery.handleFormSubmit Gallery.CustomImages env form g = (Throw TypeError, g))
    /\ (is_Some (Gallery.Form.customImageUrl form) ->
        returns (Gallery.handleFormSubmit Gallery.CustomImages env form) g = true)
    /\ returns (Gallery.handleFormSubmit Gallery.LocalImages env form) g = true.
Proof.
  intros env form g. split; [|split].
  - intros Hnone. apply handleFormSubmit_throws.
    unfold Gallery.characterData. by rewrite Hnone.
  - intros [custom Hcustom].
    eapply handleFormSubmit_built_returns.
    unfold Gallery.characterData. rewrite Hcustom. reflexivity.
  - eapply handleFormSubmit_built_returns. reflexivity.
Qed.

(** X23, witness: Ember with the image selected, submitted to the first
    variant. *)
Lemma handleFormSubmit_missing_field_witness :
  Gallery.handleFormSubmit (P := Reference.platform) Gallery.CustomImages
    Example.env0 Example.ember_form (Example.gallery_with [Example.sable])
  = (Throw TypeError, Example.gallery_with [Example.sable]).
Proof.
  destruct (handleFormSubmit_missing_field (P := Reference.platform) Example.env0
              Example.ember_form (Example.gallery_with [Example.sable]))
    as [Hthrows _].
  exact (Hthrows eq_refl).
Defined.

(** X24.  In the first variant, selecting an image breaks the
    submission.  The [change] listener of the select empties and disables
    the custom URL field once an image is chosen, the form data then has
    no entry for it, and the submission throws a TypeError out of
    [handleFormSubmit] with nothing changed.  Choosing the empty option
    enables the field again, and typing in the enabled field keeps it
    enabled: those submissions return. *)
Theorem selected_image_breaks_submit {P : Platform} :
  forall (env : Env) (f : CharacterForm.t) (g : Gallery.State),
    (forall value,
       truthy value = true ->
       let f' := CharacterForm.imageSelect_change value f in
       CharacterForm.imageSelect f' = value
       /\ CharacterForm.customImageUrl f' = ""
       /\ CharacterForm.disabled f' = true
       /\ Gallery.handleFormSubmit Gallery.CustomImages env (CharacterForm.formData f') g
          = (Throw TypeError, g))
    /\ returns (Gallery.handleFormSubmit Gallery.CustomImages env
                  (CharacterForm.formData (CharacterForm.imageSelect_change "" f))) g = true
    /\ (forall value,
          CharacterForm.disabled f = false ->
          returns (Gallery.handleFormSubmit Gallery.CustomImages env
                     (CharacterForm.formData (CharacterForm.customImageUrl_input value f))) g
          = true).
Proof.
  intros env f g. split; [|split].
  - intros value Hvalue f'. unfold f', CharacterForm.imageSelect_change.
    rewrite Hvalue. do 3 (split; [reflexivity|]). by apply handleFormSubmit_throws.
  - eapply handleFormSubmit_built_returns.
    unfold CharacterForm.imageSelect_change, CharacterForm.formData, Gallery.characterData.
    cbn. reflexivity.
  - intros value Henabled. unfold CharacterForm.customImageUrl_input.
    destruct (truthy (trim value));
      eapply handleFormSubmit_built_returns;
      unfold CharacterForm.formData, Gallery.characterData;
      cbn; rewrite Henabled; reflexivity.
Qed.

(** X24, witness: the form with 'dragon1.png' selected. *)
Lemma selected_image_breaks_submit_witness :
  let f := CharacterForm.imageSelect_change "dragon1.png"
             (CharacterForm.mk "Dragon" "Ember" "A fierce red dragon" ""
                               "https://example.org/ember.png" false) in
  CharacterForm.formData f = Example.ember_form
  /\ Gallery.handleFormSubmit (P := Reference.platform) Gallery.CustomImages
       Example.env0 (CharacterForm.formData f) (Example.gallery_with [])
     = (Throw TypeError, Example.gallery_with []).
Proof.
  cbv zeta. split; [reflexivity|].
  destruct (selected_image_breaks_submit (P := Reference.platform) Example.env0
              (CharacterForm.mk "Dragon" "Ember" "A fierce red dragon" ""
                                "https://example.org/ember.png" false)
              (Example.gallery_with [])) as [Hselect _].
  destruct (Hselect "dragon1.png" eq_refl) as (_ & _ & _ & Hthrows).
  exact Hthrows.
Defined.
